(** * The FZP checker runner, embedded and verified

    A shallow embedding of [scripts/checks/fzp_checker_runner.py]: the
    class [FZPCheckerRunner] with its methods [check], [_parse_fzp],
    [_get_checker], [_run_svg_checkers], [_get_svg_checker],
    [search_and_check_fzp_files] and [_search_fzp_files_with_svg], of the
    script that runs under [__main__], and of the two XML tests of
    [scripts/checks/test_checkers.py].

    Python statements become computations in a state-and-exception monad
    whose state holds the runner object, what was printed, and a log of
    the calls made to the outside (lxml, the file system, the rule
    classes).  A raised exception keeps the state reached so far, as in
    Python. *)

From Stdlib Require Import String Ascii List ZArith Lia Bool DecimalString.
Import ListNotations.
Local Open Scope string_scope.
Local Open Scope list_scope.
Local Open Scope Z_scope.

Infix "^^" := String.append (at level 60, right associativity).

(** ** The fragments of Python's library the runner relies on *)

Module Py.

(** [str(n)] for an integer. *)
Definition str_of_int (z : Z) : string :=
  NilZero.string_of_int (Z.to_int z).

(** [sub in s] on strings. *)
Fixpoint str_in (sub s : string) : bool :=
  if prefix sub s then true
  else match s with
       | EmptyString => false
       | String _ rest => str_in sub rest
       end.

(** [s.endswith(suffix)]. *)
Definition endswith (s suffix : string) : bool :=
  let n := String.length s in
  let m := String.length suffix in
  if (m <=? n)%nat then String.eqb (substring (n - m) m s) suffix
  else false.

(** [s.split(sep)] for a one-character separator: never empty, the
    empty string splits into one empty piece. *)
Fixpoint split (sep : ascii) (s : string) : list string :=
  match s with
  | EmptyString => [EmptyString]
  | String c rest =>
      if Ascii.eqb c sep then EmptyString :: split sep rest
      else match split sep rest with
           | piece :: pieces => String c piece :: pieces
           | [] => [String c EmptyString]
           end
  end.

(** [x in xs] for a list of strings. *)
Definition mem (x : string) (xs : list string) : bool :=
  existsb (String.eqb x) xs.

(** [os.sep] on the POSIX systems the scripts run on. *)
Definition sep : ascii := "/"%char.

(** [os.path.basename]: what follows the last separator. *)
Definition basename (p : string) : string :=
  last (split sep p) EmptyString.

(** [os.path.join] of two components ([posixpath.join]). *)
Definition join (a b : string) : string :=
  if prefix "/" b then b
  else if String.eqb a "" then b
  else if endswith a "/" then a ^^ b
  else a ^^ "/" ^^ b.

End Py.

(** ** Parsed documents (lxml) *)

#[warnings="-register-all"]
Inductive element : Type :=
| Element (tag : string) (attrib : list (string * string))
          (text : option string) (children : list element).

Definition tag (e : element) : string :=
  let 'Element t _ _ _ := e in t.
Definition attrib (e : element) : list (string * string) :=
  let 'Element _ a _ _ := e in a.
Definition children (e : element) : list element :=
  let 'Element _ _ _ c := e in c.

(** [e.get(key)]: the attribute's value, [None] when it is absent. *)
Fixpoint assoc (key : string) (kvs : list (string * string)) : option string :=
  match kvs with
  | [] => None
  | (k, v) :: rest => if String.eqb k key then Some v else assoc key rest
  end.

Definition get (e : element) (key : string) : option string :=
  assoc key (attrib e).

(** [e.xpath("*")]: the child elements, in document order. *)
Definition xpath_star (e : element) : list element := children e.

(** [e.xpath(name)]: the child elements with that tag. *)
Definition xpath_child (name : string) (e : element) : list element :=
  filter (fun c => String.eqb (tag c) name) (children e).

(** [doc.xpath("//name")]: every element of the document with that tag,
    the root included, in document order. *)
Fixpoint descendants_or_self (e : element) : list element :=
  let 'Element _ _ _ cs := e in
  e :: flat_map descendants_or_self cs.

Definition xpath_anywhere (name : string) (root : element) : list element :=
  filter (fun c => String.eqb (tag c) name) (descendants_or_self root).

(** [e.clear()]: drops attributes, text and children, keeps the tag. *)
Definition clear (e : element) : element := Element (tag e) [] None [].

(** An [ElementTree] as returned by [etree.parse]. *)
Record document : Type := Document { getroot : element }.

Definition clear_root (d : document) : document :=
  Document (clear (getroot d)).

(** ** Exceptions and results *)

Inductive exn : Type :=
| XMLSyntaxError (msg : string)
| ValueError (msg : string)
| IndexError (msg : string)
| UnboundLocalError (name : string)
| OtherError (msg : string).

Inductive res (A : Type) : Type :=
| Ok (a : A)
| Raise (e : exn).
Arguments Ok {A} a.
Arguments Raise {A} e.

(** ** The rule classes and the registries

    [AVAILABLE_CHECKERS] and [SVG_AVAILABLE_CHECKERS] are written out in
    the runner's file; the classes themselves come from the modules
    [fzp_checkers] and [svg_checkers]. *)

Inductive fzp_checker : Type :=
| FZPMissingTagsChecker
| FZPConnectorTerminalChecker
| FZPConnectorVisibilityChecker
| FZPPCBConnectorStrokeChecker.

Inductive svg_checker : Type :=
| SVGFontSizeChecker
| SVGViewBoxChecker
| SVGIdsChecker.

Definition AVAILABLE_CHECKERS : list fzp_checker :=
  [FZPMissingTagsChecker; FZPConnectorTerminalChecker;
   FZPConnectorVisibilityChecker; FZPPCBConnectorStrokeChecker].

Definition SVG_AVAILABLE_CHECKERS : list svg_checker :=
  [SVGFontSizeChecker; SVGViewBoxChecker; SVGIdsChecker].

Definition fzp_checker_eqb (a b : fzp_checker) : bool :=
  match a, b with
  | FZPMissingTagsChecker, FZPMissingTagsChecker
  | FZPConnectorTerminalChecker, FZPConnectorTerminalChecker
  | FZPConnectorVisibilityChecker, FZPConnectorVisibilityChecker
  | FZPPCBConnectorStrokeChecker, FZPPCBConnectorStrokeChecker => true
  | _, _ => false
  end.

(** What one call of a rule's [check()] does: the lines it prints, then
    the count it returns or the exception it raises. *)
Record outcome : Type := Outcome {
  printed : list string;
  returned : res Z
}.

(** Everything the runner takes from outside its own file: the rule
    classes' [get_name] and [check], [etree.parse], [os.path.isfile],
    [FZPUtils.get_svg_path], [os.walk] and reading a text file.  A host
    is the outside at one moment: files do not change while the runner
    works, a rule's constructor only keeps its arguments, and what its
    [check()] does is determined by them.

    [read_text p] is [open(p, 'r')] followed by [read()]: the text of
    the file, or the exception raised when the file cannot be opened or
    its bytes are not text in the default encoding.  Python's
    [UnicodeDecodeError] is a [ValueError]; an [OSError] is none of the
    exceptions the script names, hence an [OtherError]. *)
Record host : Type := Host {
  fzp_get_name : fzp_checker -> string;
  fzp_check : fzp_checker -> document -> option string -> outcome;
  svg_get_name : svg_checker -> string;
  svg_check : svg_checker -> document -> list string -> outcome;
  etree_parse : string -> res document;
  isfile : string -> bool;
  get_svg_path : string -> string -> string -> option string;
  os_walk : string -> list (string * list string * list string);
  read_text : string -> res string
}.

(** ** The runner object and the state of a run *)

Record FZPCheckerRunner : Type := Runner {
  path : string;
  verbose : bool;
  total_errors : Z
}.

(** [FZPCheckerRunner(path, verbose)]. *)
Definition __init__ (p : string) (v : bool) : FZPCheckerRunner :=
  Runner p v 0.

(** The calls to the outside a run makes, logged in order. *)
Inductive call : Type :=
| CallParse (p : string)
| CallGetSvgPath (fzp image view : string)
| CallIsFile (p : string)
| CallCheck (name : string).

Record world : Type := World {
  self : FZPCheckerRunner;
  stdout : list string;
  calls : list call;
  (** the local variable [svg_doc] of the running [_run_svg_checkers];
      [None] while it is unbound *)
  svg_doc : option document
}.

Definition M (A : Type) : Type := world -> res A * world.

Definition ret {A} (a : A) : M A := fun w => (Ok a, w).

Definition bind {A B} (m : M A) (k : A -> M B) : M B :=
  fun w => match m w with
           | (Ok a, w') => k a w'
           | (Raise e, w') => (Raise e, w')
           end.

Definition raise {A} (e : exn) : M A := fun w => (Raise e, w).

(** A call that does not touch the state: its value, or what it
    raises. *)
Definition lift {A} (r : res A) : M A := fun w => (r, w).

Declare Scope py_scope.
Delimit Scope py_scope with py.
Notation "x <- m ;; k" := (bind m (fun x => k))
  (at level 100, m at next level, right associativity) : py_scope.
Notation "m ;; k" := (bind m (fun _ => k))
  (at level 100, right associativity) : py_scope.
Local Open Scope py_scope.

(** [try: m  except <those the handler takes>: handler]. *)
Definition try_except {A} (m : M A) (handler : exn -> option (M A)) : M A :=
  fun w => match m w with
           | (Ok a, w') => (Ok a, w')
           | (Raise e, w') =>
               match handler e with
               | Some h => h w'
               | None => (Raise e, w')
               end
           end.

(** [try: m  finally: fin]: [fin] always runs; what it raises replaces
    the outcome of [m]. *)
Definition try_finally {A} (m : M A) (fin : M unit) : M A :=
  fun w => let (r, w') := m w in
           match fin w' with
           | (Ok _, w'') => (r, w'')
           | (Raise e, w'') => (Raise e, w'')
           end.

(** [for x in xs: body x]. *)
Fixpoint for_each {A} (xs : list A) (body : A -> M unit) : M unit :=
  match xs with
  | [] => ret tt
  | x :: rest => body x ;; for_each rest body
  end.

Definition when (b : bool) (m : M unit) : M unit :=
  if b then m else ret tt.

Definition print (line : string) : M unit :=
  fun w => (Ok tt, World (self w) (stdout w ++ [line]) (calls w) (svg_doc w)).

Definition log (c : call) : M unit :=
  fun w => (Ok tt, World (self w) (stdout w) (calls w ++ [c]) (svg_doc w)).

Definition get_self : M FZPCheckerRunner := fun w => (Ok (self w), w).

Definition set_total_errors (n : Z) : M unit :=
  fun w => (Ok tt, World (Runner (path (self w)) (verbose (self w)) n)
                         (stdout w) (calls w) (svg_doc w)).

Definition set_path (p : string) : M unit :=
  fun w => (Ok tt, World (Runner p (verbose (self w)) (total_errors (self w)))
                         (stdout w) (calls w) (svg_doc w)).

(** [self.total_errors += n]. *)
Definition add_errors (n : Z) : M unit :=
  fun w => (Ok tt, World (Runner (path (self w)) (verbose (self w))
                                 (total_errors (self w) + n))
                         (stdout w) (calls w) (svg_doc w)).

Definition assign_svg_doc (d : option document) : M unit :=
  fun w => (Ok tt, World (self w) (stdout w) (calls w) d).

(** Reading the local [svg_doc]: an [UnboundLocalError] before its first
    assignment. *)
Definition read_svg_doc : M document :=
  fun w => match svg_doc w with
           | Some d => (Ok d, w)
           | None => (Raise (UnboundLocalError "svg_doc"), w)
           end.

(** [xs[0]]. *)
Definition first_item {A} (xs : list A) : M A :=
  match xs with
  | x :: _ => ret x
  | [] => raise (IndexError "list index out of range")
  end.

(** A rule's [check()]: its lines reach standard output, then it returns
    or raises. *)
Definition run_outcome (name : string) (o : outcome) : M Z :=
  log (CallCheck name) ;;
  for_each (printed o) print ;;
  match returned o with
  | Ok n => ret n
  | Raise e => raise e
  end.

(** ** The methods of [FZPCheckerRunner] *)

Section Methods.

Variable E : host.

(** [etree.parse(p)]. *)
Definition parse (p : string) : M document :=
  log (CallParse p) ;;
  match etree_parse E p with
  | Ok d => ret d
  | Raise e => raise e
  end.

Definition _parse_fzp : M document :=
  me <- get_self ;;
  fzp_doc <- parse (path me) ;;
  ret fzp_doc.

(** A rule object: the class it was built from and the arguments its
    constructor received. *)
Record fzp_instance : Type := FzpInstance {
  fzp_class : fzp_checker;
  fzp_arg_doc : document;
  fzp_arg_path : option string
}.

Record svg_instance : Type := SvgInstance {
  svg_class : svg_checker;
  svg_arg_doc : document;
  svg_arg_layer_ids : list string
}.

Definition path_aware (checker : fzp_checker) : bool :=
  existsb (fzp_checker_eqb checker)
    [FZPConnectorTerminalChecker; FZPConnectorVisibilityChecker;
     FZPPCBConnectorStrokeChecker].

(** The loop of [_get_checker] over the registry: the first class
    whose name is the requested one. *)
Fixpoint find_checker (registry : list fzp_checker) (check_type : string)
  : option fzp_checker :=
  match registry with
  | [] => None
  | checker :: rest =>
      if String.eqb (fzp_get_name E checker) check_type then Some checker
      else find_checker rest check_type
  end.

Definition _get_checker (check_type : string) (fzp_doc : document)
  : M fzp_instance :=
  me <- get_self ;;
  match find_checker AVAILABLE_CHECKERS check_type with
  | Some checker =>
      if path_aware checker
      then ret (FzpInstance checker fzp_doc (Some (path me)))
      else ret (FzpInstance checker fzp_doc None)
  | None => raise (ValueError ("Invalid check type: " ^^ check_type))
  end.

Fixpoint find_svg_checker (registry : list svg_checker) (check_type : string)
  : option svg_checker :=
  match registry with
  | [] => None
  | checker :: rest =>
      if String.eqb (svg_get_name E checker) check_type then Some checker
      else find_svg_checker rest check_type
  end.

Definition _get_svg_checker (check_type : string) (svg : document)
           (layer_ids : list string) : M svg_instance :=
  match find_svg_checker SVG_AVAILABLE_CHECKERS check_type with
  | Some checker => ret (SvgInstance checker svg layer_ids)
  | None => raise (ValueError ("Invalid SVG check type: " ^^ check_type))
  end.

(** [checker.check()] on a rule object. *)
Definition fzp_run (c : fzp_instance) : M Z :=
  run_outcome (fzp_get_name E (fzp_class c))
              (fzp_check E (fzp_class c) (fzp_arg_doc c) (fzp_arg_path c)).

Definition svg_run (c : svg_instance) : M Z :=
  run_outcome (svg_get_name E (svg_class c))
              (svg_check E (svg_class c) (svg_arg_doc c) (svg_arg_layer_ids c)).

(** The [layerId] values collected from the [layer] children; an
    absent or empty attribute is left out. *)
Fixpoint collect_layer_ids (layer_elements : list element) : list string :=
  match layer_elements with
  | [] => []
  | layer_element :: rest =>
      match get layer_element "layerId" with
      | Some (String c s) => String c s :: collect_layer_ids rest
      | _ => collect_layer_ids rest
      end
  end.

(** The body of the loop over [svg_check_types], run on a loaded SVG. *)
Definition run_svg_check_type (svg_path view_tag : string) (svg : document)
           (layer_ids : list string) (check_type : string) : M unit :=
  me <- get_self ;;
  checker <- _get_svg_checker check_type svg layer_ids ;;
  when (verbose me)
       (print ("Running SVG check: " ^^ svg_get_name E (svg_class checker)
                 ^^ " on " ^^ svg_path ^^ " for " ^^ view_tag)) ;;
  errors <- svg_run checker ;;
  add_errors errors.

(** The [try ... except etree.XMLSyntaxError ... finally] statement
    that loads one SVG asset and runs the SVG rules over it. *)
Definition check_svg (svg_path : string) (view_tag : string)
           (layer_ids svg_check_types : list string) : M unit :=
  try_finally
    (try_except
       (d <- parse svg_path ;;
        assign_svg_doc (Some d) ;;
        for_each svg_check_types
                 (run_svg_check_type svg_path view_tag d layer_ids))
       (fun e =>
          match e with
          | XMLSyntaxError msg =>
              Some (print ("Invalid XML in SVG: " ^^ msg) ;; add_errors 1)
          | _ => None
          end))
    (d <- read_svg_doc ;;
     assign_svg_doc (Some (clear_root d))).

(** The body of the loop over the views. *)
Definition run_view (svg_check_types : list string) (view : element)
  : M unit :=
  me <- get_self ;;
  if String.eqb (tag view) "defaultUnits" then ret tt
  else
    match xpath_child "layers" view with
    | layers :: _ =>
        let image := get layers "image" in
        let layer_ids := collect_layer_ids (xpath_child "layer" layers) in
        match image with
        | Some (String c s) =>
            let image := String c s in
            log (CallGetSvgPath (path me) image (tag view)) ;;
            match get_svg_path E (path me) image (tag view) with
            | None => ret tt
            | Some svg_path =>
                log (CallIsFile svg_path) ;;
                if isfile E svg_path
                then check_svg svg_path (tag view) layer_ids svg_check_types
                else
                  print ("Warning: SVG '" ^^ svg_path ^^ "' for view '"
                           ^^ tag view ^^ "' of file '" ^^ path me
                           ^^ "' not found.") ;;
                  add_errors 1
            end
        | _ => ret tt
        end
    | [] =>
        print ("Warning: No 'layers' element found in view '"
                 ^^ tag view ^^ "' of file '" ^^ path me ^^ "'")
    end.

Definition _run_svg_checkers (fzp_doc : document)
           (svg_check_types : list string) : M unit :=
  assign_svg_doc None ;;
  views <- first_item (xpath_anywhere "views" (getroot fzp_doc)) ;;
  for_each (xpath_star views) (run_view svg_check_types).

(** The body of the loop over [check_types]. *)
Definition run_check_type (fzp_doc : document) (check_type : string)
  : M unit :=
  me <- get_self ;;
  checker <- _get_checker check_type fzp_doc ;;
  when (verbose me)
       (print ("Running check: " ^^ fzp_get_name E (fzp_class checker))) ;;
  errors <- fzp_run checker ;;
  add_errors errors.

(** [check]; the closing [fzp_doc.getroot().clear()] only empties the
    tree held by the local [fzp_doc], which is dropped on return. *)
Definition check (check_types svg_check_types : list string) : M unit :=
  set_total_errors 0 ;;
  parsed <- try_except
              (fzp_doc <- _parse_fzp ;; ret (Some fzp_doc))
              (fun e =>
                 match e with
                 | XMLSyntaxError msg =>
                     Some (print ("Invalid XML: " ^^ msg) ;;
                           add_errors 1 ;;
                           ret None)
                 | _ => None
                 end) ;;
  match parsed with
  | None => ret tt
  | Some fzp_doc =>
      me <- get_self ;;
      when (verbose me) (print ("Scanning file: " ^^ path me)) ;;
      for_each check_types (run_check_type fzp_doc) ;;
      match svg_check_types with
      | [] => ret tt
      | _ :: _ => _run_svg_checkers fzp_doc svg_check_types
      end ;;
      me <- get_self ;;
      when (verbose me || (0 <? total_errors me))
           (print ("Total errors in " ^^ path me ^^ ": "
                     ^^ Py.str_of_int (total_errors me)))
  end.

(** The loop over the [files] of one directory, with the list
    [fzp_files] built so far.  A read that raises ends the loop, and the
    method, with that exception: nothing around it catches anything. *)
Fixpoint scan_files (svg_filename root : string) (files fzp_files : list string)
  : res (list string) :=
  match files with
  | [] => Ok fzp_files
  | file :: rest =>
      if Py.endswith file ".fzp" then
        let fzp_path := Py.join root file in
        match read_text E fzp_path with
        | Ok fzp_content =>
            if Py.str_in svg_filename fzp_content
            then scan_files svg_filename root rest (fzp_files ++ [fzp_path])
            else scan_files svg_filename root rest fzp_files
        | Raise e => Raise e
        end
      else scan_files svg_filename root rest fzp_files
  end.

(** The loop over the triples [os.walk] yields. *)
Fixpoint scan_walk (svg_filename : string) (is_obsolete : bool)
         (visits : list (string * list string * list string))
         (fzp_files : list string) : res (list string) :=
  match visits with
  | [] => Ok fzp_files
  | (root, dirs, files) :: rest =>
      if negb is_obsolete && Py.mem "obsolete" (Py.split Py.sep root)
      then scan_walk svg_filename is_obsolete rest fzp_files
      else
        match scan_files svg_filename root files fzp_files with
        | Ok fzp_files => scan_walk svg_filename is_obsolete rest fzp_files
        | Raise e => Raise e
        end
  end.

Definition _search_fzp_files_with_svg (svg_file fzp_dir : string)
  : res (list string) :=
  let fzp_files := [] in
  let svg_filename := Py.basename svg_file in
  let is_obsolete := Py.mem "obsolete" (Py.split Py.sep svg_file) in
  scan_walk svg_filename is_obsolete (os_walk E fzp_dir) fzp_files.

(** The loop of [search_and_check_fzp_files], with its local [errors]. *)
Fixpoint check_each (fzp_files : list string)
         (check_types svg_check_types : list string) (errors : Z) : M Z :=
  match fzp_files with
  | [] => ret errors
  | fzp_file :: rest =>
      set_path fzp_file ;;
      check check_types svg_check_types ;;
      me <- get_self ;;
      check_each rest check_types svg_check_types (errors + total_errors me)
  end.

Definition search_and_check_fzp_files (svg_file fzp_dir : string)
           (check_types svg_check_types : list string) : M Z :=
  let errors := 0 in
  fzp_files <- lift (_search_fzp_files_with_svg svg_file fzp_dir) ;;
  check_each fzp_files check_types svg_check_types errors.

(** Running a method on a runner object, from an empty output. *)
Definition start (r : FZPCheckerRunner) : world := World r [] [] None.

End Methods.

(** ** A concrete host, for running the model

    One part file, [core/part.fzp], with four views: a [defaultUnits]
    pseudo-view, an icon view without [layers], a breadboard view whose
    SVG is damaged and a PCB view whose SVG loads.  [core/flat.fzp] has
    no [views] element, [core/bare.fzp] has one icon view without
    [layers], and [core/broken.fzp] is not well-formed. *)

Module Sample.

Definition layer (id : string) : element :=
  Element "layer" [("layerId", id)] None [].

Definition part_root : element :=
  Element "module" [("moduleId", "part")] None
    [Element "title" [] (Some "Part") [];
     Element "views" [] None
       [Element "defaultUnits" [] None [];
        Element "iconView" [] None [];
        Element "breadboardView" [] None
          [Element "layers" [("image", "breadboard/part.svg")] None
             [layer "breadboard"]];
        Element "pcbView" [] None
          [Element "layers" [("image", "pcb/part.svg")] None
             [layer "copper0"; layer "copper1"; Element "layer" [] None []]]]].

Definition flat_root : element :=
  Element "module" [] None [Element "title" [] (Some "Flat") []].

Definition bare_root : element :=
  Element "module" [] None
    [Element "views" [] None [Element "iconView" [] None []]].

Definition pcb_svg : document :=
  Document (Element "svg" [("viewBox", "0 0 10 10")] None
              [Element "g" [("id", "copper0")] None []]).

Definition fzp_name (c : fzp_checker) : string :=
  match c with
  | FZPMissingTagsChecker => "missing_tags"
  | FZPConnectorTerminalChecker => "connector_terminal"
  | FZPConnectorVisibilityChecker => "connector_visibility"
  | FZPPCBConnectorStrokeChecker => "pcb_connector_stroke"
  end.

Definition svg_name (c : svg_checker) : string :=
  match c with
  | SVGFontSizeChecker => "font_size"
  | SVGViewBoxChecker => "viewbox"
  | SVGIdsChecker => "ids"
  end.

Definition parse_file (p : string) : res document :=
  if String.eqb p "core/part.fzp" then Ok (Document part_root)
  else if String.eqb p "core/flat.fzp" then Ok (Document flat_root)
  else if String.eqb p "core/bare.fzp" then Ok (Document bare_root)
  else if String.eqb p "core/broken.fzp"
       then Raise (XMLSyntaxError "Opening and ending tag mismatch")
  else if String.eqb p "svg/core/pcb/part.svg" then Ok pcb_svg
  else if String.eqb p "svg/core/breadboard/part.svg"
       then Raise (XMLSyntaxError "Premature end of data")
  else Raise (OtherError "No such file").

Definition isfile_sample (p : string) : bool :=
  String.eqb p "svg/core/pcb/part.svg"
  || String.eqb p "svg/core/breadboard/part.svg".

Definition E : host :=
  {| fzp_get_name := fzp_name;
     fzp_check := fun c _ _ =>
       match c with
       | FZPMissingTagsChecker => Outcome [] (Ok 0)
       | _ => Outcome ["Invisible connector 'connector0pin'"] (Ok 1)
       end;
     svg_get_name := svg_name;
     svg_check := fun c _ ids =>
       match c with
       | SVGIdsChecker => Outcome ["Duplicate id 'copper0'"] (Ok 2)
       | _ => Outcome [] (Ok 0)
       end;
     etree_parse := parse_file;
     isfile := isfile_sample;
     get_svg_path := fun _ image _ => Some ("svg/core/" ^^ image);
     os_walk := fun _ => [];
     read_text := fun _ => Ok "" |}.

Definition runner : FZPCheckerRunner := __init__ "core/part.fzp" false.

End Sample.

(** ** Directory trees and [os.walk]

    [_search_fzp_files_with_svg] sees the file system through [os.walk]
    and [open(...).read()].  A directory is the list of its regular
    files and the list of its named subdirectories; [walk] is the
    top-down traversal [os.walk] performs, one triple
    [(root, dirs, files)] per directory. *)

Module FileTree.

#[warnings="-register-all"]
Inductive dir : Type :=
| Dir (files : list string) (subdirs : list (string * dir)).

Definition files (d : dir) : list string :=
  let 'Dir fs _ := d in fs.
Definition subdirs (d : dir) : list (string * dir) :=
  let 'Dir _ ds := d in ds.

Fixpoint walk (top : string) (d : dir)
  : list (string * list string * list string) :=
  let 'Dir fs ds := d in
  (top, map fst ds, fs)
    :: flat_map (fun entry => walk (Py.join top (fst entry)) (snd entry)) ds.

(** [holds d names file]: going down from [d] through the
    subdirectories [names] leads to a directory holding [file]. *)
Inductive holds : dir -> list string -> string -> Prop :=
| holds_here fs ds file :
    In file fs -> holds (Dir fs ds) [] file
| holds_below fs ds name sub names file :
    In (name, sub) ds -> holds sub names file ->
    holds (Dir fs ds) (name :: names) file.

(** The path [os.walk] gives to the directory reached from [top]
    through [names]. *)
Definition path_of (top : string) (names : list string) : string :=
  fold_left Py.join names top.

Definition segments (p : string) : list string := Py.split Py.sep p.

(** A name as a directory entry has it: without any separator. *)
Fixpoint plain (name : string) : bool :=
  match name with
  | EmptyString => true
  | String c rest => negb (Ascii.eqb c Py.sep) && plain rest
  end.

(** Batch discovery as the specification words it: the [.fzp] files
    under the root whose content contains the SVG's base name, those
    under a directory path with an [obsolete] segment left out unless
    the SVG's own path has one. *)
Definition batch_discovery_spec (E : host) (svg_file fzp_dir : string)
           (tree : dir) (fzp_path : string) : Prop :=
  exists names file,
    holds tree names file /\
    fzp_path = Py.join (path_of fzp_dir names) file /\
    Py.endswith file ".fzp" = true /\
    (exists fzp_content,
        read_text E fzp_path = Ok fzp_content /\
        Py.str_in (Py.basename svg_file) fzp_content = true) /\
    (In "obsolete" (segments (path_of fzp_dir names)) ->
     In "obsolete" (segments svg_file)).

(** The part files discovery opens: the [.fzp] files under the root,
    those in a directory whose path has an [obsolete] segment left out
    unless the SVG's own path has one. *)
Definition opens (svg_file fzp_dir : string) (tree : dir)
           (fzp_path : string) : Prop :=
  exists names file,
    holds tree names file /\
    fzp_path = Py.join (path_of fzp_dir names) file /\
    Py.endswith file ".fzp" = true /\
    (In "obsolete" (segments (path_of fzp_dir names)) ->
     In "obsolete" (segments svg_file)).

(** Every file discovery opens can be read as text. *)
Definition all_readable (E : host) (svg_file fzp_dir : string) (tree : dir)
  : Prop :=
  forall fzp_path,
    opens svg_file fzp_dir tree fzp_path ->
    exists fzp_content, read_text E fzp_path = Ok fzp_content.

(** A parts directory with a core folder, an obsolete folder and a
    folder nested below the obsolete one. *)
Definition parts : dir :=
  Dir ["README.md"]
      [("core", Dir ["led.fzp"; "resistor.fzp"; "notes.txt"] []);
       ("obsolete", Dir ["led_old.fzp"]
                        [("archive", Dir ["led_older.fzp"] [])])].

Definition parts_host : host :=
  {| fzp_get_name := Sample.fzp_name;
     fzp_check := fun _ _ _ => Outcome [] (Ok 0);
     svg_get_name := Sample.svg_name;
     svg_check := fun _ _ _ => Outcome [] (Ok 0);
     etree_parse := fun _ => Raise (OtherError "No such file");
     isfile := fun _ => false;
     get_svg_path := fun _ _ _ => None;
     os_walk := fun top => walk top parts;
     read_text := fun p =>
       if Py.str_in "led" p then Ok "<layers image='breadboard/led.svg'>"
       else Ok "<layers image='breadboard/resistor.svg'>" |}.

End FileTree.

(** ** What a run is expected to do

    The vocabulary of the statements below: what the rule behind a
    requested name does on a document, and how two states of a run
    compare. *)

Section Expected.

Variable E : host.

(** The path argument [_get_checker] hands to a rule's constructor. *)
Definition fzp_args (p : string) (c : fzp_checker) : option string :=
  if path_aware c then Some p else None.

(** The outcome of [check()] for the FZP rule registered under a name;
    [None] when no rule has that name. *)
Definition fzp_outcome (p : string) (doc : document) (check_type : string)
  : option outcome :=
  match find_checker E AVAILABLE_CHECKERS check_type with
  | Some c => Some (fzp_check E c doc (fzp_args p c))
  | None => None
  end.

Definition svg_outcome (svg : document) (layer_ids : list string)
           (check_type : string) : option outcome :=
  match find_svg_checker E SVG_AVAILABLE_CHECKERS check_type with
  | Some c => Some (svg_check E c svg layer_ids)
  | None => None
  end.

(** The rule is registered and its [check()] returns the count [n]. *)
Definition returns (o : option outcome) (n : Z) : Prop :=
  exists out, o = Some out /\ returned out = Ok n.

Definition passes (o : option outcome) : Prop := exists n, returns o n.

Definition count_of (o : option outcome) : Z :=
  match o with
  | Some (Outcome _ (Ok n)) => n
  | _ => 0
  end.

Definition lines_of (o : option outcome) : list string :=
  match o with
  | Some out => printed out
  | None => []
  end.

Definition sum (ns : list Z) : Z := fold_right Z.add 0 ns.

(** The lines one requested FZP rule adds to the output. *)
Definition fzp_lines (v : bool) (p : string) (doc : document)
           (check_type : string) : list string :=
  (if v then ["Running check: " ^^ check_type] else [])
    ++ lines_of (fzp_outcome p doc check_type).

Definition svg_lines (v : bool) (svg_path view_tag : string) (svg : document)
           (layer_ids : list string) (check_type : string) : list string :=
  (if v then ["Running SVG check: " ^^ check_type ^^ " on " ^^ svg_path
                ^^ " for " ^^ view_tag] else [])
    ++ lines_of (svg_outcome svg layer_ids check_type).

(** The views [_run_svg_checkers] goes through: the children of the
    first [views] element of the document; none when the document has
    no such element, where the method raises before its loop. *)
Definition declared_views (doc : document) : list element :=
  match xpath_anywhere "views" (getroot doc) with
  | views :: _ => xpath_star views
  | [] => []
  end.

(** The SVG asset a view of the part file [p] makes the runner load:
    the [image] its [layers] element names, the path it resolves to and
    the layer ids collected.  There is one when the view is not
    [defaultUnits], has a [layers] element with a non-empty [image],
    and the image resolves to a file on disk. *)
Definition asset_of (p : string) (view : element)
  : option (string * string * list string) :=
  if String.eqb (tag view) "defaultUnits" then None
  else
    match xpath_child "layers" view with
    | layers :: _ =>
        match get layers "image" with
        | Some (String c s) =>
            match get_svg_path E p (String c s) (tag view) with
            | Some svg_path =>
                if isfile E svg_path
                then Some (String c s, svg_path,
                           collect_layer_ids (xpath_child "layer" layers))
                else None
            | None => None
            end
        | _ => None
        end
    | [] => None
    end.

(** A computation is tame when it leaves the runner's [path] and
    [verbose] alone, however it ends. *)
Definition tame {A} (m : M A) : Prop :=
  forall w, path (self (snd (m w))) = path (self w)
            /\ verbose (self (snd (m w))) = verbose (self w).

(** [ahead bound out cs w1 w2]: the two states hold the same runner
    object and [w1] has [out] printed and [cs] called before what [w2]
    has; when [bound] is set they also agree on the local [svg_doc]. *)
Definition ahead (bound : bool) (out : list string) (cs : list call)
           (w1 w2 : world) : Prop :=
  self w1 = self w2
  /\ stdout w1 = out ++ stdout w2
  /\ calls w1 = cs ++ calls w2
  /\ (bound = true -> svg_doc w1 = svg_doc w2).

(** A computation carries [R] to [R'] when, from states related by [R],
    it ends the same way in states related by [R']. *)
Definition carries {A} (R R' : world -> world -> Prop) (m : M A) : Prop :=
  forall w1 w2, R w1 w2 ->
    fst (m w1) = fst (m w2) /\ R' (snd (m w1)) (snd (m w2)).

(** The error count a file gets from a run on a fresh runner. *)
Definition fresh_total (v : bool) (check_types svg_check_types : list string)
           (fzp_file : string) : Z :=
  total_errors
    (self (snd (check E check_types svg_check_types
                      (start (__init__ fzp_file v))))).

(** A batch in which every file is checked by a runner of its own: the
    sum of the files' counts, or the first exception met. *)
Fixpoint batch_fresh (v : bool) (check_types svg_check_types : list string)
         (fzp_files : list string) (errors : Z) : res Z :=
  match fzp_files with
  | [] => Ok errors
  | fzp_file :: rest =>
      match fst (check E check_types svg_check_types
                       (start (__init__ fzp_file v))) with
      | Ok _ =>
          batch_fresh v check_types svg_check_types rest
            (errors + fresh_total v check_types svg_check_types fzp_file)
      | Raise e => Raise e
      end
  end.

End Expected.

(** ** Trees without their obsolete folders *)

Module Pruning.

Import FileTree.

(** The tree with every subdirectory named [obsolete] cut off, at any
    depth. *)
Fixpoint prune (d : dir) : dir :=
  let 'Dir fs ds := d in
  Dir fs (flat_map (fun entry =>
                      if String.eqb (fst entry) "obsolete" then []
                      else [(fst entry, prune (snd entry))])
                   ds).

(** Every directory name in the tree is a plain name. *)
#[warnings="-register-all"]
Inductive well_named : dir -> Prop :=
| well_named_dir fs ds :
    (forall name sub, In (name, sub) ds -> plain name = true /\ well_named sub) ->
    well_named (Dir fs ds).

(** The test that makes [_search_fzp_files_with_svg] pass over a
    directory of the walk. *)
Definition skipped (svg_file root : string) : bool :=
  negb (Py.mem "obsolete" (Py.split Py.sep svg_file))
  && Py.mem "obsolete" (Py.split Py.sep root).

(** What the files of one directory add to the list that
    [_search_fzp_files_with_svg] returns, when it returns. *)
Definition found_among (E : host) (svg_file root : string)
           (files : list string) : list string :=
  flat_map
    (fun file =>
       if Py.endswith file ".fzp" then
         let fzp_path := Py.join root file in
         match read_text E fzp_path with
         | Ok fzp_content =>
             if Py.str_in (Py.basename svg_file) fzp_content then [fzp_path]
             else []
         | Raise _ => []
         end
       else [])
    files.

(** What one directory of the walk adds to it. *)
Definition found_in (E : host) (svg_file : string)
           (visit : string * list string * list string) : list string :=
  let '(root, dirs, files) := visit in
  if skipped svg_file root then []
  else found_among E svg_file root files.

(** The host that sees another tree under every top, all else equal. *)
Definition on_tree (E : host) (tree : dir) : host :=
  {| fzp_get_name := fzp_get_name E;
     fzp_check := fzp_check E;
     svg_get_name := svg_get_name E;
     svg_check := svg_check E;
     etree_parse := etree_parse E;
     isfile := isfile E;
     get_svg_path := get_svg_path E;
     os_walk := fun top => walk top tree;
     read_text := read_text E |}.

End Pruning.

(** ** The command line

    The script part of the file: what runs under
    [if __name__ == "__main__"] once [argparse] has produced [args]. *)

Module Cli.

(** The parsed arguments: [path], [--checks], [--svg], [--file],
    [--verbose] and [--help]. *)
Record args : Type := Args {
  arg_path : string;
  arg_checks : list string;
  arg_svg : option string;
  arg_file : option string;
  arg_verbose : bool;
  arg_help : bool
}.

(** What the script takes from outside beyond the runner's host: the
    rules' descriptions, the help text of the parser, [os.path.isdir],
    [os.listdir], [json.load] on an opened file, the lines of a text
    file, [str.strip] (which removes leading and trailing white space
    as Python's [str] defines it, the white space beyond ASCII
    included), and the order in which a [set] of paths yields its
    elements. *)
Record shell : Type := Shell {
  fzp_get_description : fzp_checker -> string;
  svg_get_description : svg_checker -> string;
  help_text : string;
  isdir : string -> bool;
  listdir : string -> list string;
  json_load : string -> res (list string);
  read_lines : string -> res (list string);
  str_strip : string -> string;
  set_order : list string -> list string
}.

(** How the script ends when no exception escapes: through [exit], with
    the status given, or by reaching its last line. *)
Inductive ending : Type :=
| Exited (code : option Z)
| Finished.

Definition nl : string := String (Ascii.ascii_of_nat 10) EmptyString.

(** [c.isspace()] for an ASCII character. *)
Definition ascii_isspace (c : ascii) : bool :=
  let n := Ascii.nat_of_ascii c in
  ((9 <=? n)%nat && (n <=? 13)%nat) || ((28 <=? n)%nat && (n <=? 32)%nat).

Fixpoint ascii_lstrip (s : string) : string :=
  match s with
  | EmptyString => EmptyString
  | String c rest => if ascii_isspace c then ascii_lstrip rest else s
  end.

Fixpoint ascii_rstrip (s : string) : string :=
  match s with
  | EmptyString => EmptyString
  | String c rest =>
      match ascii_rstrip rest with
      | EmptyString =>
          if ascii_isspace c then EmptyString else String c EmptyString
      | kept => String c kept
      end
  end.

(** What [s.strip()] gives on a string of ASCII characters only; the
    sample shells below, whose files are ASCII, use it for
    [str_strip]. *)
Definition ascii_strip (s : string) : string := ascii_rstrip (ascii_lstrip s).

(** An optional string argument that counts as true: given and not
    empty. *)
Definition given (o : option string) : option string :=
  match o with
  | Some (String c s) => Some (String c s)
  | _ => None
  end.

(** [s.add(x)] and [s.update(xs)] on a set of paths, kept as the list
    of its distinct elements. *)
Definition set_add (x : string) (s : list string) : list string :=
  if Py.mem x s then s else s ++ [x].

Definition set_update (xs s : list string) : list string :=
  fold_left (fun acc x => set_add x acc) xs s.

(** [checker_runner = FZPCheckerRunner(None, verbose=args.verbose)]; the
    path stays unset until the loop over the files assigns it, and
    nothing reads it before. *)
Definition new_runner (v : bool) : M unit :=
  fun w => (Ok tt, World (__init__ "" v) (stdout w) (calls w) (svg_doc w)).

Section Script.

Variables (S : shell) (E : host).

(** The names kept from [args.checks]: the FZP rules' and the SVG
    rules'. *)
Definition select_checks (checks : list string) : list string * list string :=
  let fzp_checks := map (fzp_get_name E) AVAILABLE_CHECKERS in
  let svg_checks := map (svg_get_name E) SVG_AVAILABLE_CHECKERS in
  let checks :=
    if list_eq_dec string_dec checks ["all"] then fzp_checks ++ svg_checks
    else checks in
  (filter (fun check => Py.mem check fzp_checks) checks,
   filter (fun check => Py.mem check svg_checks) checks).

(** The entries of the list file: a JSON array of strings, or one name
    per line. *)
Definition file_entries (file : string) : M (list string) :=
  if Py.endswith file ".json" then lift (json_load S file)
  else lines <- lift (read_lines S file) ;; ret (map (str_strip S) lines).

(** The loop over [file_list], with the set [fzp_files] built so far;
    discovery for an SVG entry may raise. *)
Fixpoint gather_listed (a : args) (file_list fzp_files : list string)
  : M (list string) :=
  match file_list with
  | [] => ret fzp_files
  | filepath :: rest =>
      if Py.endswith filepath ".fzp"
      then gather_listed a rest
             (set_add (Py.join (arg_path a) filepath) fzp_files)
      else if Py.endswith filepath ".svg"
      then found <- lift (_search_fzp_files_with_svg E filepath (arg_path a)) ;;
           gather_listed a rest (set_update found fzp_files)
      else gather_listed a rest fzp_files
  end.

(** The part files to check, from [--file], [--svg] or [path]. *)
Definition gather (a : args) : M (list string) :=
  match given (arg_file a) with
  | Some file =>
      file_list <- file_entries file ;;
      gather_listed a file_list []
  | None =>
      match given (arg_svg a), isdir S (arg_path a) with
      | Some svg, true =>
          found <- lift (_search_fzp_files_with_svg E svg (arg_path a)) ;;
          ret (set_update found [])
      | _, _ =>
          if isfile E (arg_path a) then ret (set_add (arg_path a) [])
          else if isdir S (arg_path a)
          then ret (fold_left
                      (fun fzp_files filename =>
                         if Py.endswith filename ".fzp"
                         then set_add (Py.join (arg_path a) filename) fzp_files
                         else fzp_files)
                      (listdir S (arg_path a)) [])
          else ret []
      end
  end.

(** The help listing printed for [--help]. *)
Definition print_listing : M unit :=
  print (nl ^^ "Available FZP checks:") ;;
  for_each AVAILABLE_CHECKERS
           (fun checker =>
              print (fzp_get_name E checker ^^ ":" ^^ nl
                       ^^ fzp_get_description S checker ^^ nl)) ;;
  print "Available SVG checks:" ;;
  for_each SVG_AVAILABLE_CHECKERS
           (fun checker =>
              print (svg_get_name E checker ^^ ":" ^^ nl
                       ^^ svg_get_description S checker ^^ nl)).

Definition main (a : args) : M ending :=
  if arg_help a then
    print_listing ;;
    print (help_text S) ;;
    ret (Exited None)
  else
    let '(selected_fzp_checks, selected_svg_checks) :=
      select_checks (arg_checks a) in
    try_except
      (match selected_fzp_checks, selected_svg_checks with
       | [], [] => raise (ValueError "No valid check types specified.")
       | _, _ =>
           new_runner (arg_verbose a) ;;
           fzp_files <- gather a ;;
           when (arg_verbose a)
                (print ("Checking "
                          ^^ Py.str_of_int (Z.of_nat (List.length fzp_files))
                          ^^ " FZP files")) ;;
           total_errors <- check_each E (set_order S fzp_files)
                                      selected_fzp_checks selected_svg_checks 0 ;;
           if arg_verbose a || (0 <? total_errors)
           then print ("Total errors: " ^^ Py.str_of_int total_errors) ;;
                ret (Exited (Some total_errors))
           else ret Finished
       end)
      (fun e =>
         match e with
         | ValueError msg =>
             Some (print msg ;;
                   print (help_text S) ;;
                   ret (Exited (Some (-1))))
         | _ => None
         end).

End Script.

(** A shell for the sample part files: [core] is a directory holding
    the four sample files and a text file. *)
Definition desk : shell :=
  {| fzp_get_description := fun _ => "Checks a part file";
     svg_get_description := fun _ => "Checks an SVG file";
     help_text := "usage: fzp_checker_runner.py [-c ...] [-s SVG] [-f FILE] [-v] [-h] path";
     isdir := fun p => String.eqb p "core";
     listdir := fun p =>
       if String.eqb p "core"
       then ["part.fzp"; "notes.txt"; "bare.fzp"]
       else [];
     json_load := fun _ => Raise (ValueError "Expecting value: line 1 column 1 (char 0)");
     read_lines := fun _ => Raise (OtherError "No such file");
     str_strip := ascii_strip;
     set_order := fun s => s |}.

(** The same shell with a list of changed files, one per line. *)
Definition desk_with_list : shell :=
  {| fzp_get_description := fzp_get_description desk;
     svg_get_description := svg_get_description desk;
     help_text := help_text desk;
     isdir := isdir desk;
     listdir := listdir desk;
     json_load := json_load desk;
     read_lines := fun p =>
       if String.eqb p "changed.txt"
       then Ok ["part.fzp" ^^ nl; "  " ^^ nl; "pcb/part.svg" ^^ nl;
                "README.md" ^^ nl; " part.fzp" ^^ nl]
       else Raise (OtherError "No such file");
     str_strip := ascii_strip;
     set_order := fun s => s |}.

Definition quiet (p : string) (checks : list string) : args :=
  {| arg_path := p; arg_checks := checks; arg_svg := None; arg_file := None;
     arg_verbose := false; arg_help := false |}.

(** The sample host with the part files on disk. *)
Definition disk : host :=
  {| fzp_get_name := Sample.fzp_name;
     fzp_check := fzp_check Sample.E;
     svg_get_name := Sample.svg_name;
     svg_check := svg_check Sample.E;
     etree_parse := Sample.parse_file;
     isfile := fun p => String.eqb p "core/part.fzp"
                        || String.eqb p "core/bare.fzp"
                        || Sample.isfile_sample p;
     get_svg_path := get_svg_path Sample.E;
     os_walk := fun _ => [];
     read_text := fun _ => Ok "" |}.

(** The same with a visibility rule that fails on a bad number. *)
Definition disk_bad_number : host :=
  {| fzp_get_name := Sample.fzp_name;
     fzp_check := fun c _ _ =>
       match c with
       | FZPConnectorVisibilityChecker =>
           Outcome [] (Raise (ValueError "could not convert string to float: 'a'"))
       | _ => Outcome [] (Ok 0)
       end;
     svg_get_name := Sample.svg_name;
     svg_check := svg_check Sample.E;
     etree_parse := Sample.parse_file;
     isfile := isfile disk;
     get_svg_path := get_svg_path Sample.E;
     os_walk := fun _ => [];
     read_text := fun _ => Ok "" |}.

End Cli.

(** ** The unit tests on XML validity

    [test_valid_xml] and [test_invalid_xml] of [test_checkers.py]: each
    runs [check([], [])] on a fixture with standard output captured,
    then asserts on the count and on the captured text. *)

Module Tests.

Inductive verdict : Type :=
| Passed
| Failed
| Errored (e : exn).

(** [setUp]. *)
Definition test_data_dir : string := "test_data/core".
Definition verbose_setting : bool := true.

(** [captured_output.getvalue()]: every printed line, each followed by
    a newline. *)
Fixpoint getvalue (lines : list string) : string :=
  match lines with
  | [] => EmptyString
  | line :: rest => line ^^ Cli.nl ^^ getvalue rest
  end.

Definition test_valid_xml (E : host) : verdict :=
  let fzp_file := Py.join test_data_dir "valid_xml.fzp.test" in
  let checker_runner := __init__ fzp_file verbose_setting in
  match check E [] [] (start checker_runner) with
  | (Ok _, w) =>
      if negb (total_errors (self w) =? 0) then Failed
      else if Py.str_in "Invalid XML" (getvalue (stdout w)) then Failed
      else Passed
  | (Raise e, _) => Errored e
  end.

Definition test_invalid_xml (E : host) : verdict :=
  let fzp_file := Py.join test_data_dir "invalid_xml.fzp.test" in
  let checker_runner := __init__ fzp_file verbose_setting in
  match check E [] [] (start checker_runner) with
  | (Ok _, w) =>
      if negb (total_errors (self w) =? 1) then Failed
      else if Py.str_in "Invalid XML" (getvalue (stdout w)) then Passed
      else Failed
  | (Raise e, _) => Errored e
  end.

End Tests.

(** ** More hosts to run the model on *)

Module Bench.

(** The sample host with none of the SVG files on disk. *)
Definition no_assets : host :=
  {| fzp_get_name := Sample.fzp_name;
     fzp_check := fzp_check Sample.E;
     svg_get_name := Sample.svg_name;
     svg_check := svg_check Sample.E;
     etree_parse := Sample.parse_file;
     isfile := fun _ => false;
     get_svg_path := get_svg_path Sample.E;
     os_walk := fun _ => [];
     read_text := fun _ => Ok "" |}.

(** The sample host where every image is a template placeholder. *)
Definition templates : host :=
  {| fzp_get_name := Sample.fzp_name;
     fzp_check := fzp_check Sample.E;
     svg_get_name := Sample.svg_name;
     svg_check := svg_check Sample.E;
     etree_parse := Sample.parse_file;
     isfile := Sample.isfile_sample;
     get_svg_path := fun _ _ _ => None;
     os_walk := fun _ => [];
     read_text := fun _ => Ok "" |}.

(** The sample host with rules that fail: the viewbox rule meets
    malformed XML, the ids rule fails for another reason, and the
    terminal rule parses a damaged SVG itself. *)
Definition failing : host :=
  {| fzp_get_name := Sample.fzp_name;
     fzp_check := fun c _ _ =>
       match c with
       | FZPMissingTagsChecker => Outcome ["Missing required tag 'title'"] (Ok 1)
       | FZPConnectorTerminalChecker =>
           Outcome [] (Raise (XMLSyntaxError "Premature end of data"))
       | _ => Outcome [] (Ok 0)
       end;
     svg_get_name := Sample.svg_name;
     svg_check := fun c _ _ =>
       match c with
       | SVGFontSizeChecker => Outcome ["Font size 12px"] (Ok 1)
       | SVGViewBoxChecker =>
           Outcome ["Checking viewBox"] (Raise (XMLSyntaxError "Bad viewBox"))
       | SVGIdsChecker => Outcome [] (Raise (OtherError "KeyError: 'id'"))
       end;
     etree_parse := Sample.parse_file;
     isfile := Sample.isfile_sample;
     get_svg_path := get_svg_path Sample.E;
     os_walk := fun _ => [];
     read_text := fun _ => Ok "" |}.

Definition pcb_view : element :=
  Element "pcbView" [] None
    [Element "layers" [("image", "pcb/part.svg")] None
       [Sample.layer "copper0"; Sample.layer "copper1";
        Element "layer" [] None []; Element "layer" [("layerId", "")] None []]].

Definition breadboard_view : element :=
  Element "breadboardView" [] None
    [Element "layers" [("image", "breadboard/part.svg")] None
       [Sample.layer "breadboard"]].

Definition pcb_layers : element :=
  Element "layers" [("image", "pcb/part.svg")] None
    [Sample.layer "copper0"; Sample.layer "copper1";
     Element "layer" [] None []; Element "layer" [("layerId", "")] None []].

(** A host for batches: the parts directory of [FileTree], whose LED
    part files load and hold one icon view without [layers]. *)
Definition library : host :=
  {| fzp_get_name := Sample.fzp_name;
     fzp_check := fzp_check Sample.E;
     svg_get_name := Sample.svg_name;
     svg_check := svg_check Sample.E;
     etree_parse := fun _ => Ok (Document Sample.bare_root);
     isfile := fun _ => false;
     get_svg_path := fun _ _ _ => None;
     os_walk := fun top => FileTree.walk top FileTree.parts;
     read_text := read_text FileTree.parts_host |}.

(** The sample host with the breadboard SVG repaired, so that it
    loads. *)
Definition repaired : host :=
  {| fzp_get_name := Sample.fzp_name;
     fzp_check := fzp_check Sample.E;
     svg_get_name := Sample.svg_name;
     svg_check := svg_check Sample.E;
     etree_parse := fun p =>
       if String.eqb p "svg/core/breadboard/part.svg" then Ok Sample.pcb_svg
       else Sample.parse_file p;
     isfile := Sample.isfile_sample;
     get_svg_path := get_svg_path Sample.E;
     os_walk := fun _ => [];
     read_text := fun _ => Ok "" |}.

(** The parts directory with one more part file in [core], saved in
    an encoding that is not the default one: reading it as text fails
    with a [UnicodeDecodeError]. *)
Definition parts_latin1 : FileTree.dir :=
  FileTree.Dir ["README.md"]
    [("core", FileTree.Dir ["led.fzp"; "motor.fzp"; "resistor.fzp"] []);
     ("obsolete", FileTree.Dir ["led_old.fzp"] [])].

Definition latin1 : host :=
  {| fzp_get_name := Sample.fzp_name;
     fzp_check := fzp_check Sample.E;
     svg_get_name := Sample.svg_name;
     svg_check := svg_check Sample.E;
     etree_parse := fun _ => Ok (Document Sample.bare_root);
     isfile := fun _ => false;
     get_svg_path := fun _ _ _ => None;
     os_walk := fun top => FileTree.walk top parts_latin1;
     read_text := fun p =>
       if String.eqb p "parts/core/motor.fzp"
       then Raise (ValueError "'utf-8' codec can't decode byte 0xe9 in position 118: invalid continuation byte")
       else read_text FileTree.parts_host p |}.

Definition plain_view : element :=
  Element "schematicView" [] None
    [Element "layers" [("image", "")] None [Sample.layer "schematic"]].

End Bench.

(** ** More vocabulary: counts that only grow *)

(** A computation is rising when it never lowers the error count. *)
Definition rising {A} (m : M A) : Prop :=
  forall w, total_errors (self w) <= total_errors (self (snd (m w))).

(** No rule of the host returns a negative count. *)
Definition counts_from_zero (E : host) : Prop :=
  (forall c doc p n, returned (fzp_check E c doc p) = Ok n -> 0 <= n)
  /\ (forall c svg ids n, returned (svg_check E c svg ids) = Ok n -> 0 <= n).

(** * Properties of the runner *)

Ltac run_step :=
  unfold check, _run_svg_checkers, run_view, check_svg, run_check_type,
    run_svg_check_type, _get_checker,
    _get_svg_checker, _parse_fzp, parse, fzp_run, svg_run, run_outcome,
    try_except, try_finally, when, first_item, read_svg_doc,
    assign_svg_doc, add_errors, set_total_errors, set_path, get_self,
    print, log, bind, ret, raise;
  cbn [self stdout calls svg_doc path verbose total_errors fst snd].

Section RunnerFacts.

Variable E : host.

(** ** Malformed part files *)

(** C3. When the part file is not well-formed XML, [check] returns
    normally with [total_errors] equal to 1 and the line
    [Invalid XML: ...] printed, whatever checks were requested; the
    only call made is the parse itself, so no rule ran and no SVG was
    resolved. *)
Theorem check_malformed_fzp (check_types svg_check_types : list string)
        (w : world) (msg : string) :
  etree_parse E (path (self w)) = Raise (XMLSyntaxError msg) ->
  check E check_types svg_check_types w =
    (Ok tt,
     World (Runner (path (self w)) (verbose (self w)) 1)
           (stdout w ++ ["Invalid XML: " ^^ msg])
           (calls w ++ [CallParse (path (self w))])
           (svg_doc w)).
Proof.
  intros Hparse. run_step. rewrite Hparse. reflexivity.
Qed.

(** ** The views loop *)

(** C5. A view whose tag is [defaultUnits] leaves the whole state as it
    was: nothing is printed, nothing is counted, no call is made.  The
    loop over the views therefore behaves as if every such view were
    absent from the document. *)
Theorem defaultUnits_never_processed (svg_check_types : list string)
        (attrs : list (string * string)) (txt : option string)
        (kids views : list element) (w : world) :
  run_view E svg_check_types (Element "defaultUnits" attrs txt kids) w
    = (Ok tt, w)
  /\ for_each views (run_view E svg_check_types) w
     = for_each (filter (fun v => negb (String.eqb (tag v) "defaultUnits")) views)
                (run_view E svg_check_types) w.
Proof.
  split; [reflexivity|].
  revert w. induction views as [|view rest IH]; intros w; [reflexivity|].
  cbn [filter for_each].
  destruct (String.eqb (tag view) "defaultUnits") eqn:Htag; cbn [negb for_each].
  - unfold bind at 1. unfold run_view at 1. unfold bind at 1, get_self at 1.
    rewrite Htag. cbn. apply IH.
  - unfold bind.
    destruct (run_view E svg_check_types view w) as [[[]|e] w']; [apply IH|reflexivity].
Qed.

(** C1, as amended. A view other than [defaultUnits] without a [layers]
    child gets the warning line and nothing else: the error count, the
    call log and the rest of the state are unchanged, and the loop goes
    on with the next view. *)
Theorem missing_layers_warns_and_skips (svg_check_types : list string)
        (view : element) (rest : list element) (w : world) :
  tag view <> "defaultUnits" ->
  xpath_child "layers" view = [] ->
  let w' := World (self w)
                  (stdout w ++ ["Warning: No 'layers' element found in view '"
                                  ^^ tag view ^^ "' of file '"
                                  ^^ path (self w) ^^ "'"])
                  (calls w) (svg_doc w) in
  run_view E svg_check_types view w = (Ok tt, w')
  /\ for_each (view :: rest) (run_view E svg_check_types) w
     = for_each rest (run_view E svg_check_types) w'.
Proof.
  intros Htag Hlayers w'.
  assert (Hrun : run_view E svg_check_types view w = (Ok tt, w')).
  { unfold run_view, bind at 1, get_self.
    apply String.eqb_neq in Htag. rewrite Htag, Hlayers. reflexivity. }
  split; [exact Hrun|].
  cbn [for_each]. unfold bind at 1. rewrite Hrun. reflexivity.
Qed.

(** ** Loading one SVG asset *)

(** A damaged SVG met while [svg_doc] is still unbound: the handler
    counts one error and prints its line, then the [finally] clause
    reads the unbound variable and the statement raises. *)
Lemma check_svg_malformed_unbound (svg_path view_tag msg : string)
      (layer_ids svg_check_types : list string) (w : world) :
  etree_parse E svg_path = Raise (XMLSyntaxError msg) ->
  svg_doc w = None ->
  check_svg E svg_path view_tag layer_ids svg_check_types w =
    (Raise (UnboundLocalError "svg_doc"),
     World (Runner (path (self w)) (verbose (self w)) (total_errors (self w) + 1))
           (stdout w ++ ["Invalid XML in SVG: " ^^ msg])
           (calls w ++ [CallParse svg_path])
           None).
Proof.
  intros Hparse Hsd. run_step. rewrite Hparse. cbn. rewrite Hsd. reflexivity.
Qed.

(** The same once an earlier view has bound [svg_doc]: one error, one
    line, and the statement completes. *)
Lemma check_svg_malformed_bound (svg_path view_tag msg : string)
      (layer_ids svg_check_types : list string) (w : world) (d : document) :
  etree_parse E svg_path = Raise (XMLSyntaxError msg) ->
  svg_doc w = Some d ->
  check_svg E svg_path view_tag layer_ids svg_check_types w =
    (Ok tt,
     World (Runner (path (self w)) (verbose (self w)) (total_errors (self w) + 1))
           (stdout w ++ ["Invalid XML in SVG: " ^^ msg])
           (calls w ++ [CallParse svg_path])
           (Some (clear_root d))).
Proof.
  intros Hparse Hsd. run_step. rewrite Hparse. cbn. rewrite Hsd. reflexivity.
Qed.

(** ** Lookups in the registries *)

Lemma find_checker_name (registry : list fzp_checker) (name : string)
      (c : fzp_checker) :
  find_checker E registry name = Some c -> fzp_get_name E c = name.
Proof.
  induction registry as [|c' rest IH]; cbn; [discriminate|].
  destruct (String.eqb (fzp_get_name E c') name) eqn:Heq; [|exact IH].
  intros [= <-]. now apply String.eqb_eq.
Qed.

Lemma find_checker_none (registry : list fzp_checker) (name : string) :
  ~ In name (map (fzp_get_name E) registry) ->
  find_checker E registry name = None.
Proof.
  induction registry as [|c rest IH]; cbn; [reflexivity|].
  intros Hnot. destruct (String.eqb (fzp_get_name E c) name) eqn:Heq.
  - apply String.eqb_eq in Heq. tauto.
  - apply IH. tauto.
Qed.

Lemma find_svg_checker_name (registry : list svg_checker) (name : string)
      (c : svg_checker) :
  find_svg_checker E registry name = Some c -> svg_get_name E c = name.
Proof.
  induction registry as [|c' rest IH]; cbn; [discriminate|].
  destruct (String.eqb (svg_get_name E c') name) eqn:Heq; [|exact IH].
  intros [= <-]. now apply String.eqb_eq.
Qed.

Lemma find_svg_checker_none (registry : list svg_checker) (name : string) :
  ~ In name (map (svg_get_name E) registry) ->
  find_svg_checker E registry name = None.
Proof.
  induction registry as [|c rest IH]; cbn; [reflexivity|].
  intros Hnot. destruct (String.eqb (svg_get_name E c) name) eqn:Heq.
  - apply String.eqb_eq in Heq. tauto.
  - apply IH. tauto.
Qed.

(** ** Running the requested rules *)

Lemma print_all (ls : list string) (w : world) :
  for_each ls print w
  = (Ok tt, World (self w) (stdout w ++ ls) (calls w) (svg_doc w)).
Proof.
  revert w. induction ls as [|l rest IH]; intros [me out cs sd].
  - cbn. now rewrite app_nil_r.
  - cbn [for_each]. unfold bind, print at 1. rewrite IH. cbn.
    now rewrite <- app_assoc.
Qed.

Lemma run_outcome_returns (name : string) (o : outcome) (n : Z) (w : world) :
  returned o = Ok n ->
  run_outcome name o w
  = (Ok n, World (self w) (stdout w ++ printed o)
                 (calls w ++ [CallCheck name]) (svg_doc w)).
Proof.
  intros Hret. unfold run_outcome, bind, log. rewrite print_all, Hret.
  reflexivity.
Qed.

Lemma run_outcome_raises (name : string) (o : outcome) (e : exn) (w : world) :
  returned o = Raise e ->
  run_outcome name o w
  = (Raise e, World (self w) (stdout w ++ printed o)
                    (calls w ++ [CallCheck name]) (svg_doc w)).
Proof.
  intros Hret. unfold run_outcome, bind, log. rewrite print_all, Hret.
  reflexivity.
Qed.

Ltac mred :=
  cbv beta iota delta
      [bind ret raise when get_self add_errors set_total_errors set_path
       assign_svg_doc read_svg_doc first_item print log try_except
       try_finally self stdout calls svg_doc path verbose total_errors
       fzp_class fzp_arg_doc fzp_arg_path svg_class svg_arg_doc
       svg_arg_layer_ids fst snd].

Lemma run_check_type_passes (doc : document) (name : string) (n : Z)
      (w : world) :
  returns (fzp_outcome E (path (self w)) doc name) n ->
  run_check_type E doc name w =
    (Ok tt,
     World (Runner (path (self w)) (verbose (self w)) (total_errors (self w) + n))
           (stdout w ++ fzp_lines E (verbose (self w)) (path (self w)) doc name)
           (calls w ++ [CallCheck name])
           (svg_doc w)).
Proof.
  intros (out & Hout & Hret). unfold fzp_lines. rewrite Hout.
  unfold fzp_outcome in Hout.
  destruct (find_checker E AVAILABLE_CHECKERS name) as [c|] eqn:Hfind;
    [|discriminate].
  injection Hout as <-. pose proof (find_checker_name _ _ _ Hfind) as Hname.
  unfold fzp_args in Hret |- *.
  destruct w as [[p v t] o cs sd]. unfold run_check_type, _get_checker, fzp_run.
  mred. rewrite Hfind.
  destruct (path_aware c), v; mred;
    rewrite (run_outcome_returns _ _ _ _ Hret); mred; cbn [lines_of];
    now rewrite ?Hname, <- ?app_assoc.
Qed.

Lemma run_check_types_pass (doc : document) (check_types : list string)
      (w : world) :
  Forall (fun name => passes (fzp_outcome E (path (self w)) doc name))
         check_types ->
  for_each check_types (run_check_type E doc) w =
    (Ok tt,
     World (Runner (path (self w)) (verbose (self w))
                   (total_errors (self w)
                    + sum (map (fun name =>
                                  count_of (fzp_outcome E (path (self w)) doc name))
                               check_types)))
           (stdout w
              ++ flat_map (fzp_lines E (verbose (self w)) (path (self w)) doc)
                          check_types)
           (calls w ++ map CallCheck check_types)
           (svg_doc w)).
Proof.
  revert w. induction check_types as [|name rest IH]; intros w Hall.
  - destruct w as [[p v t] o cs sd]. cbn. now rewrite Z.add_0_r, !app_nil_r.
  - inversion Hall as [|? ? [n Hn] Hrest]; subst.
    cbn [for_each]. unfold bind.
    rewrite (run_check_type_passes _ _ _ _ Hn).
    rewrite IH; cbn [self path verbose total_errors stdout calls svg_doc];
      [|exact Hrest].
    destruct Hn as (out & Hout & Hret). cbn [map flat_map sum fold_right].
    rewrite Hout. destruct out as [ls r]. cbn in Hret. subst r. cbn [count_of].
    rewrite <- !app_assoc. cbn [app]. f_equal. f_equal. f_equal.
    unfold sum. lia.
Qed.

Lemma sum_all_zero {A} (f : A -> Z) (xs : list A) :
  Forall (fun x => f x = 0) xs -> sum (map f xs) = 0.
Proof.
  induction 1 as [|x rest Hx _ IH]; cbn; [reflexivity|].
  unfold sum in IH. lia.
Qed.

Lemma returns_count (o : option outcome) (n : Z) :
  returns o n -> count_of o = n.
Proof.
  intros ([ls r] & -> & Hret). cbn in Hret. now subst r.
Qed.

Lemma returns_passes (o : option outcome) (n : Z) : returns o n -> passes o.
Proof. intros H. now exists n. Qed.

Lemma for_each_app {A} (xs ys : list A) (body : A -> M unit) (w : world) :
  for_each (xs ++ ys) body w
  = match for_each xs body w with
    | (Ok _, w') => for_each ys body w'
    | (Raise e, w') => (Raise e, w')
    end.
Proof.
  revert w. induction xs as [|x rest IH]; intros w; [reflexivity|].
  cbn [app for_each]. unfold bind.
  destruct (body x w) as [[[]|e] w']; [apply IH|reflexivity].
Qed.

(** ** Well-formed part files *)

(** C7. On a well-formed part file, when every requested FZP rule is
    registered and returns 0 and no SVG check is requested, [check]
    returns normally with [total_errors] equal to 0.  The runner's own
    lines are the scanning line, the rule announcements and the total
    (all three only in verbose mode); a printed line that starts with
    [Invalid XML] can only be one a rule printed itself. *)
Theorem check_clean_fzp (check_types : list string) (doc : document)
        (w : world) :
  etree_parse E (path (self w)) = Ok doc ->
  Forall (fun name => returns (fzp_outcome E (path (self w)) doc name) 0)
         check_types ->
  let p := path (self w) in
  let v := verbose (self w) in
  let out := (if v then ["Scanning file: " ^^ p] else [])
               ++ flat_map (fzp_lines E v p doc) check_types
               ++ (if v then ["Total errors in " ^^ p ^^ ": 0"] else []) in
  check E check_types [] w
  = (Ok tt,
     World (Runner p v 0) (stdout w ++ out)
           (calls w ++ CallParse p :: map CallCheck check_types)
           (svg_doc w))
  /\ forall line,
       In line out -> prefix "Invalid XML" line = true ->
       exists name,
         In name check_types /\ In line (lines_of (fzp_outcome E p doc name)).
Proof.
  intros Hparse Hall p v out. split.
  - assert (Hpass : Forall (fun name => passes (fzp_outcome E p doc name))
                           check_types).
    { eapply Forall_impl; [|exact Hall]. intros name. apply returns_passes. }
    assert (Hsum : sum (map (fun name => count_of (fzp_outcome E p doc name))
                            check_types) = 0).
    { apply sum_all_zero. eapply Forall_impl; [|exact Hall].
      intros name. apply returns_count. }
    subst out p v. destruct w as [[p v t] o cs sd].
    cbn [self path verbose total_errors stdout calls svg_doc] in *.
    unfold check, _parse_fzp, parse. mred. rewrite Hparse.
    destruct v; mred;
      rewrite run_check_types_pass by exact Hpass;
      cbn [self path verbose total_errors stdout calls svg_doc];
      rewrite Hsum; cbn [Z.add Z.ltb Z.compare orb].
    + rewrite <- !app_assoc. reflexivity.
    + rewrite <- !app_assoc. cbn [app]. rewrite !app_nil_r. reflexivity.
  - intros line Hin Hpre. subst out.
    apply in_app_or in Hin as [Hin|Hin].
    { destruct v; [|contradiction]. destruct Hin as [<-|[]]. discriminate. }
    apply in_app_or in Hin as [Hin|Hin].
    + apply in_flat_map in Hin as (name & Hname & Hin). exists name.
      split; [exact Hname|]. unfold fzp_lines in Hin.
      apply in_app_or in Hin as [Hin|Hin]; [|exact Hin].
      destruct v; [|contradiction]. destruct Hin as [<-|[]]. discriminate.
    + destruct v; [|contradiction]. destruct Hin as [<-|[]]. discriminate.
Qed.

(** On a well-formed part file without a [views] element, a run with
    SVG checks requested never returns normally. *)
Lemma no_views_never_returns
      (check_types svg_check_types : list string) (doc : document) (w : world) :
  etree_parse E (path (self w)) = Ok doc ->
  xpath_anywhere "views" (getroot doc) = [] ->
  svg_check_types <> [] ->
  exists e, fst (check E check_types svg_check_types w) = Raise e.
Proof.
  intros Hparse Hviews Hsvg.
  destruct svg_check_types as [|s rest]; [contradiction|].
  destruct w as [[p v t] o cs sd].
  cbn [self path] in Hparse.
  unfold check, _parse_fzp, parse, _run_svg_checkers. mred. rewrite Hparse.
  destruct v; mred.
  - destruct (for_each check_types (run_check_type E doc) _) as [[[]|e] w'];
      mred; [rewrite Hviews|]; eexists; reflexivity.
  - destruct (for_each check_types (run_check_type E doc) _) as [[[]|e] w'];
      mred; [rewrite Hviews|]; eexists; reflexivity.
Qed.

(** C9. On a well-formed part file without any [views] element, with
    SVG checks requested and the FZP rules having run, [check] ends with
    the [IndexError] of [xpath("//views")[0]]: the error count holds
    only what the FZP rules returned, and neither a diagnostic for the
    missing element nor the total is printed. *)
Theorem check_without_views (check_types svg_check_types : list string)
        (doc : document) (w : world) :
  etree_parse E (path (self w)) = Ok doc ->
  xpath_anywhere "views" (getroot doc) = [] ->
  svg_check_types <> [] ->
  Forall (fun name => passes (fzp_outcome E (path (self w)) doc name))
         check_types ->
  let p := path (self w) in
  let v := verbose (self w) in
  check E check_types svg_check_types w
  = (Raise (IndexError "list index out of range"),
     World (Runner p v
                   (sum (map (fun name => count_of (fzp_outcome E p doc name))
                             check_types)))
           (stdout w ++ (if v then ["Scanning file: " ^^ p] else [])
                     ++ flat_map (fzp_lines E v p doc) check_types)
           (calls w ++ CallParse p :: map CallCheck check_types)
           None).
Proof.
  intros Hparse Hviews Hsvg Hpass p v. subst p v.
  destruct svg_check_types as [|s rest]; [contradiction|].
  destruct w as [[p v t] o cs sd].
  cbn [self path verbose total_errors stdout calls svg_doc] in *.
  unfold check, _parse_fzp, parse, _run_svg_checkers. mred. rewrite Hparse.
  destruct v; mred;
    rewrite run_check_types_pass by exact Hpass;
    cbn [self path verbose total_errors stdout calls svg_doc];
    rewrite Hviews; cbn [Z.add]; rewrite <- !app_assoc; reflexivity.
Qed.

(** ** Running the SVG rules on a loaded asset *)

Lemma run_svg_check_type_passes (svg_path view_tag : string) (svg : document)
      (layer_ids : list string) (name : string) (n : Z) (w : world) :
  returns (svg_outcome E svg layer_ids name) n ->
  run_svg_check_type E svg_path view_tag svg layer_ids name w =
    (Ok tt,
     World (Runner (path (self w)) (verbose (self w)) (total_errors (self w) + n))
           (stdout w ++ svg_lines E (verbose (self w)) svg_path view_tag svg
                                  layer_ids name)
           (calls w ++ [CallCheck name])
           (svg_doc w)).
Proof.
  intros (out & Hout & Hret). unfold svg_lines. rewrite Hout.
  unfold svg_outcome in Hout.
  destruct (find_svg_checker E SVG_AVAILABLE_CHECKERS name) as [c|] eqn:Hfind;
    [|discriminate].
  injection Hout as <-. pose proof (find_svg_checker_name _ _ _ Hfind) as Hname.
  destruct w as [[p v t] o cs sd].
  unfold run_svg_check_type, _get_svg_checker, svg_run.
  mred. rewrite Hfind.
  destruct v; mred;
    rewrite (run_outcome_returns _ _ _ _ Hret); mred; cbn [lines_of];
    now rewrite ?Hname, <- ?app_assoc.
Qed.

Lemma run_svg_check_types_pass (svg_path view_tag : string) (svg : document)
      (layer_ids check_types : list string) (w : world) :
  Forall (fun name => passes (svg_outcome E svg layer_ids name)) check_types ->
  for_each check_types (run_svg_check_type E svg_path view_tag svg layer_ids) w =
    (Ok tt,
     World (Runner (path (self w)) (verbose (self w))
                   (total_errors (self w)
                    + sum (map (fun name =>
                                  count_of (svg_outcome E svg layer_ids name))
                               check_types)))
           (stdout w
              ++ flat_map (svg_lines E (verbose (self w)) svg_path view_tag svg
                                     layer_ids)
                          check_types)
           (calls w ++ map CallCheck check_types)
           (svg_doc w)).
Proof.
  revert w. induction check_types as [|name rest IH]; intros w Hall.
  - destruct w as [[p v t] o cs sd]. cbn. now rewrite Z.add_0_r, !app_nil_r.
  - inversion Hall as [|? ? [n Hn] Hrest]; subst.
    cbn [for_each]. unfold bind.
    rewrite (run_svg_check_type_passes _ _ _ _ _ _ _ Hn).
    rewrite IH; cbn [self path verbose total_errors stdout calls svg_doc];
      [|exact Hrest].
    cbn [map flat_map sum fold_right]. rewrite (returns_count _ _ Hn).
    rewrite <- !app_assoc. cbn [app]. f_equal. f_equal. f_equal.
    unfold sum. lia.
Qed.

(** ** The runner's path and verbosity are never written by [check] *)

Lemma tame_ret {A} (a : A) : tame (ret a).
Proof. intros w. now split. Qed.

Lemma tame_raise {A} (e : exn) : tame (@raise A e).
Proof. intros w. now split. Qed.

Lemma tame_bind {A B} (m : M A) (k : A -> M B) :
  tame m -> (forall a, tame (k a)) -> tame (bind m k).
Proof.
  intros Hm Hk w. unfold bind. specialize (Hm w).
  destruct (m w) as [[a|e] w']; cbn [snd] in *; [|exact Hm].
  specialize (Hk a w'). destruct Hk as [-> ->]. exact Hm.
Qed.

Lemma tame_try_except {A} (m : M A) (handler : exn -> option (M A)) :
  tame m -> (forall e h, handler e = Some h -> tame h) ->
  tame (try_except m handler).
Proof.
  intros Hm Hh w. unfold try_except. specialize (Hm w).
  destruct (m w) as [[a|e] w']; cbn [snd] in *; [exact Hm|].
  destruct (handler e) as [h|] eqn:He; [|exact Hm].
  specialize (Hh e h He w'). destruct Hh as [-> ->]. exact Hm.
Qed.

Lemma tame_try_finally {A} (m : M A) (fin : M unit) :
  tame m -> tame fin -> tame (try_finally m fin).
Proof.
  intros Hm Hf w. unfold try_finally. specialize (Hm w).
  destruct (m w) as [r w']; cbn [snd] in *. specialize (Hf w').
  destruct (fin w') as [[[]|e] w'']; cbn [snd] in *;
    destruct Hf as [-> ->]; exact Hm.
Qed.

Lemma tame_for_each {A} (xs : list A) (body : A -> M unit) :
  (forall x, tame (body x)) -> tame (for_each xs body).
Proof.
  intros Hbody. induction xs as [|x rest IH]; cbn [for_each].
  - apply tame_ret.
  - apply tame_bind; [apply Hbody|intros _; exact IH].
Qed.

Lemma tame_when (b : bool) (m : M unit) : tame m -> tame (when b m).
Proof. destruct b; [trivial|intros _; apply tame_ret]. Qed.

Lemma tame_print (line : string) : tame (print line).
Proof. intros w. now split. Qed.

Lemma tame_log (c : call) : tame (log c).
Proof. intros w. now split. Qed.

Lemma tame_get_self : tame get_self.
Proof. intros w. now split. Qed.

Lemma tame_set_total_errors (n : Z) : tame (set_total_errors n).
Proof. intros w. now split. Qed.

Lemma tame_add_errors (n : Z) : tame (add_errors n).
Proof. intros w. now split. Qed.

Lemma tame_assign_svg_doc (d : option document) : tame (assign_svg_doc d).
Proof. intros w. now split. Qed.

Lemma tame_read_svg_doc : tame read_svg_doc.
Proof. intros w. unfold read_svg_doc. now destruct (svg_doc w). Qed.

Lemma tame_first_item {A} (xs : list A) : tame (first_item xs).
Proof. destruct xs; [apply tame_raise|apply tame_ret]. Qed.

Create HintDb tame.
#[local] Hint Resolve tame_ret tame_raise tame_print tame_log tame_get_self
  tame_set_total_errors tame_add_errors tame_assign_svg_doc tame_read_svg_doc
  tame_first_item : tame.

Ltac tame_step :=
  match goal with
  | |- tame (bind _ _) => apply tame_bind; [|intros ?]
  | |- tame (when _ _) => apply tame_when
  | |- tame (for_each _ _) => apply tame_for_each; intros ?
  | |- tame (try_finally _ _) => apply tame_try_finally
  | |- tame (match ?x with _ => _ end) => destruct x
  | |- tame _ => solve [auto with tame]
  end.

Lemma tame_run_outcome (name : string) (o : outcome) :
  tame (run_outcome name o).
Proof. unfold run_outcome. repeat tame_step. Qed.

Lemma tame_parse (p : string) : tame (parse E p).
Proof. unfold parse. repeat tame_step. Qed.

#[local] Hint Resolve tame_run_outcome tame_parse : tame.

Lemma tame_run_check_type (doc : document) (name : string) :
  tame (run_check_type E doc name).
Proof.
  unfold run_check_type, _get_checker, fzp_run. repeat tame_step.
Qed.

Lemma tame_run_svg_check_type (svg_path view_tag : string) (svg : document)
      (layer_ids : list string) (name : string) :
  tame (run_svg_check_type E svg_path view_tag svg layer_ids name).
Proof.
  unfold run_svg_check_type, _get_svg_checker, svg_run. repeat tame_step.
Qed.

#[local] Hint Resolve tame_run_check_type tame_run_svg_check_type : tame.

Lemma tame_check_svg (svg_path view_tag : string)
      (layer_ids svg_check_types : list string) :
  tame (check_svg E svg_path view_tag layer_ids svg_check_types).
Proof.
  unfold check_svg. apply tame_try_finally; [|repeat tame_step].
  apply tame_try_except; [repeat tame_step|].
  intros [msg| | | |] h [= <-]. repeat tame_step.
Qed.

#[local] Hint Resolve tame_check_svg : tame.

Lemma tame_run_view (svg_check_types : list string) (view : element) :
  tame (run_view E svg_check_types view).
Proof. unfold run_view. repeat tame_step. Qed.

#[local] Hint Resolve tame_run_view : tame.

Lemma tame_check (check_types svg_check_types : list string) :
  tame (check E check_types svg_check_types).
Proof.
  unfold check, _run_svg_checkers, _parse_fzp.
  apply tame_bind; [auto with tame|intros _].
  apply tame_bind; [|intros ?; repeat tame_step].
  apply tame_try_except; [repeat tame_step|].
  intros [msg| | | |] h [= <-]. repeat tame_step.
Qed.

(** [check] starts by writing 0 over whatever count the runner held. *)
Lemma check_forgets_total (check_types svg_check_types : list string)
      (p : string) (v : bool) (n : Z) (out : list string) (cs : list call)
      (sd : option document) :
  check E check_types svg_check_types (World (Runner p v n) out cs sd)
  = check E check_types svg_check_types (World (Runner p v 0) out cs sd).
Proof. reflexivity. Qed.

(** ** Running twice *)

(** C8. Two runs of [check] in a row on the same runner, with the same
    path and the same lists of checks, end the same way, leave the same
    [total_errors] and print the same lines. *)
Theorem check_twice_same (check_types svg_check_types : list string)
        (r : FZPCheckerRunner) :
  let first := check E check_types svg_check_types (start r) in
  let second := check E check_types svg_check_types (start (self (snd first))) in
  fst second = fst first
  /\ total_errors (self (snd second)) = total_errors (self (snd first))
  /\ stdout (snd second) = stdout (snd first)
  /\ calls (snd second) = calls (snd first).
Proof.
  intros first second.
  assert (Hsame : second = first).
  { subst second.
    destruct (tame_check check_types svg_check_types (start r)) as [Hp Hv].
    fold first in Hp, Hv. cbn [start self] in Hp, Hv.
    destruct (self (snd first)) as [p v n]. destruct r as [p0 v0 n0].
    cbn [path verbose] in Hp, Hv. subst p0 v0. subst first. unfold start.
    rewrite (check_forgets_total _ _ p v n), (check_forgets_total _ _ p v n0).
    reflexivity. }
  rewrite Hsame. repeat split.
Qed.

(** ** A run does not depend on what came before it *)

Lemma carries_weaken {A} (R R' R'' : world -> world -> Prop) (m : M A) :
  (forall w1 w2, R' w1 w2 -> R'' w1 w2) -> carries R R' m -> carries R R'' m.
Proof.
  intros Hsub Hm w1 w2 HR. destruct (Hm w1 w2 HR) as [Hfst Hsnd].
  split; [exact Hfst|apply Hsub, Hsnd].
Qed.

Lemma carries_ret {A} (R : world -> world -> Prop) (a : A) :
  carries R R (ret a).
Proof. intros w1 w2 HR. now split. Qed.

Lemma carries_raise {A} (R : world -> world -> Prop) (e : exn) :
  carries R R (@raise A e).
Proof. intros w1 w2 HR. now split. Qed.

Lemma carries_bind {A B} (R R' : world -> world -> Prop)
      (m : M A) (k : A -> M B) :
  carries R R' m -> (forall a, carries R' R' (k a)) ->
  carries R R' (bind m k).
Proof.
  intros Hm Hk w1 w2 HR. unfold bind.
  destruct (Hm w1 w2 HR) as [Hfst Hsnd].
  destruct (m w1) as [[a1|e1] w1'], (m w2) as [[a2|e2] w2'];
    cbn [fst snd] in *; try discriminate.
  - injection Hfst as <-. exact (Hk a1 w1' w2' Hsnd).
  - injection Hfst as <-. now split.
Qed.

Lemma carries_try_except {A} (R R' : world -> world -> Prop)
      (m : M A) (handler : exn -> option (M A)) :
  carries R R' m -> (forall e h, handler e = Some h -> carries R' R' h) ->
  carries R R' (try_except m handler).
Proof.
  intros Hm Hh w1 w2 HR. unfold try_except.
  destruct (Hm w1 w2 HR) as [Hfst Hsnd].
  destruct (m w1) as [[a1|e1] w1'], (m w2) as [[a2|e2] w2'];
    cbn [fst snd] in *; try discriminate.
  - split; assumption.
  - injection Hfst as <-. destruct (handler e1) as [h|] eqn:He.
    + exact (Hh e1 h He w1' w2' Hsnd).
    + now split.
Qed.

Lemma carries_try_finally {A} (R R' : world -> world -> Prop)
      (m : M A) (fin : M unit) :
  carries R R' m -> carries R' R' fin -> carries R R' (try_finally m fin).
Proof.
  intros Hm Hf w1 w2 HR. unfold try_finally.
  destruct (Hm w1 w2 HR) as [Hfst Hsnd].
  destruct (m w1) as [r1 w1'], (m w2) as [r2 w2']; cbn [fst snd] in *.
  subst r2. destruct (Hf w1' w2' Hsnd) as [Hfst' Hsnd'].
  destruct (fin w1') as [[[]|e1] w1''], (fin w2') as [[[]|e2] w2''];
    cbn [fst snd] in *; try discriminate.
  - now split.
  - injection Hfst' as <-. now split.
Qed.

Lemma carries_for_each {A} (R : world -> world -> Prop)
      (xs : list A) (body : A -> M unit) :
  (forall x, carries R R (body x)) -> carries R R (for_each xs body).
Proof.
  intros Hbody. induction xs as [|x rest IH]; cbn [for_each].
  - apply carries_ret.
  - apply carries_bind; [apply Hbody|intros _; exact IH].
Qed.

Lemma carries_when (R : world -> world -> Prop) (b : bool) (m : M unit) :
  carries R R m -> carries R R (when b m).
Proof. destruct b; [trivial|intros _; apply carries_ret]. Qed.

Section Ahead.

Variables (b : bool) (out : list string) (cs : list call).

Lemma ahead_unbound (w1 w2 : world) :
  ahead true out cs w1 w2 -> ahead b out cs w1 w2.
Proof. intros (H1 & H2 & H3 & H4). repeat split; auto. Qed.

Lemma carries_print (line : string) :
  carries (ahead b out cs) (ahead b out cs) (print line).
Proof.
  intros w1 w2 (H1 & H2 & H3 & H4). split; [reflexivity|].
  cbn. repeat split; auto. rewrite H2. symmetry. apply app_assoc.
Qed.

Lemma carries_log (c : call) :
  carries (ahead b out cs) (ahead b out cs) (log c).
Proof.
  intros w1 w2 (H1 & H2 & H3 & H4). split; [reflexivity|].
  cbn. repeat split; auto. rewrite H3. symmetry. apply app_assoc.
Qed.

Lemma carries_get_self : carries (ahead b out cs) (ahead b out cs) get_self.
Proof.
  intros w1 w2 HR. split; [|exact HR]. cbn. f_equal. apply HR.
Qed.

Lemma carries_set_total_errors (n : Z) :
  carries (ahead b out cs) (ahead b out cs) (set_total_errors n).
Proof.
  intros w1 w2 (H1 & H2 & H3 & H4). split; [reflexivity|].
  cbn. rewrite H1. repeat split; auto.
Qed.

Lemma carries_add_errors (n : Z) :
  carries (ahead b out cs) (ahead b out cs) (add_errors n).
Proof.
  intros w1 w2 (H1 & H2 & H3 & H4). split; [reflexivity|].
  cbn. rewrite H1. repeat split; auto.
Qed.

Lemma carries_assign_svg_doc (d : option document) :
  carries (ahead b out cs) (ahead true out cs) (assign_svg_doc d).
Proof.
  intros w1 w2 (H1 & H2 & H3 & H4). split; [reflexivity|].
  cbn. repeat split; auto.
Qed.

Lemma carries_read_svg_doc :
  carries (ahead true out cs) (ahead true out cs) read_svg_doc.
Proof.
  intros w1 w2 HR. pose proof HR as (H1 & H2 & H3 & H4).
  unfold read_svg_doc. rewrite (H4 eq_refl).
  destruct (svg_doc w2); now split.
Qed.

Lemma carries_first_item {A} (xs : list A) :
  carries (ahead b out cs) (ahead b out cs) (first_item xs).
Proof. destruct xs; [apply carries_raise|apply carries_ret]. Qed.

End Ahead.

Create HintDb carry.
#[local] Hint Resolve carries_ret carries_raise carries_print carries_log
  carries_get_self carries_set_total_errors carries_add_errors
  carries_assign_svg_doc carries_read_svg_doc carries_first_item : carry.

Ltac carry_step :=
  match goal with
  | |- carries _ _ (bind _ _) => apply carries_bind; [|intros ?]
  | |- carries _ _ (when _ _) => apply carries_when
  | |- carries _ _ (for_each _ _) => apply carries_for_each; intros ?
  | |- carries _ _ (try_finally _ _) => apply carries_try_finally
  | |- carries _ _ (match ?x with _ => _ end) => destruct x
  | |- carries _ _ _ => solve [auto with carry]
  end.

Lemma carries_run_outcome (b : bool) (out : list string) (cs : list call)
      (name : string) (o : outcome) :
  carries (ahead b out cs) (ahead b out cs) (run_outcome name o).
Proof. unfold run_outcome. repeat carry_step. Qed.

Lemma carries_parse (b : bool) (out : list string) (cs : list call)
      (p : string) :
  carries (ahead b out cs) (ahead b out cs) (parse E p).
Proof. unfold parse. repeat carry_step. Qed.

#[local] Hint Resolve carries_run_outcome carries_parse : carry.

Lemma carries_run_check_type (b : bool) (out : list string) (cs : list call)
      (doc : document) (name : string) :
  carries (ahead b out cs) (ahead b out cs) (run_check_type E doc name).
Proof.
  unfold run_check_type, _get_checker, fzp_run. repeat carry_step.
Qed.

Lemma carries_run_svg_check_type (b : bool) (out : list string)
      (cs : list call) (svg_path view_tag : string) (svg : document)
      (layer_ids : list string) (name : string) :
  carries (ahead b out cs) (ahead b out cs)
          (run_svg_check_type E svg_path view_tag svg layer_ids name).
Proof.
  unfold run_svg_check_type, _get_svg_checker, svg_run. repeat carry_step.
Qed.

#[local] Hint Resolve carries_run_check_type carries_run_svg_check_type : carry.

Lemma carries_check_svg (out : list string) (cs : list call)
      (svg_path view_tag : string) (layer_ids svg_check_types : list string) :
  carries (ahead true out cs) (ahead true out cs)
          (check_svg E svg_path view_tag layer_ids svg_check_types).
Proof.
  unfold check_svg. apply carries_try_finally; [|repeat carry_step].
  apply carries_try_except; [repeat carry_step|].
  intros [msg| | | |] h [= <-]. repeat carry_step.
Qed.

#[local] Hint Resolve carries_check_svg : carry.

Lemma carries_run_view (out : list string) (cs : list call)
      (svg_check_types : list string) (view : element) :
  carries (ahead true out cs) (ahead true out cs)
          (run_view E svg_check_types view).
Proof.
  unfold run_view. apply carries_bind; [auto with carry|intros me].
  repeat carry_step.
Qed.

#[local] Hint Resolve carries_run_view : carry.

Lemma carries__run_svg_checkers (out : list string) (cs : list call)
      (doc : document) (svg_check_types : list string) :
  carries (ahead false out cs) (ahead false out cs)
          (_run_svg_checkers E doc svg_check_types).
Proof.
  apply carries_weaken with (R' := ahead true out cs); [apply ahead_unbound|].
  unfold _run_svg_checkers. repeat carry_step.
Qed.

#[local] Hint Resolve carries__run_svg_checkers : carry.

Lemma carries_check (out : list string) (cs : list call)
      (check_types svg_check_types : list string) :
  carries (ahead false out cs) (ahead false out cs)
          (check E check_types svg_check_types).
Proof.
  unfold check, _parse_fzp.
  apply carries_bind; [auto with carry|intros _].
  apply carries_bind; [|intros ?; repeat carry_step].
  apply carries_try_except; [repeat carry_step|].
  intros [msg| | | |] h [= <-]. repeat carry_step.
Qed.

(** A run started in any state ends as the run of a fresh runner on the
    same file does, counts the same, and adds that run's lines and calls
    to those already there. *)
Lemma check_from_anywhere (check_types svg_check_types : list string)
      (w : world) :
  let fresh := check E check_types svg_check_types
                     (start (__init__ (path (self w)) (verbose (self w)))) in
  let here := check E check_types svg_check_types w in
  fst here = fst fresh
  /\ self (snd here) = self (snd fresh)
  /\ stdout (snd here) = stdout w ++ stdout (snd fresh)
  /\ calls (snd here) = calls w ++ calls (snd fresh).
Proof.
  destruct w as [[p v t] o cs sd]. cbv zeta.
  cbn [self path verbose stdout calls].
  rewrite (check_forgets_total _ _ p v t).
  destruct (carries_check o cs check_types svg_check_types
              (World (Runner p v 0) o cs sd) (start (__init__ p v)))
    as (Hfst & Hself & Hout & Hcalls & _).
  { repeat split; cbn; auto using app_nil_r. discriminate. }
  repeat split; assumption.
Qed.

Lemma check_each_fresh (check_types svg_check_types fzp_files : list string)
      (errors : Z) (w : world) :
  fst (check_each E fzp_files check_types svg_check_types errors w)
  = batch_fresh E (verbose (self w)) check_types svg_check_types
                fzp_files errors.
Proof.
  revert errors w. induction fzp_files as [|f rest IH]; intros errors w;
    [reflexivity|].
  cbn [check_each batch_fresh]. unfold bind at 1, set_path at 1.
  set (w0 := World (Runner f (verbose (self w)) (total_errors (self w)))
                   (stdout w) (calls w) (svg_doc w)).
  destruct (check_from_anywhere check_types svg_check_types w0)
    as (Hfst & Hself & _).
  destruct (tame_check check_types svg_check_types w0) as [_ Hv].
  subst w0. cbn [self path verbose] in Hfst, Hself, Hv. unfold bind at 1.
  destruct (check E check_types svg_check_types _) as [[[]|e] w'];
    cbn [fst snd] in *; rewrite <- Hfst; [|reflexivity].
  unfold bind, get_self. rewrite IH, Hv. unfold fresh_total.
  now rewrite Hself.
Qed.

(** ** One run, one count *)

(** C10. [check] writes 0 over [total_errors] before anything else, so
    what the runner held before does not matter: from any state, a run
    ends and counts as the run of a fresh runner on the same file does.
    In batch mode the sum returned is therefore the sum of the counts
    each discovered file gets on its own (when discovery itself raises,
    the batch ends with that exception). *)
Theorem check_counts_one_run_only
        (check_types svg_check_types fzp_files : list string)
        (svg_file fzp_dir : string) (n : Z) (w : world) :
  let p := path (self w) in
  let v := verbose (self w) in
  check E check_types svg_check_types
        (World (Runner p v n) (stdout w) (calls w) (svg_doc w))
  = check E check_types svg_check_types
          (World (Runner p v 0) (stdout w) (calls w) (svg_doc w))
  /\ fst (check E check_types svg_check_types w)
     = fst (check E check_types svg_check_types (start (__init__ p v)))
  /\ total_errors (self (snd (check E check_types svg_check_types w)))
     = fresh_total E v check_types svg_check_types p
  /\ fst (check_each E fzp_files check_types svg_check_types n w)
     = batch_fresh E v check_types svg_check_types fzp_files n
  /\ fst (search_and_check_fzp_files E svg_file fzp_dir
                                     check_types svg_check_types w)
     = match _search_fzp_files_with_svg E svg_file fzp_dir with
       | Ok found => batch_fresh E v check_types svg_check_types found 0
       | Raise e => Raise e
       end.
Proof.
  intros p v.
  destruct (check_from_anywhere check_types svg_check_types w)
    as (Hfst & Hself & _).
  repeat split.
  - exact Hfst.
  - unfold fresh_total. now rewrite Hself.
  - apply check_each_fresh.
  - unfold search_and_check_fzp_files, bind, lift.
    destruct (_search_fzp_files_with_svg E svg_file fzp_dir) as [found|e];
      [apply check_each_fresh|reflexivity].
Qed.

(** * Further properties of the runner *)

(** ** Views with a [layers] element *)

(** A view with a [layers] element and a non-empty [image]: the asset
    is resolved, and what follows depends on the resolved path. *)
Lemma run_view_with_image (svg_check_types : list string)
      (view layers : element) (others : list element) (image : string)
      (w : world) :
  tag view <> "defaultUnits" ->
  xpath_child "layers" view = layers :: others ->
  get layers "image" = Some image ->
  image <> "" ->
  run_view E svg_check_types view w
  = match get_svg_path E (path (self w)) image (tag view) with
    | None => ret tt
    | Some svg_path =>
        bind (log (CallIsFile svg_path))
             (fun _ =>
                if isfile E svg_path
                then check_svg E svg_path (tag view)
                               (collect_layer_ids (xpath_child "layer" layers))
                               svg_check_types
                else bind (print ("Warning: SVG '" ^^ svg_path ^^ "' for view '"
                                    ^^ tag view ^^ "' of file '"
                                    ^^ path (self w) ^^ "' not found."))
                          (fun _ => add_errors 1))
    end (World (self w) (stdout w)
               (calls w ++ [CallGetSvgPath (path (self w)) image (tag view)])
               (svg_doc w)).
Proof.
  intros Htag Hlayers Himage Hne. apply String.eqb_neq in Htag.
  unfold run_view, bind at 1, get_self at 1. rewrite Htag, Hlayers, Himage.
  destruct image as [|c s]; [contradiction|].
  unfold bind at 1, log at 1. cbn [self stdout calls svg_doc]. reflexivity.
Qed.

(** X1. A view whose image resolves to a path that is not a file on
    disk gets the warning naming the path, the view and the part file,
    and counts as exactly one error; no load is attempted and the loop
    goes on with the next view. *)
Theorem missing_svg_counts_one (svg_check_types : list string)
        (view layers : element) (others rest : list element)
        (image svg_path : string) (w : world) :
  tag view <> "defaultUnits" ->
  xpath_child "layers" view = layers :: others ->
  get layers "image" = Some image ->
  image <> "" ->
  get_svg_path E (path (self w)) image (tag view) = Some svg_path ->
  isfile E svg_path = false ->
  let w' := World (Runner (path (self w)) (verbose (self w))
                          (total_errors (self w) + 1))
                  (stdout w ++ ["Warning: SVG '" ^^ svg_path ^^ "' for view '"
                                  ^^ tag view ^^ "' of file '"
                                  ^^ path (self w) ^^ "' not found."])
                  (calls w ++ [CallGetSvgPath (path (self w)) image (tag view);
                               CallIsFile svg_path])
                  (svg_doc w) in
  run_view E svg_check_types view w = (Ok tt, w')
  /\ for_each (view :: rest) (run_view E svg_check_types) w
     = for_each rest (run_view E svg_check_types) w'.
Proof.
  intros Htag Hlayers Himage Hne Hpath Hfile w'.
  assert (Hrun : run_view E svg_check_types view w = (Ok tt, w')).
  { rewrite (run_view_with_image _ _ _ _ _ _ Htag Hlayers Himage Hne), Hpath.
    unfold bind, log, print, add_errors. cbn [self stdout calls svg_doc].
    rewrite Hfile. subst w'. cbn [self stdout calls svg_doc path verbose total_errors].
    now rewrite <- app_assoc. }
  split; [exact Hrun|].
  cbn [for_each]. unfold bind at 1. now rewrite Hrun.
Qed.

(** X2. A view whose [layers] element has no [image] attribute, or an
    empty one, changes nothing at all; one whose image is a template
    placeholder (no path resolved) only has the resolution logged:
    nothing is printed or counted and the disk is not probed. *)
Theorem view_without_asset_is_silent (svg_check_types : list string)
        (view layers : element) (others : list element) (w : world) :
  tag view <> "defaultUnits" ->
  xpath_child "layers" view = layers :: others ->
  ((get layers "image" = None \/ get layers "image" = Some "") ->
   run_view E svg_check_types view w = (Ok tt, w))
  /\ (forall image,
        get layers "image" = Some image -> image <> "" ->
        get_svg_path E (path (self w)) image (tag view) = None ->
        run_view E svg_check_types view w
        = (Ok tt,
           World (self w) (stdout w)
                 (calls w ++ [CallGetSvgPath (path (self w)) image (tag view)])
                 (svg_doc w))).
Proof.
  intros Htag Hlayers. split.
  - intros Himage. apply String.eqb_neq in Htag.
    unfold run_view, bind at 1, get_self at 1. rewrite Htag, Hlayers.
    destruct Himage as [-> | ->]; reflexivity.
  - intros image Himage Hne Hpath.
    rewrite (run_view_with_image _ _ _ _ _ _ Htag Hlayers Himage Hne), Hpath.
    reflexivity.
Qed.

(** X4. The layer ids handed to the SVG rules are the non-empty
    [layerId] values of the [layer] elements: an element without the
    attribute, or with an empty one, contributes nothing. *)
Theorem collected_layer_ids (layer_elements : list element) (id : string) :
  In id (collect_layer_ids layer_elements)
  <-> id <> "" /\ exists layer_element,
        In layer_element layer_elements /\ get layer_element "layerId" = Some id.
Proof.
  induction layer_elements as [|el rest IH]; cbn [collect_layer_ids In].
  - split; [contradiction|]. now intros (_ & el & [] & _).
  - destruct (get el "layerId") as [[|c s]|] eqn:Hget.
    + rewrite IH. split.
      * intros (Hne & el' & Hin & Hid). split; [exact Hne|]. exists el'. auto.
      * intros (Hne & el' & [<-|Hin] & Hid).
        -- rewrite Hget in Hid. injection Hid as <-. now destruct Hne.
        -- split; [exact Hne|]. now exists el'.
    + cbn [In]. rewrite IH. split.
      * intros [<-|(Hne & el' & Hin & Hid)].
        -- split; [discriminate|]. exists el. auto.
        -- split; [exact Hne|]. exists el'. auto.
      * intros (Hne & el' & [<-|Hin] & Hid).
        -- left. rewrite Hget in Hid. now injection Hid.
        -- right. split; [exact Hne|]. now exists el'.
    + rewrite IH. split.
      * intros (Hne & el' & Hin & Hid). split; [exact Hne|]. exists el'. auto.
      * intros (Hne & el' & [<-|Hin] & Hid).
        -- rewrite Hget in Hid. discriminate.
        -- split; [exact Hne|]. now exists el'.
Qed.

(** ** Rules that run, rules that fail *)

Lemma check_svg_passes (svg_path view_tag : string) (svg : document)
      (layer_ids svg_check_types : list string) (w : world) :
  etree_parse E svg_path = Ok svg ->
  Forall (fun name => passes (svg_outcome E svg layer_ids name))
         svg_check_types ->
  check_svg E svg_path view_tag layer_ids svg_check_types w
  = (Ok tt,
     World (Runner (path (self w)) (verbose (self w))
                   (total_errors (self w)
                    + sum (map (fun name =>
                                  count_of (svg_outcome E svg layer_ids name))
                               svg_check_types)))
           (stdout w
              ++ flat_map (svg_lines E (verbose (self w)) svg_path view_tag svg
                                     layer_ids)
                          svg_check_types)
           (calls w ++ CallParse svg_path :: map CallCheck svg_check_types)
           (Some (clear_root svg))).
Proof.
  intros Hparse Hpass. destruct w as [[p v t] o cs sd].
  unfold check_svg, parse. mred. rewrite Hparse. mred.
  rewrite run_svg_check_types_pass by exact Hpass.
  cbn [self path verbose total_errors stdout calls svg_doc].
  now rewrite <- !app_assoc.
Qed.

(** X3. A view whose image resolves to a file that loads: every
    requested SVG rule runs on it with the view's collected layer ids,
    the counts returned are added to the total, the rules' lines are
    printed in order, and the loaded tree is emptied afterwards. *)
Theorem loaded_svg_rules_add_up (svg_check_types : list string)
        (view layers : element) (others : list element)
        (image svg_path : string) (svg : document) (w : world) :
  tag view <> "defaultUnits" ->
  xpath_child "layers" view = layers :: others ->
  get layers "image" = Some image ->
  image <> "" ->
  get_svg_path E (path (self w)) image (tag view) = Some svg_path ->
  isfile E svg_path = true ->
  etree_parse E svg_path = Ok svg ->
  let layer_ids := collect_layer_ids (xpath_child "layer" layers) in
  Forall (fun name => passes (svg_outcome E svg layer_ids name))
         svg_check_types ->
  run_view E svg_check_types view w
  = (Ok tt,
     World (Runner (path (self w)) (verbose (self w))
                   (total_errors (self w)
                    + sum (map (fun name =>
                                  count_of (svg_outcome E svg layer_ids name))
                               svg_check_types)))
           (stdout w
              ++ flat_map (svg_lines E (verbose (self w)) svg_path (tag view) svg
                                     layer_ids)
                          svg_check_types)
           (calls w
              ++ [CallGetSvgPath (path (self w)) image (tag view);
                  CallIsFile svg_path; CallParse svg_path]
              ++ map CallCheck svg_check_types)
           (Some (clear_root svg))).
Proof.
  intros Htag Hlayers Himage Hne Hpath Hfile Hparse layer_ids Hpass.
  rewrite (run_view_with_image _ _ _ _ _ _ Htag Hlayers Himage Hne), Hpath.
  unfold bind at 1, log at 1. rewrite Hfile.
  rewrite (check_svg_passes _ _ _ _ _ _ Hparse Hpass).
  cbn [self path verbose total_errors stdout calls svg_doc].
  now rewrite <- !app_assoc.
Qed.

Lemma run_svg_check_type_raises (svg_path view_tag : string) (svg : document)
      (layer_ids : list string) (name : string) (out : outcome) (e : exn)
      (w : world) :
  svg_outcome E svg layer_ids name = Some out ->
  returned out = Raise e ->
  run_svg_check_type E svg_path view_tag svg layer_ids name w
  = (Raise e,
     World (self w)
           (stdout w ++ svg_lines E (verbose (self w)) svg_path view_tag svg
                                  layer_ids name)
           (calls w ++ [CallCheck name])
           (svg_doc w)).
Proof.
  intros Hout Hret. unfold svg_lines. rewrite Hout.
  unfold svg_outcome in Hout.
  destruct (find_svg_checker E SVG_AVAILABLE_CHECKERS name) as [c|] eqn:Hfind;
    [|discriminate].
  injection Hout as <-. pose proof (find_svg_checker_name _ _ _ Hfind) as Hname.
  destruct w as [[p v t] o cs sd].
  unfold run_svg_check_type, _get_svg_checker, svg_run.
  mred. rewrite Hfind.
  destruct v; mred;
    rewrite (run_outcome_raises _ _ _ _ Hret); mred; cbn [lines_of];
    now rewrite ?Hname, <- ?app_assoc.
Qed.

Lemma run_check_type_raises (doc : document) (name : string) (out : outcome)
      (e : exn) (w : world) :
  fzp_outcome E (path (self w)) doc name = Some out ->
  returned out = Raise e ->
  run_check_type E doc name w
  = (Raise e,
     World (self w)
           (stdout w ++ fzp_lines E (verbose (self w)) (path (self w)) doc name)
           (calls w ++ [CallCheck name])
           (svg_doc w)).
Proof.
  intros Hout Hret. unfold fzp_lines. rewrite Hout.
  unfold fzp_outcome in Hout.
  destruct (find_checker E AVAILABLE_CHECKERS name) as [c|] eqn:Hfind;
    [|discriminate].
  injection Hout as <-. pose proof (find_checker_name _ _ _ Hfind) as Hname.
  unfold fzp_args in Hret |- *.
  destruct w as [[p v t] o cs sd]. unfold run_check_type, _get_checker, fzp_run.
  mred. rewrite Hfind.
  destruct (path_aware c), v; mred;
    rewrite (run_outcome_raises _ _ _ _ Hret); mred; cbn [lines_of];
    now rewrite ?Hname, <- ?app_assoc.
Qed.

(** X5. When an SVG rule raises while an asset is being checked, the
    rules requested after it do not run on that asset.  An
    [XMLSyntaxError] from the rule is taken for a malformed SVG: it is
    printed as [Invalid XML in SVG], counted as one error on top of the
    counts already added, and the run goes on.  Any other exception
    leaves the statement, after the loaded tree was emptied. *)
Theorem svg_rule_failure (svg_path view_tag : string) (svg : document)
        (layer_ids before after : list string) (name : string)
        (out : outcome) (e : exn) (w : world) :
  etree_parse E svg_path = Ok svg ->
  Forall (fun name => passes (svg_outcome E svg layer_ids name)) before ->
  svg_outcome E svg layer_ids name = Some out ->
  returned out = Raise e ->
  check_svg E svg_path view_tag layer_ids (before ++ name :: after) w
  = (match e with XMLSyntaxError _ => Ok tt | _ => Raise e end,
     World (Runner (path (self w)) (verbose (self w))
                   (total_errors (self w)
                    + sum (map (fun name =>
                                  count_of (svg_outcome E svg layer_ids name))
                               before)
                    + match e with XMLSyntaxError _ => 1 | _ => 0 end))
           (stdout w
              ++ flat_map (svg_lines E (verbose (self w)) svg_path view_tag svg
                                     layer_ids)
                          (before ++ [name])
              ++ match e with
                 | XMLSyntaxError msg => ["Invalid XML in SVG: " ^^ msg]
                 | _ => []
                 end)
           (calls w ++ CallParse svg_path :: map CallCheck (before ++ [name]))
           (Some (clear_root svg))).
Proof.
  intros Hparse Hpass Hout Hret. destruct w as [[p v t] o cs sd].
  unfold check_svg, parse. mred. rewrite Hparse. mred.
  rewrite for_each_app.
  rewrite run_svg_check_types_pass by exact Hpass.
  cbn [self path verbose total_errors stdout calls svg_doc for_each].
  unfold bind at 1.
  rewrite (run_svg_check_type_raises _ _ _ _ _ _ _ _ Hout Hret).
  cbn [self path verbose total_errors stdout calls svg_doc].
  rewrite flat_map_app, map_app. cbn [flat_map map]. rewrite app_nil_r.
  destruct e; mred; rewrite <- ?app_assoc, ?Z.add_0_r, ?app_nil_r;
    cbn [app]; reflexivity.
Qed.

(** X6. An exception raised by an FZP rule, an [XMLSyntaxError]
    included, is not handled by [check]: it leaves [check] with the
    counts of the rules before it, the rules after it and the SVG
    checks do not run, and no total is printed. *)
Theorem fzp_rule_failure_leaves_check
        (before after svg_check_types : list string) (name : string)
        (doc : document) (out : outcome) (e : exn) (w : world) :
  etree_parse E (path (self w)) = Ok doc ->
  Forall (fun name => passes (fzp_outcome E (path (self w)) doc name)) before ->
  fzp_outcome E (path (self w)) doc name = Some out ->
  returned out = Raise e ->
  let p := path (self w) in
  let v := verbose (self w) in
  check E (before ++ name :: after) svg_check_types w
  = (Raise e,
     World (Runner p v
                   (sum (map (fun name => count_of (fzp_outcome E p doc name))
                             before)))
           (stdout w ++ (if v then ["Scanning file: " ^^ p] else [])
                     ++ flat_map (fzp_lines E v p doc) (before ++ [name]))
           (calls w ++ CallParse p :: map CallCheck (before ++ [name]))
           (svg_doc w)).
Proof.
  intros Hparse Hpass Hout Hret p v. subst p v.
  destruct w as [[p v t] o cs sd].
  cbn [self path verbose total_errors stdout calls svg_doc] in *.
  unfold check, _parse_fzp, parse. mred. rewrite Hparse.
  destruct v; mred; rewrite for_each_app;
    rewrite run_check_types_pass by exact Hpass;
    cbn [self path verbose total_errors stdout calls svg_doc for_each];
    unfold bind at 1;
    erewrite run_check_type_raises
      by (cbn [self path verbose]; eassumption);
    cbn [self path verbose total_errors stdout calls svg_doc Z.add];
    rewrite flat_map_app, map_app; cbn [flat_map map]; rewrite app_nil_r;
    rewrite <- !app_assoc; reflexivity.
Qed.

(** ** The report at the end of a run *)

Ltac mfold :=
  cbv beta iota delta
      [bind ret raise when get_self add_errors set_total_errors set_path
       assign_svg_doc read_svg_doc first_item print log try_except
       try_finally];
  cbn [self stdout calls svg_doc path verbose total_errors fst snd].

Lemma tame__run_svg_checkers (doc : document) (svg_check_types : list string) :
  tame (_run_svg_checkers E doc svg_check_types).
Proof. unfold _run_svg_checkers. repeat tame_step. Qed.

(** X7. When the part file parses and [check] returns normally, in
    verbose mode or with a positive count the last line printed is the
    total line, and the number it shows is the count the runner holds
    at the end, SVG checks included. *)
Theorem check_reports_final_total (check_types svg_check_types : list string)
        (doc : document) (w : world) :
  etree_parse E (path (self w)) = Ok doc ->
  fst (check E check_types svg_check_types w) = Ok tt ->
  let w' := snd (check E check_types svg_check_types w) in
  verbose (self w) || (0 <? total_errors (self w')) = true ->
  last (stdout w') ""
  = "Total errors in " ^^ path (self w) ^^ ": "
      ^^ Py.str_of_int (total_errors (self w')).
Proof.
  intros Hparse. destruct w as [[p v t] o cs sd].
  cbn [self path verbose] in *.
  unfold check, _parse_fzp, parse. mfold. rewrite Hparse.
  destruct v; mfold.
  all: match goal with
       | |- context [for_each _ (run_check_type _ _) ?W] =>
           pose proof (tame_for_each check_types (run_check_type E doc)
                                     (tame_run_check_type doc) W) as Hloop;
           destruct (for_each check_types (run_check_type E doc) W)
             as [[[]|e] w1]
       end; cbn [snd self path verbose] in Hloop; try discriminate.
  all: destruct Hloop as [Hp1 Hv1].
  all: destruct svg_check_types as [|s rest].
  all: try (pose proof (tame__run_svg_checkers doc (s :: rest) w1) as Hs;
            destruct (_run_svg_checkers E doc (s :: rest) w1) as [[[]|e] w2];
            cbn [snd] in Hs; destruct Hs as [Hp2 Hv2];
            rewrite Hp1 in Hp2; rewrite Hv1 in Hv2).
  all: try discriminate.
  all: mfold; rewrite ?Hp1, ?Hv1, ?Hp2, ?Hv2; cbn [orb].
  all: try (intros _ _; apply last_last).
  all: match goal with
       | |- context [0 <? ?T] => destruct (0 <? T) eqn:Hcond
       end; cbn [fst snd self stdout total_errors]; rewrite ?Hcond;
       intros _ Hgo; try discriminate Hgo; apply last_last.
Qed.

(** ** The error count only grows *)

Lemma rising_ret {A} (a : A) : rising (ret a).
Proof. intros w. cbn. lia. Qed.

Lemma rising_raise {A} (e : exn) : rising (@raise A e).
Proof. intros w. cbn. lia. Qed.

Lemma rising_bind {A B} (m : M A) (k : A -> M B) :
  rising m -> (forall a, rising (k a)) -> rising (bind m k).
Proof.
  intros Hm Hk w. unfold bind. specialize (Hm w).
  destruct (m w) as [[a|e] w']; cbn [snd] in *; [|exact Hm].
  specialize (Hk a w'). lia.
Qed.

Lemma rising_try_except {A} (m : M A) (handler : exn -> option (M A)) :
  rising m -> (forall e h, handler e = Some h -> rising h) ->
  rising (try_except m handler).
Proof.
  intros Hm Hh w. unfold try_except. specialize (Hm w).
  destruct (m w) as [[a|e] w']; cbn [snd] in *; [exact Hm|].
  destruct (handler e) as [h|] eqn:He; [|exact Hm].
  specialize (Hh e h He w'). lia.
Qed.

Lemma rising_try_finally {A} (m : M A) (fin : M unit) :
  rising m -> rising fin -> rising (try_finally m fin).
Proof.
  intros Hm Hf w. unfold try_finally. specialize (Hm w).
  destruct (m w) as [r w']; cbn [snd] in *. specialize (Hf w').
  destruct (fin w') as [[[]|e] w'']; cbn [snd] in *; lia.
Qed.

Lemma rising_for_each {A} (xs : list A) (body : A -> M unit) :
  (forall x, rising (body x)) -> rising (for_each xs body).
Proof.
  intros Hbody. induction xs as [|x rest IH]; cbn [for_each].
  - apply rising_ret.
  - apply rising_bind; [apply Hbody|intros _; exact IH].
Qed.

Lemma rising_when (b : bool) (m : M unit) : rising m -> rising (when b m).
Proof. destruct b; [trivial|intros _; apply rising_ret]. Qed.

Lemma rising_print (line : string) : rising (print line).
Proof. intros w. cbn. lia. Qed.

Lemma rising_log (c : call) : rising (log c).
Proof. intros w. cbn. lia. Qed.

Lemma rising_get_self : rising get_self.
Proof. intros w. cbn. lia. Qed.

Lemma rising_add_errors (n : Z) : 0 <= n -> rising (add_errors n).
Proof. intros Hn w. cbn. lia. Qed.

Lemma rising_assign_svg_doc (d : option document) : rising (assign_svg_doc d).
Proof. intros w. cbn. lia. Qed.

Lemma rising_read_svg_doc : rising read_svg_doc.
Proof. intros w. unfold read_svg_doc. destruct (svg_doc w); cbn; lia. Qed.

Lemma rising_first_item {A} (xs : list A) : rising (first_item xs).
Proof. destruct xs; [apply rising_raise|apply rising_ret]. Qed.

Lemma rising_parse (p : string) : rising (parse E p).
Proof.
  unfold parse. apply rising_bind; [apply rising_log|intros _].
  destruct (etree_parse E p); [apply rising_ret|apply rising_raise].
Qed.

Create HintDb rise.
#[local] Hint Resolve rising_ret rising_raise rising_print rising_log
  rising_get_self rising_assign_svg_doc rising_read_svg_doc rising_first_item
  rising_parse : rise.

Ltac rise_step :=
  match goal with
  | |- rising (bind _ _) => apply rising_bind; [|intros ?]
  | |- rising (when _ _) => apply rising_when
  | |- rising (for_each _ _) => apply rising_for_each; intros ?
  | |- rising (try_finally _ _) => apply rising_try_finally
  | |- rising (add_errors 1) => apply rising_add_errors; lia
  | |- rising (match ?x with _ => _ end) => destruct x
  | |- rising _ => solve [auto with rise]
  end.

Lemma run_outcome_result (name : string) (o : outcome) (w : world) :
  fst (run_outcome name o w) = returned o
  /\ total_errors (self (snd (run_outcome name o w))) = total_errors (self w).
Proof.
  destruct (returned o) as [n|e] eqn:Hret.
  - now rewrite (run_outcome_returns _ _ _ _ Hret).
  - now rewrite (run_outcome_raises _ _ _ _ Hret).
Qed.

(** Running a rule and adding what it returns never lowers the count
    when the rule returns no negative number. *)
Lemma rising_run_and_add (name : string) (o : outcome) :
  (forall n, returned o = Ok n -> 0 <= n) ->
  rising (bind (run_outcome name o) add_errors).
Proof.
  intros Hpos w. unfold bind.
  destruct (run_outcome_result name o w) as [Hfst Hsnd].
  destruct (run_outcome name o w) as [[n|e] w']; cbn [fst snd] in *.
  - symmetry in Hfst. apply Hpos in Hfst. cbn. lia.
  - lia.
Qed.

Lemma rising_run_check_type (doc : document) (name : string) :
  counts_from_zero E -> rising (run_check_type E doc name).
Proof.
  intros [Hfzp _]. unfold run_check_type, _get_checker, fzp_run.
  rise_step; [rise_step|]. rise_step; [repeat rise_step|].
  rise_step; [repeat rise_step|].
  apply rising_run_and_add. intros n. apply Hfzp.
Qed.

Lemma rising_run_svg_check_type (svg_path view_tag : string) (svg : document)
      (layer_ids : list string) (name : string) :
  counts_from_zero E ->
  rising (run_svg_check_type E svg_path view_tag svg layer_ids name).
Proof.
  intros [_ Hsvg]. unfold run_svg_check_type, _get_svg_checker, svg_run.
  rise_step; [rise_step|]. rise_step; [repeat rise_step|].
  rise_step; [repeat rise_step|].
  apply rising_run_and_add. intros n. apply Hsvg.
Qed.

Lemma rising_check_svg (svg_path view_tag : string)
      (layer_ids svg_check_types : list string) :
  counts_from_zero E ->
  rising (check_svg E svg_path view_tag layer_ids svg_check_types).
Proof.
  intros Hpos. unfold check_svg.
  apply rising_try_finally; [|repeat rise_step].
  apply rising_try_except.
  - rise_step; [rise_step|]. rise_step; [rise_step|].
    apply rising_for_each. intros name. now apply rising_run_svg_check_type.
  - intros [msg| | | |] h [= <-]. repeat rise_step.
Qed.

Lemma rising_run_view (svg_check_types : list string) (view : element) :
  counts_from_zero E -> rising (run_view E svg_check_types view).
Proof.
  intros Hpos. unfold run_view.
  repeat first [apply rising_check_svg; exact Hpos | rise_step].
Qed.

Lemma rising__run_svg_checkers (doc : document) (svg_check_types : list string) :
  counts_from_zero E -> rising (_run_svg_checkers E doc svg_check_types).
Proof.
  intros Hpos. unfold _run_svg_checkers.
  repeat first [apply rising_run_view; exact Hpos | rise_step].
Qed.

Lemma batch_fresh_from (v : bool) (check_types svg_check_types files : list string)
      (errors total : Z) :
  (forall f, 0 <= fresh_total E v check_types svg_check_types f) ->
  batch_fresh E v check_types svg_check_types files errors = Ok total ->
  errors <= total.
Proof.
  intros Hpos. revert errors. induction files as [|f rest IH]; intros errors.
  - cbn. intros [= <-]. lia.
  - cbn [batch_fresh]. destruct (fst _); [|discriminate].
    intros Hrest. apply IH in Hrest. specialize (Hpos f). lia.
Qed.

(** X8. On a host whose rules return no negative count, the count the
    runner holds after [check] is never negative, however the run ends,
    and a batch that completes returns a sum that is not negative. *)
Theorem total_errors_never_negative
        (check_types svg_check_types : list string) (svg_file fzp_dir : string)
        (w : world) :
  counts_from_zero E ->
  0 <= total_errors (self (snd (check E check_types svg_check_types w)))
  /\ forall total,
       fst (search_and_check_fzp_files E svg_file fzp_dir
                                       check_types svg_check_types w)
       = Ok total ->
       0 <= total.
Proof.
  intros Hpos.
  assert (Hcheck : forall w0,
             0 <= total_errors
                    (self (snd (check E check_types svg_check_types w0)))).
  { intros w0. unfold check. unfold bind at 1, set_total_errors at 1.
    match goal with
    | |- 0 <= total_errors (self (snd (?rest ?w1))) =>
        assert (Hrise : rising rest); [|exact (Hrise w1)]
    end.
    apply rising_bind.
    - apply rising_try_except.
      + unfold _parse_fzp. repeat rise_step.
      + intros [msg| | | |] h [= <-]. repeat rise_step.
    - intros [doc|]; [|apply rising_ret].
      repeat first [ apply rising_for_each; intros ?;
                     apply rising_run_check_type; exact Hpos
                   | apply rising__run_svg_checkers; exact Hpos
                   | rise_step ]. }
  split; [apply Hcheck|].
  intros total. unfold search_and_check_fzp_files, bind, lift.
  destruct (_search_fzp_files_with_svg E svg_file fzp_dir) as [found|e];
    [|discriminate].
  rewrite check_each_fresh. apply batch_fresh_from. intros f. apply Hcheck.
Qed.

(** ** Names and classes *)

Lemma find_checker_in (registry : list fzp_checker) (c : fzp_checker) :
  NoDup (map (fzp_get_name E) registry) -> In c registry ->
  find_checker E registry (fzp_get_name E c) = Some c.
Proof.
  induction registry as [|c' rest IH]; [contradiction|].
  cbn [map find_checker In]. intros Hnodup [->|Hin].
  - now rewrite String.eqb_refl.
  - inversion Hnodup as [|? ? Hnotin Hrest]; subst.
    destruct (String.eqb (fzp_get_name E c') (fzp_get_name E c)) eqn:Heq;
      [|now apply IH].
    apply String.eqb_eq in Heq. exfalso. apply Hnotin. rewrite Heq.
    now apply in_map.
Qed.

Lemma find_svg_checker_in (registry : list svg_checker) (c : svg_checker) :
  NoDup (map (svg_get_name E) registry) -> In c registry ->
  find_svg_checker E registry (svg_get_name E c) = Some c.
Proof.
  induction registry as [|c' rest IH]; [contradiction|].
  cbn [map find_svg_checker In]. intros Hnodup [->|Hin].
  - now rewrite String.eqb_refl.
  - inversion Hnodup as [|? ? Hnotin Hrest]; subst.
    destruct (String.eqb (svg_get_name E c') (svg_get_name E c)) eqn:Heq;
      [|now apply IH].
    apply String.eqb_eq in Heq. exfalso. apply Hnotin. rewrite Heq.
    now apply in_map.
Qed.

(** X9. When the registered classes have distinct names, asking for a
    class by its own name builds an object of exactly that class, on the
    given document.  The three connector rules are also given the part
    file's path; the missing-tags rule is built from the document
    alone.  An SVG rule is built from the SVG and the layer ids. *)
Theorem registered_name_builds_its_class
        (c : fzp_checker) (sc : svg_checker) (doc svg : document)
        (layer_ids : list string) (w : world) :
  NoDup (map (fzp_get_name E) AVAILABLE_CHECKERS) ->
  NoDup (map (svg_get_name E) SVG_AVAILABLE_CHECKERS) ->
  _get_checker E (fzp_get_name E c) doc w
  = (Ok (FzpInstance c doc
                     match c with
                     | FZPMissingTagsChecker => None
                     | _ => Some (path (self w))
                     end), w)
  /\ _get_svg_checker E (svg_get_name E sc) svg layer_ids w
     = (Ok (SvgInstance sc svg layer_ids), w).
Proof.
  intros Hfzp Hsvg. split.
  - unfold _get_checker, bind, get_self.
    rewrite (find_checker_in _ c Hfzp) by (destruct c; cbn; auto).
    now destruct c.
  - unfold _get_svg_checker.
    rewrite (find_svg_checker_in _ sc Hsvg) by (destruct sc; cbn; auto).
    reflexivity.
Qed.

(** ** What a batch leaves behind *)

Lemma check_each_cons (check_types svg_check_types rest : list string)
      (f : string) (errors : Z) (w : world) :
  check_each E (f :: rest) check_types svg_check_types errors w
  = match check E check_types svg_check_types
                (World (Runner f (verbose (self w)) (total_errors (self w)))
                       (stdout w) (calls w) (svg_doc w)) with
    | (Ok _, w1) =>
        check_each E rest check_types svg_check_types
                   (errors + total_errors (self w1)) w1
    | (Raise e, w1) => (Raise e, w1)
    end.
Proof. reflexivity. Qed.

Lemma check_each_last (check_types svg_check_types files : list string)
      (errors total : Z) (w : world) :
  files <> [] ->
  fst (check_each E files check_types svg_check_types errors w) = Ok total ->
  path (self (snd (check_each E files check_types svg_check_types errors w)))
  = last files ""
  /\ verbose (self (snd (check_each E files check_types svg_check_types
                                    errors w)))
     = verbose (self w)
  /\ total_errors (self (snd (check_each E files check_types svg_check_types
                                         errors w)))
     = fresh_total E (verbose (self w)) check_types svg_check_types
                   (last files "").
Proof.
  revert errors w. induction files as [|f rest IH]; intros errors w Hne;
    [contradiction|].
  rewrite check_each_cons.
  destruct (check_from_anywhere check_types svg_check_types
              (World (Runner f (verbose (self w)) (total_errors (self w)))
                     (stdout w) (calls w) (svg_doc w)))
    as (_ & Hself & _).
  destruct (tame_check check_types svg_check_types
              (World (Runner f (verbose (self w)) (total_errors (self w)))
                     (stdout w) (calls w) (svg_doc w))) as [Hp Hv].
  cbn [self path verbose] in Hself, Hp, Hv.
  destruct (check E check_types svg_check_types _) as [[[]|e] w1];
    cbn [fst snd] in *; [|discriminate].
  destruct rest as [|f' rest'].
  - cbn. intros _. repeat split; try assumption.
    unfold fresh_total. now rewrite Hself.
  - intros Hok.
    destruct (IH (errors + total_errors (self w1)) w1) as (Hp' & Hv' & Ht');
      [discriminate|exact Hok|].
    rewrite Hv in Hv', Ht'. now repeat split.
Qed.

(** X10. A batch works on the caller's runner object.  When discovery
    finds no part file the batch returns 0 and the runner is untouched;
    when it completes on a non-empty list the runner is left pointing at
    the last file checked, holding that file's count only, with its
    verbosity unchanged.  When discovery itself raises, the batch ends
    with that exception and the runner is untouched. *)
Theorem batch_leaves_runner_on_last_file
        (svg_file fzp_dir : string) (check_types svg_check_types : list string)
        (total : Z) (w : world) :
  let found := _search_fzp_files_with_svg E svg_file fzp_dir in
  let batch := search_and_check_fzp_files E svg_file fzp_dir
                                          check_types svg_check_types w in
  (found = Ok [] -> batch = (Ok 0, w))
  /\ (forall files,
        found = Ok files -> files <> [] -> fst batch = Ok total ->
        path (self (snd batch)) = last files ""
        /\ verbose (self (snd batch)) = verbose (self w)
        /\ total_errors (self (snd batch))
           = fresh_total E (verbose (self w)) check_types svg_check_types
                         (last files ""))
  /\ (forall e, found = Raise e -> batch = (Raise e, w)).
Proof.
  intros found batch. subst batch. unfold search_and_check_fzp_files.
  fold found. unfold bind, lift. split; [|split].
  - intros ->. reflexivity.
  - intros files -> Hne Hok. exact (check_each_last _ _ _ _ _ _ Hne Hok).
  - intros e ->. reflexivity.
Qed.

(** ** Names that are not registered *)

(** An unregistered FZP name met in [check]: the rules requested
    before it have run, and the error leaves [check]. *)
Lemma unknown_fzp_name_leaves_check (fzp_name : string) (doc : document)
      (before after svg_check_types : list string) (w : world) :
  find_checker E AVAILABLE_CHECKERS fzp_name = None ->
  etree_parse E (path (self w)) = Ok doc ->
  Forall (fun name => passes (fzp_outcome E (path (self w)) doc name)) before ->
  check E (before ++ fzp_name :: after) svg_check_types w
  = (Raise (ValueError ("Invalid check type: " ^^ fzp_name)),
     World (Runner (path (self w)) (verbose (self w))
                   (sum (map (fun name =>
                                count_of (fzp_outcome E (path (self w)) doc name))
                             before)))
           (stdout w
              ++ (if verbose (self w)
                  then ["Scanning file: " ^^ path (self w)] else [])
              ++ flat_map (fzp_lines E (verbose (self w)) (path (self w)) doc)
                          before)
           (calls w ++ CallParse (path (self w)) :: map CallCheck before)
           (svg_doc w)).
Proof.
  intros Hfzp Hparse Hpass. destruct w as [[p v t] o cs sd].
  cbn [self path verbose total_errors stdout calls svg_doc] in *.
  unfold check, _parse_fzp, parse. mred. rewrite Hparse.
  destruct v; mred; rewrite for_each_app;
    rewrite run_check_types_pass by exact Hpass;
    cbn [self path verbose total_errors stdout calls svg_doc for_each];
    unfold run_check_type at 1, _get_checker; mred; rewrite Hfzp;
    cbn [Z.add]; rewrite <- !app_assoc; reflexivity.
Qed.

(** An unregistered SVG name met while an asset is checked: the error
    passes the handler for malformed XML, the [finally] clause clears
    the loaded tree, and the error leaves the statement. *)
Lemma unknown_svg_name_leaves_load (svg_name : string) (svg : document)
      (svg_before svg_after layer_ids : list string)
      (svg_path view_tag : string) (w : world) :
  find_svg_checker E SVG_AVAILABLE_CHECKERS svg_name = None ->
  etree_parse E svg_path = Ok svg ->
  Forall (fun name => passes (svg_outcome E svg layer_ids name)) svg_before ->
  check_svg E svg_path view_tag layer_ids
            (svg_before ++ svg_name :: svg_after) w
  = (Raise (ValueError ("Invalid SVG check type: " ^^ svg_name)),
     World (Runner (path (self w)) (verbose (self w))
                   (total_errors (self w)
                    + sum (map (fun name =>
                                  count_of (svg_outcome E svg layer_ids name))
                               svg_before)))
           (stdout w
              ++ flat_map (svg_lines E (verbose (self w)) svg_path view_tag svg
                                     layer_ids)
                          svg_before)
           (calls w ++ CallParse svg_path :: map CallCheck svg_before)
           (Some (clear_root svg))).
Proof.
  intros Hsvg Hparse_svg Hpass_svg. destruct w as [[p v t] o cs sd].
  cbn [self path verbose total_errors stdout calls svg_doc] in *.
  unfold check_svg, parse. mred.
  rewrite Hparse_svg. mred. rewrite for_each_app.
  rewrite run_svg_check_types_pass by exact Hpass_svg.
  cbn [self path verbose total_errors stdout calls svg_doc for_each].
  unfold run_svg_check_type at 1, _get_svg_checker. mred. rewrite Hsvg.
  rewrite <- !app_assoc. reflexivity.
Qed.

(** A view with an asset on disk goes on to load it. *)
Lemma run_view_loads (svg_check_types : list string) (view : element)
      (image svg_path : string) (layer_ids : list string) (w : world) :
  asset_of E (path (self w)) view = Some (image, svg_path, layer_ids) ->
  run_view E svg_check_types view w
  = check_svg E svg_path (tag view) layer_ids svg_check_types
      (World (self w) (stdout w)
             (calls w ++ [CallGetSvgPath (path (self w)) image (tag view);
                          CallIsFile svg_path])
             (svg_doc w)).
Proof.
  unfold asset_of, run_view, bind at 1, get_self at 1.
  destruct (String.eqb (tag view) "defaultUnits"); [discriminate|].
  destruct (xpath_child "layers" view) as [|layers others]; [discriminate|].
  destruct (get layers "image") as [[|c s]|]; try discriminate.
  destruct (get_svg_path E (path (self w)) (String c s) (tag view))
    as [found|]; [|discriminate].
  destruct (isfile E found); [|discriminate].
  intros [= <- <- <-]. unfold bind, log.
  cbn [self stdout calls svg_doc]. now rewrite <- app_assoc.
Qed.

(** A view without an asset on disk returns, and what it does is the
    same whatever SVG checks were requested. *)
Lemma run_view_no_asset (svg_check_types others : list string)
      (view : element) (w : world) :
  asset_of E (path (self w)) view = None ->
  run_view E svg_check_types view w = run_view E others view w
  /\ fst (run_view E svg_check_types view w) = Ok tt.
Proof.
  unfold asset_of, run_view, bind, get_self, log, print, add_errors, ret.
  destruct (String.eqb (tag view) "defaultUnits"); [now split|].
  destruct (xpath_child "layers" view) as [|layers rest]; [now split|].
  destruct (get layers "image") as [[|c s]|]; [now split| |now split].
  destruct (get_svg_path E (path (self w)) (String c s) (tag view))
    as [found|]; [|now split].
  destruct (isfile E found); [discriminate|now split].
Qed.

Lemma views_no_asset (svg_check_types others : list string)
      (views : list element) (w : world) :
  Forall (fun view => asset_of E (path (self w)) view = None) views ->
  for_each views (run_view E svg_check_types) w
  = for_each views (run_view E others) w
  /\ fst (for_each views (run_view E svg_check_types) w) = Ok tt.
Proof.
  revert w. induction views as [|view rest IH]; intros w Hall; [now split|].
  inversion Hall as [|? ? Hview Hrest]; subst.
  destruct (run_view_no_asset svg_check_types others view w Hview)
    as [Heq Hok].
  cbn [for_each]. unfold bind. rewrite <- Heq.
  destruct (tame_run_view svg_check_types view w) as [Hp _].
  destruct (run_view E svg_check_types view w) as [[[]|e] w1];
    cbn [fst snd] in *; [|discriminate].
  apply IH. now rewrite Hp.
Qed.

(** The views loop ends with the error at the first view with an
    asset on disk, when that asset loads and the SVG rules requested
    before the name return: the views before it have returned, and
    only those rules' counts are added to what the runner held
    then. *)
Lemma unknown_svg_name_leaves_views (svg_name : string) (svg : document)
      (svg_before svg_after layer_ids : list string)
      (image svg_path : string) (view : element)
      (earlier later : list element) (w : world) :
  find_svg_checker E SVG_AVAILABLE_CHECKERS svg_name = None ->
  Forall (fun view' => asset_of E (path (self w)) view' = None) earlier ->
  asset_of E (path (self w)) view = Some (image, svg_path, layer_ids) ->
  etree_parse E svg_path = Ok svg ->
  Forall (fun name => passes (svg_outcome E svg layer_ids name)) svg_before ->
  let svg_names := svg_before ++ svg_name :: svg_after in
  let w' := snd (for_each earlier (run_view E svg_names) w) in
  fst (for_each earlier (run_view E svg_names) w) = Ok tt
  /\ for_each (earlier ++ view :: later) (run_view E svg_names) w
     = (Raise (ValueError ("Invalid SVG check type: " ^^ svg_name)),
        World (Runner (path (self w)) (verbose (self w))
                      (total_errors (self w')
                       + sum (map (fun name =>
                                     count_of (svg_outcome E svg layer_ids name))
                                  svg_before)))
              (stdout w'
                 ++ flat_map (svg_lines E (verbose (self w)) svg_path (tag view)
                                        svg layer_ids)
                             svg_before)
              (calls w' ++ CallGetSvgPath (path (self w)) image (tag view)
                        :: CallIsFile svg_path :: CallParse svg_path
                        :: map CallCheck svg_before)
              (Some (clear_root svg))).
Proof.
  intros Hsvg Hearlier Hasset Hparse_svg Hpass_svg svg_names w'.
  subst w' svg_names.
  destruct (views_no_asset (svg_before ++ svg_name :: svg_after) []
                           earlier w Hearlier) as [_ Hok].
  split; [exact Hok|]. rewrite for_each_app.
  destruct (tame_for_each earlier
              (run_view E (svg_before ++ svg_name :: svg_after))
              (tame_run_view _) w) as [Hp Hv].
  destruct (for_each earlier _ w) as [[[]|e] w1]; cbn [fst snd] in *;
    [|discriminate].
  rewrite <- Hp in Hasset. cbn [for_each]. unfold bind.
  rewrite (run_view_loads _ _ _ _ _ _ Hasset).
  rewrite (unknown_svg_name_leaves_load _ _ _ _ _ _ _ _ Hsvg Hparse_svg
                                        Hpass_svg).
  cbn [self path verbose total_errors stdout calls svg_doc].
  now rewrite Hp, Hv, <- app_assoc.
Qed.

(** C4, as amended. A requested name that no registered FZP rule
    (respectively SVG rule) answers to makes the lookup raise a
    [ValueError] and leaves the state, the error count included, as it
    was.  The error is raised when the run looks the name up.  An FZP
    name is looked up once the part file has parsed and the rules
    requested before it have returned: [check] then ends with the
    error, only those rules' counts added.  An SVG name is looked up
    once a view's asset has loaded and the SVG rules requested before
    it have returned: the error passes the handler for malformed XML
    and the [finally] clause, leaves the processing of the view with
    only those rules' counts added, and ends [check] when the part file
    parsed, the FZP rules returned and no earlier view has an asset on
    disk, in the state the FZP rules, the earlier views and those SVG
    rules have led to.  A run that does not reach the name does not
    raise for it: on a malformed part file [check] returns with a count
    of 1 whatever was requested, and when no view has an asset on disk
    [check] ends the same way whatever SVG names were requested. *)
Theorem unknown_check_name_raises
        (fzp_name svg_name : string) (doc svg : document)
        (before after svg_before svg_after check_types layer_ids : list string)
        (image svg_path view_tag msg : string) (view : element)
        (earlier later : list element) (w : world) :
  ~ In fzp_name (map (fzp_get_name E) AVAILABLE_CHECKERS) ->
  ~ In svg_name (map (svg_get_name E) SVG_AVAILABLE_CHECKERS) ->
  let p := path (self w) in
  let v := verbose (self w) in
  let fzp_names := before ++ fzp_name :: after in
  let svg_names := svg_before ++ svg_name :: svg_after in
  let svg_error := ValueError ("Invalid SVG check type: " ^^ svg_name) in
  _get_checker E fzp_name doc w
    = (Raise (ValueError ("Invalid check type: " ^^ fzp_name)), w)
  /\ _get_svg_checker E svg_name svg layer_ids w = (Raise svg_error, w)
  /\ (etree_parse E p = Ok doc ->
      Forall (fun name => passes (fzp_outcome E p doc name)) before ->
      check E fzp_names svg_names w
      = (Raise (ValueError ("Invalid check type: " ^^ fzp_name)),
         World (Runner p v
                       (sum (map (fun name => count_of (fzp_outcome E p doc name))
                                 before)))
               (stdout w ++ (if v then ["Scanning file: " ^^ p] else [])
                         ++ flat_map (fzp_lines E v p doc) before)
               (calls w ++ CallParse p :: map CallCheck before)
               (svg_doc w)))
  /\ (etree_parse E svg_path = Ok svg ->
      Forall (fun name => passes (svg_outcome E svg layer_ids name)) svg_before ->
      check_svg E svg_path view_tag layer_ids svg_names w
      = (Raise svg_error,
         World (Runner p v
                       (total_errors (self w)
                        + sum (map (fun name =>
                                      count_of (svg_outcome E svg layer_ids name))
                                   svg_before)))
               (stdout w
                  ++ flat_map (svg_lines E v svg_path view_tag svg layer_ids)
                              svg_before)
               (calls w ++ CallParse svg_path :: map CallCheck svg_before)
               (Some (clear_root svg))))
  /\ (asset_of E p view = Some (image, svg_path, layer_ids) ->
      etree_parse E svg_path = Ok svg ->
      Forall (fun name => passes (svg_outcome E svg layer_ids name)) svg_before ->
      run_view E svg_names view w
      = (Raise svg_error,
         World (Runner p v
                       (total_errors (self w)
                        + sum (map (fun name =>
                                      count_of (svg_outcome E svg layer_ids name))
                                   svg_before)))
               (stdout w
                  ++ flat_map (svg_lines E v svg_path (tag view) svg layer_ids)
                              svg_before)
               (calls w ++ CallGetSvgPath p image (tag view)
                        :: CallIsFile svg_path :: CallParse svg_path
                        :: map CallCheck svg_before)
               (Some (clear_root svg))))
  /\ (etree_parse E p = Ok doc ->
      Forall (fun name => passes (fzp_outcome E p doc name)) check_types ->
      declared_views doc = earlier ++ view :: later ->
      Forall (fun view' => asset_of E p view' = None) earlier ->
      asset_of E p view = Some (image, svg_path, layer_ids) ->
      etree_parse E svg_path = Ok svg ->
      Forall (fun name => passes (svg_outcome E svg layer_ids name)) svg_before ->
      let w1 :=
        World (Runner p v
                      (sum (map (fun name => count_of (fzp_outcome E p doc name))
                                check_types)))
              (stdout w ++ (if v then ["Scanning file: " ^^ p] else [])
                        ++ flat_map (fzp_lines E v p doc) check_types)
              (calls w ++ CallParse p :: map CallCheck check_types)
              None in
      let w2 := snd (for_each earlier (run_view E svg_names) w1) in
      fst (for_each earlier (run_view E svg_names) w1) = Ok tt
      /\ check E check_types svg_names w
         = (Raise svg_error,
            World (Runner p v
                          (total_errors (self w2)
                           + sum (map (fun name =>
                                         count_of (svg_outcome E svg layer_ids
                                                               name))
                                      svg_before)))
                  (stdout w2
                     ++ flat_map (svg_lines E v svg_path (tag view) svg
                                            layer_ids)
                                 svg_before)
                  (calls w2 ++ CallGetSvgPath p image (tag view)
                            :: CallIsFile svg_path :: CallParse svg_path
                            :: map CallCheck svg_before)
                  (Some (clear_root svg))))
  /\ (etree_parse E p = Raise (XMLSyntaxError msg) ->
      check E fzp_names svg_names w
      = (Ok tt,
         World (Runner p v 1) (stdout w ++ ["Invalid XML: " ^^ msg])
               (calls w ++ [CallParse p]) (svg_doc w)))
  /\ (etree_parse E p = Ok doc ->
      Forall (fun view' => asset_of E p view' = None) (declared_views doc) ->
      forall svg_check_types,
        svg_check_types <> [] ->
        check E check_types svg_names w
        = check E check_types svg_check_types w).
Proof.
  intros Hfzp Hsvg p v fzp_names svg_names svg_error.
  subst p v fzp_names svg_names svg_error.
  apply find_checker_none in Hfzp. apply find_svg_checker_none in Hsvg.
  assert (Hnames : exists name rest,
             svg_before ++ svg_name :: svg_after = name :: rest).
  { destruct svg_before; cbn; eauto. }
  split; [|split; [|split; [|split; [|split; [|split; [|split]]]]]].
  - destruct w as [[p v t] o cs sd]. unfold _get_checker. mred.
    now rewrite Hfzp.
  - destruct w as [[p v t] o cs sd]. unfold _get_svg_checker. mred.
    now rewrite Hsvg.
  - apply unknown_fzp_name_leaves_check; assumption.
  - apply unknown_svg_name_leaves_load; assumption.
  - intros Hasset Hparse_svg Hpass_svg.
    rewrite (run_view_loads _ _ _ _ _ _ Hasset).
    rewrite (unknown_svg_name_leaves_load _ _ _ _ _ _ _ _ Hsvg Hparse_svg
                                          Hpass_svg).
    cbn [self path verbose total_errors stdout calls svg_doc].
    now rewrite <- app_assoc.
  - intros Hparse Hpass Hviews Hearlier Hasset Hparse_svg Hpass_svg.
    destruct Hnames as (name & rest & Hnames).
    destruct w as [[p v t] o cs sd].
    cbn [self path verbose total_errors stdout calls svg_doc] in *.
    unfold declared_views in Hviews.
    destruct (xpath_anywhere "views" (getroot doc)) as [|views more] eqn:Hfirst;
      [now destruct earlier|].
    match goal with
    | |- fst (for_each _ _ ?W) = _ /\ _ => set (w1 := W)
    end.
    set (w2 := snd (for_each earlier
                             (run_view E (svg_before ++ svg_name :: svg_after))
                             w1)).
    destruct (unknown_svg_name_leaves_views svg_name svg svg_before
                svg_after layer_ids image svg_path view earlier later
                w1 Hsvg Hearlier Hasset Hparse_svg Hpass_svg)
      as [Hearly Hloop].
    split; [exact Hearly|]. fold w2 in Hloop.
    unfold check, _parse_fzp, parse. mred. rewrite Hparse.
    destruct v; mred; rewrite run_check_types_pass by exact Hpass;
      rewrite Hnames; unfold _run_svg_checkers; mred; rewrite Hfirst; mred;
      rewrite Hviews, <- Hnames;
      match goal with
      | |- context [for_each _ (run_view _ _) ?W] =>
          replace W with w1
            by (subst w1; cbn [app Z.add]; now rewrite <- ?app_assoc)
      end; rewrite Hloop; reflexivity.
  - intros Hparse. run_step. rewrite Hparse. reflexivity.
  - intros Hparse Hnone svg_check_types Hne.
    destruct Hnames as (name & rest & ->).
    destruct svg_check_types as [|name' rest']; [contradiction|].
    destruct w as [[p v t] o cs sd].
    cbn [self path verbose total_errors stdout calls svg_doc] in *.
    unfold check, _parse_fzp, parse. mred. rewrite Hparse.
    unfold declared_views in Hnone.
    destruct v; mred;
      match goal with
      | |- context [for_each _ (run_check_type _ _) ?W] =>
          destruct (tame_for_each check_types (run_check_type E doc)
                                  (tame_run_check_type doc) W) as [Hp _];
          destruct (for_each check_types (run_check_type E doc) W)
            as [[[]|e] [[p1 v1 t1] o1 cs1 sd1]]
      end; try reflexivity;
      cbn [snd self path] in Hp; subst p1;
      unfold _run_svg_checkers; mred;
      (destruct (xpath_anywhere "views" (getroot doc)) as [|views more];
       [reflexivity|]); mred;
      match goal with
      | |- context [for_each _ (run_view _ (name :: rest)) ?W] =>
          destruct (views_no_asset (name :: rest) (name' :: rest')
                                   (xpath_star views) W Hnone) as [-> _]
      end; reflexivity.
Qed.

End RunnerFacts.

(** * Properties of batch discovery *)

Section Discovery.

Import FileTree.
Import Pruning.

Variable E : host.

Lemma dir_induction (P : dir -> Prop) :
  (forall fs ds, (forall name sub, In (name, sub) ds -> P sub) -> P (Dir fs ds)) ->
  forall d, P d.
Proof.
  intros Hstep. fix IH 1. intros [fs ds]. apply Hstep.
  induction ds as [|[n s] rest IHds]; intros name sub Hin.
  - destruct Hin.
  - destruct Hin as [Heq|Hin].
    + injection Heq as _ <-. apply IH.
    + exact (IHds name sub Hin).
Qed.

Lemma mem_In (x : string) (xs : list string) :
  Py.mem x xs = true <-> In x xs.
Proof.
  unfold Py.mem. rewrite existsb_exists. split.
  - intros (y & Hin & Heq). apply String.eqb_eq in Heq. now subst y.
  - intros Hin. exists x. split; [exact Hin|apply String.eqb_refl].
Qed.

(** [os.walk] visits exactly the directories below the top, each under
    the path built from the names leading to it. *)
Lemma walk_holds (d : dir) (top root file : string) :
  (exists dirs fs, In (root, dirs, fs) (walk top d) /\ In file fs)
  <-> (exists names, holds d names file /\ root = path_of top names).
Proof.
  revert top. induction d as [fs ds IH] using dir_induction. intros top. split.
  - intros (dirs & fs' & Hin & Hfile). cbn [walk] in Hin.
    destruct Hin as [Heq|Hin].
    + injection Heq as <- _ <-. exists []. split; [now constructor|reflexivity].
    + apply in_flat_map in Hin as ([name sub] & Hentry & Hin). cbn [fst snd] in Hin.
      destruct (proj1 (IH name sub Hentry (Py.join top name))) as (names & Hholds & ->).
      { now exists dirs, fs'. }
      exists (name :: names). split; [|reflexivity].
      now apply holds_below with (sub := sub).
  - intros (names & Hholds & ->). inversion Hholds as [? ? ? Hfile|? ? name sub names' ? Hentry Hsub]; subst.
    + exists (map fst ds), fs. split; [now left|exact Hfile].
    + destruct (proj2 (IH name sub Hentry (Py.join top name))) as (dirs & fs' & Hin & Hfile).
      { now exists names'. }
      exists dirs, fs'. split; [|exact Hfile].
      cbn [walk]. right. apply in_flat_map. now exists (name, sub).
Qed.

(** ** Path segments *)

Lemma split_not_nil (s : string) : Py.split Py.sep s <> [].
Proof.
  destruct s as [|c rest]; cbn; [discriminate|].
  destruct (Ascii.eqb c Py.sep); [discriminate|].
  destruct (Py.split Py.sep rest); discriminate.
Qed.

Lemma split_plain (name : string) :
  plain name = true -> Py.split Py.sep name = [name].
Proof.
  induction name as [|c rest IH]; cbn; [reflexivity|].
  intros Hplain. apply andb_true_iff in Hplain as [Hc Hrest].
  apply negb_true_iff in Hc. rewrite Hc, (IH Hrest). reflexivity.
Qed.

Lemma split_append_sep (a b : string) :
  Py.split Py.sep (a ^^ String Py.sep b)
  = Py.split Py.sep a ++ Py.split Py.sep b.
Proof.
  induction a as [|c rest IH]; cbn [String.append Py.split].
  - rewrite Ascii.eqb_refl. reflexivity.
  - destruct (Ascii.eqb c Py.sep).
    + rewrite IH. reflexivity.
    + rewrite IH. pose proof (split_not_nil rest) as Hne.
      destruct (Py.split Py.sep rest) as [|piece pieces]; [contradiction|].
      reflexivity.
Qed.

Lemma endswith_sep_cons (c c' : ascii) (s : string) :
  Py.endswith (String c (String c' s)) "/" = Py.endswith (String c' s) "/".
Proof.
  unfold Py.endswith. cbn [String.length Nat.leb].
  replace (S (S (String.length s)) - 1)%nat with (S (String.length s)) by lia.
  replace (S (String.length s) - 1)%nat with (String.length s) by lia.
  reflexivity.
Qed.

Lemma endswith_sep_inv (a : string) :
  Py.endswith a "/" = true -> exists a', a = a' ^^ "/".
Proof.
  induction a as [|c rest IH]; [discriminate|].
  destruct rest as [|c' rest'].
  - unfold Py.endswith. cbn. destruct (Ascii.eqb c "/") eqn:Hc; [|discriminate].
    apply Ascii.eqb_eq in Hc. subst c. intros _. now exists "".
  - rewrite endswith_sep_cons. intros Hend.
    destruct (IH Hend) as (a' & Ha'). exists (String c a'). cbn.
    now rewrite <- Ha'.
Qed.

Lemma append_assoc (a b c : string) : (a ^^ b) ^^ c = a ^^ (b ^^ c).
Proof. induction a as [|x rest IH]; cbn; [reflexivity|now rewrite IH]. Qed.

Lemma plain_not_absolute (name : string) :
  plain name = true -> prefix "/" name = false.
Proof.
  destruct name as [|c rest]; [reflexivity|]. cbn [plain prefix].
  intros Hplain. apply andb_true_iff in Hplain as [Hc _].
  apply negb_true_iff, Ascii.eqb_neq in Hc.
  destruct (ascii_dec "/" c) as [Heq|Hne]; [|reflexivity].
  now destruct Hc.
Qed.

(** Joining a plain name to a path adds that name to its segments, as
    far as any non-empty segment goes. *)
Lemma segments_join (a name x : string) :
  plain name = true -> x <> "" ->
  In x (segments (Py.join a name)) <-> In x (segments a) \/ x = name.
Proof.
  intros Hplain Hx. unfold segments, Py.join.
  rewrite (plain_not_absolute _ Hplain).
  destruct (String.eqb a "") eqn:Ha.
  - apply String.eqb_eq in Ha. subst a. rewrite (split_plain _ Hplain). cbn.
    split.
    + intros [Heq|[]]. now right.
    + intros [[Heq|[]]|Heq]; [now destruct Hx|now left].
  - destruct (Py.endswith a "/") eqn:Hend.
    + destruct (endswith_sep_inv _ Hend) as (a' & ->).
      rewrite append_assoc. change ("/" ^^ name) with (String Py.sep name).
      change "/" with (String Py.sep "").
      rewrite !split_append_sep, (split_plain _ Hplain). cbn [Py.split].
      rewrite !in_app_iff. cbn [In]. split.
      * intros [H|[Heq|[]]]; auto.
      * intros [[H|[H|[]]]|Heq]; auto; now destruct Hx.

    + change ("/" ^^ name) with (String Py.sep name).
      rewrite split_append_sep, (split_plain _ Hplain), in_app_iff. cbn [In].
      split; [intros [H|[Heq|[]]]; auto|intros [H|Heq]; auto].
Qed.

(** The segments of the path [os.walk] gives to a directory: those of
    the top, then the names that lead to it. *)
Lemma segments_path_of (top : string) (names : list string) (x : string) :
  Forall (fun name => plain name = true) names -> x <> "" ->
  In x (segments (path_of top names)) <-> In x (segments top) \/ In x names.
Proof.
  intros Hplain Hx. revert top.
  induction Hplain as [|name rest Hname _ IH]; intros top; cbn [path_of fold_left In].
  - tauto.
  - fold (path_of (Py.join top name) rest). rewrite IH, (segments_join _ _ _ Hname Hx).
    intuition auto.
Qed.

(** ** The loops of discovery *)

Lemma skipped_false (svg_file root : string) :
  skipped svg_file root = false
  <-> (In "obsolete" (segments root) -> In "obsolete" (segments svg_file)).
Proof.
  unfold skipped, segments. split.
  - intros Hskip Hroot. apply mem_In in Hroot.
    rewrite Hroot, andb_true_r in Hskip. apply negb_false_iff in Hskip.
    now apply mem_In.
  - intros Himp.
    destruct (Py.mem "obsolete" (Py.split Py.sep root)) eqn:Hroot;
      [|apply andb_false_r].
    rewrite andb_true_r. apply negb_false_iff.
    apply mem_In, Himp, mem_In. exact Hroot.
Qed.

(** How the loop over the files of a directory ends: with the list it
    was given followed by what this directory adds, every part file of
    the directory having been read, or with the exception of the first
    read that failed. *)
Lemma scan_files_found (svg_file root : string) (files acc : list string) :
  match scan_files E (Py.basename svg_file) root files acc with
  | Ok fzp_files =>
      fzp_files = acc ++ found_among E svg_file root files
      /\ forall file,
           In file files -> Py.endswith file ".fzp" = true ->
           exists fzp_content,
             read_text E (Py.join root file) = Ok fzp_content
  | Raise e =>
      exists file,
        In file files /\ Py.endswith file ".fzp" = true
        /\ read_text E (Py.join root file) = Raise e
  end.
Proof.
  revert acc. induction files as [|file rest IH]; intros acc.
  - cbn. split; [now rewrite app_nil_r|]. intros file [].
  - cbn [scan_files found_among flat_map].
    fold (found_among E svg_file root rest).
    destruct (Py.endswith file ".fzp") eqn:Hext.
    + destruct (read_text E (Py.join root file)) as [content|e] eqn:Hread.
      * destruct (Py.str_in (Py.basename svg_file) content).
        -- specialize (IH (acc ++ [Py.join root file])).
           destruct (scan_files E _ root rest _) as [found|e].
           ++ destruct IH as [-> Hall]. split; [now rewrite <- app_assoc|].
              intros f [<-|Hin] Hf; [now exists content|now apply Hall].
           ++ destruct IH as (f & Hin & Hf & Hraise). exists f.
              split; [now right|now split].
        -- specialize (IH acc).
           destruct (scan_files E _ root rest _) as [found|e].
           ++ destruct IH as [-> Hall]. split; [reflexivity|].
              intros f [<-|Hin] Hf; [now exists content|now apply Hall].
           ++ destruct IH as (f & Hin & Hf & Hraise). exists f.
              split; [now right|now split].
      * exists file. split; [now left|now split].
    + specialize (IH acc).
      destruct (scan_files E _ root rest _) as [found|e].
      * destruct IH as [-> Hall]. split; [reflexivity|].
        intros f [<-|Hin] Hf; [congruence|now apply Hall].
      * destruct IH as (f & Hin & Hf & Hraise). exists f.
        split; [now right|now split].
Qed.

(** The same for the loop over the directories of the walk. *)
Lemma scan_walk_found (svg_file : string)
      (visits : list (string * list string * list string))
      (acc : list string) :
  match scan_walk E (Py.basename svg_file)
                  (Py.mem "obsolete" (Py.split Py.sep svg_file)) visits acc with
  | Ok fzp_files =>
      fzp_files = acc ++ flat_map (found_in E svg_file) visits
      /\ forall root dirs files file,
           In (root, dirs, files) visits -> skipped svg_file root = false ->
           In file files -> Py.endswith file ".fzp" = true ->
           exists fzp_content,
             read_text E (Py.join root file) = Ok fzp_content
  | Raise e =>
      exists root dirs files file,
        In (root, dirs, files) visits /\ skipped svg_file root = false
        /\ In file files /\ Py.endswith file ".fzp" = true
        /\ read_text E (Py.join root file) = Raise e
  end.
Proof.
  revert acc. induction visits as [|[[root dirs] files] rest IH]; intros acc.
  - cbn. split; [now rewrite app_nil_r|]. now intros root dirs files file [].
  - cbn [scan_walk flat_map found_in].
    change (negb (Py.mem "obsolete" (Py.split Py.sep svg_file))
            && Py.mem "obsolete" (Py.split Py.sep root))
      with (skipped svg_file root).
    destruct (skipped svg_file root) eqn:Hskip.
    + specialize (IH acc). cbn [app].
      destruct (scan_walk E _ _ rest acc) as [found|e].
      * destruct IH as [-> Hall]. split; [reflexivity|].
        intros root' dirs' files' file [Heq|Hin] Hskip' Hfile Hext.
        -- injection Heq as <- _ _. congruence.
        -- exact (Hall root' dirs' files' file Hin Hskip' Hfile Hext).
      * destruct IH as (root' & dirs' & files' & file & Hin & Hrest).
        exists root', dirs', files', file. split; [now right|exact Hrest].
    + pose proof (scan_files_found svg_file root files acc) as Hfiles.
      destruct (scan_files E _ root files acc) as [here|e].
      * destruct Hfiles as [-> Hread]. specialize (IH (acc ++ found_among E svg_file root files)).
        destruct (scan_walk E _ _ rest _) as [found|e].
        -- destruct IH as [-> Hall]. split; [now rewrite <- app_assoc|].
           intros root' dirs' files' file [Heq|Hin] Hskip' Hfile Hext.
           ++ injection Heq as <- _ <-. now apply Hread.
           ++ exact (Hall root' dirs' files' file Hin Hskip' Hfile Hext).
        -- destruct IH as (root' & dirs' & files' & file & Hin & Hrest).
           exists root', dirs', files', file. split; [now right|exact Hrest].
      * destruct Hfiles as (file & Hfile & Hext & Hraise).
        exists root, dirs, files, file. split; [now left|]. now repeat split.
Qed.

(** When discovery returns, its list is made of what each directory of
    the walk adds, in the order of the walk. *)
Lemma search_by_directory (svg_file fzp_dir : string) (fzp_files : list string) :
  _search_fzp_files_with_svg E svg_file fzp_dir = Ok fzp_files ->
  fzp_files = flat_map (found_in E svg_file) (os_walk E fzp_dir).
Proof.
  unfold _search_fzp_files_with_svg. cbv zeta.
  pose proof (scan_walk_found svg_file (os_walk E fzp_dir) []) as Hscan.
  destruct (scan_walk E _ _ (os_walk E fzp_dir) []) as [found|e];
    [|discriminate].
  intros [= <-]. now destruct Hscan.
Qed.

Lemma found_in_inv (svg_file root : string) (dirs files : list string)
      (fzp_path : string) :
  In fzp_path (found_in E svg_file (root, dirs, files))
  <-> exists file,
        In file files /\ fzp_path = Py.join root file
        /\ Py.endswith file ".fzp" = true
        /\ (exists fzp_content,
               read_text E fzp_path = Ok fzp_content
               /\ Py.str_in (Py.basename svg_file) fzp_content = true)
        /\ skipped svg_file root = false.
Proof.
  unfold found_in, found_among. destruct (skipped svg_file root) eqn:Hskip.
  - split; [intros []|]. intros (file & _ & _ & _ & _ & Hfalse). discriminate.
  - rewrite in_flat_map. split.
    + intros (file & Hfile & Hfound).
      destruct (Py.endswith file ".fzp") eqn:Hext; [|destruct Hfound].
      destruct (read_text E (Py.join root file)) as [content|e] eqn:Hread;
        [|destruct Hfound].
      destruct (Py.str_in _ content) eqn:Hsub; [|destruct Hfound].
      destruct Hfound as [<-|[]]. exists file.
      split; [exact Hfile|]. split; [reflexivity|]. split; [exact Hext|].
      split; [|reflexivity]. exists content. now split.
    + intros (file & Hfile & -> & Hext & (content & Hread & Hsub) & _).
      exists file. split; [exact Hfile|]. rewrite Hext, Hread, Hsub. now left.
Qed.

(** The files discovery opens are the part files of the directories
    of the walk it does not pass over. *)
Lemma opens_visited (svg_file fzp_dir : string) (tree : dir)
      (fzp_path : string) :
  opens svg_file fzp_dir tree fzp_path
  <-> exists root dirs fs file,
        In (root, dirs, fs) (walk fzp_dir tree) /\ In file fs
        /\ fzp_path = Py.join root file
        /\ Py.endswith file ".fzp" = true
        /\ skipped svg_file root = false.
Proof.
  unfold opens. split.
  - intros (names & file & Hholds & -> & Hext & Hobs).
    destruct (proj2 (walk_holds tree fzp_dir (path_of fzp_dir names) file))
      as (dirs & fs & Hin & Hfile).
    { now exists names. }
    exists (path_of fzp_dir names), dirs, fs, file.
    split; [exact Hin|]. split; [exact Hfile|]. split; [reflexivity|].
    split; [exact Hext|]. now apply skipped_false.
  - intros (root & dirs & fs & file & Hin & Hfile & -> & Hext & Hskip).
    destruct (proj1 (walk_holds tree fzp_dir root file))
      as (names & Hholds & ->).
    { now exists dirs, fs. }
    exists names, file.
    split; [exact Hholds|]. split; [reflexivity|]. split; [exact Hext|].
    now apply skipped_false.
Qed.

Lemma found_in_spec (svg_file fzp_dir : string) (tree : dir)
      (fzp_path : string) :
  In fzp_path (flat_map (found_in E svg_file) (walk fzp_dir tree))
  <-> batch_discovery_spec E svg_file fzp_dir tree fzp_path.
Proof.
  rewrite in_flat_map. unfold batch_discovery_spec. split.
  - intros ([[root dirs] fs] & Hin & Hfound).
    apply found_in_inv in Hfound as (file & Hfile & -> & Hext & Hsub & Hskip).
    destruct (proj1 (walk_holds tree fzp_dir root file))
      as (names & Hholds & ->).
    { now exists dirs, fs. }
    exists names, file.
    split; [exact Hholds|]. split; [reflexivity|]. split; [exact Hext|].
    split; [exact Hsub|]. now apply skipped_false.
  - intros (names & file & Hholds & -> & Hext & Hsub & Hobs).
    destruct (proj2 (walk_holds tree fzp_dir (path_of fzp_dir names) file))
      as (dirs & fs & Hin & Hfile).
    { now exists names. }
    exists (path_of fzp_dir names, dirs, fs). split; [exact Hin|].
    apply found_in_inv. exists file.
    split; [exact Hfile|]. split; [reflexivity|]. split; [exact Hext|].
    split; [exact Hsub|]. now apply skipped_false.
Qed.

(** C6, as amended. With [os.walk] reporting the directory tree under
    the root: when every part file discovery opens can be read as text,
    batch discovery returns a list, and the paths in it are exactly
    those of the [.fzp] files under the root whose content contains the
    SVG's base file name, leaving out those in a directory whose path
    has an [obsolete] segment unless the SVG's own path has one.  When
    the read of one of the files it opens raises, discovery returns no
    list: it raises, and what it raises is the exception of such a
    read. *)
Theorem search_finds_exactly (svg_file fzp_dir : string) (tree : dir) :
  os_walk E fzp_dir = walk fzp_dir tree ->
  (all_readable E svg_file fzp_dir tree ->
   exists fzp_files,
     _search_fzp_files_with_svg E svg_file fzp_dir = Ok fzp_files
     /\ forall fzp_path,
          In fzp_path fzp_files
          <-> batch_discovery_spec E svg_file fzp_dir tree fzp_path)
  /\ (forall fzp_path e,
        opens svg_file fzp_dir tree fzp_path ->
        read_text E fzp_path = Raise e ->
        exists e', _search_fzp_files_with_svg E svg_file fzp_dir = Raise e')
  /\ (forall e,
        _search_fzp_files_with_svg E svg_file fzp_dir = Raise e ->
        exists fzp_path,
          opens svg_file fzp_dir tree fzp_path
          /\ read_text E fzp_path = Raise e).
Proof.
  intros Hwalk. unfold _search_fzp_files_with_svg. cbv zeta. rewrite Hwalk.
  pose proof (scan_walk_found svg_file (walk fzp_dir tree) []) as Hscan.
  destruct (scan_walk E _ _ (walk fzp_dir tree) []) as [found|e0].
  - destruct Hscan as [-> Hread]. split; [|split].
    + intros _. eexists. split; [reflexivity|].
      intros fzp_path. cbn [app]. apply found_in_spec.
    + intros fzp_path e Hopens Hraise. exfalso.
      apply opens_visited in Hopens
        as (root & dirs & fs & file & Hin & Hfile & -> & Hext & Hskip).
      destruct (Hread root dirs fs file Hin Hskip Hfile Hext) as (c & Hc).
      congruence.
    + discriminate.
  - destruct Hscan as (root & dirs & fs & file & Hin & Hskip & Hfile & Hext
                       & Hraise).
    assert (Hopens : opens svg_file fzp_dir tree (Py.join root file)).
    { apply opens_visited. now exists root, dirs, fs, file. }
    split; [|split].
    + intros Hall. destruct (Hall _ Hopens) as (c & Hc). congruence.
    + intros _ _ _ _. now exists e0.
    + intros e [= <-]. now exists (Py.join root file).
Qed.

(** * Further properties of batch discovery *)

Lemma endswith_cons (c : ascii) (x s : string) :
  Py.endswith x s = true -> Py.endswith (String c x) s = true.
Proof.
  unfold Py.endswith. cbn [String.length].
  destruct (String.length s <=? String.length x)%nat eqn:Hle; [|discriminate].
  apply Nat.leb_le in Hle. intros Heq.
  replace (String.length s <=? S (String.length x))%nat with true
    by (symmetry; apply Nat.leb_le; lia).
  replace (S (String.length x) - String.length s)%nat
    with (S (String.length x - String.length s)) by lia.
  exact Heq.
Qed.

Lemma endswith_append (a b s : string) :
  Py.endswith b s = true -> Py.endswith (a ^^ b) s = true.
Proof.
  intros Hb. induction a as [|c rest IH]; [exact Hb|].
  cbn [String.append]. now apply endswith_cons.
Qed.

Lemma endswith_join (a b s : string) :
  Py.endswith b s = true -> Py.endswith (Py.join a b) s = true.
Proof.
  intros Hb. unfold Py.join.
  destruct (prefix "/" b); [exact Hb|].
  destruct (String.eqb a ""); [exact Hb|].
  destruct (Py.endswith a "/"); repeat apply endswith_append; exact Hb.
Qed.

(** X11. Whatever [os.walk] reports, every path in the list batch
    discovery returns ends in [.fzp] and names a file whose content
    contains the SVG's base name; a path under a directory with an
    [obsolete] segment is returned only when the SVG's own path has
    such a segment. *)
Theorem found_paths_are_sound (svg_file fzp_dir fzp_path : string)
        (fzp_files : list string) :
  _search_fzp_files_with_svg E svg_file fzp_dir = Ok fzp_files ->
  In fzp_path fzp_files ->
  Py.endswith fzp_path ".fzp" = true
  /\ (exists fzp_content,
         read_text E fzp_path = Ok fzp_content
         /\ Py.str_in (Py.basename svg_file) fzp_content = true)
  /\ exists root dirs files file,
       In (root, dirs, files) (os_walk E fzp_dir) /\ In file files
       /\ fzp_path = Py.join root file
       /\ (In "obsolete" (segments root) -> In "obsolete" (segments svg_file)).
Proof.
  intros Hsearch. apply search_by_directory in Hsearch. subst fzp_files.
  rewrite in_flat_map.
  intros ([[root dirs] files] & Hvisit & Hfound).
  apply found_in_inv in Hfound as (file & Hfile & -> & Hext & Hsub & Hskip).
  split; [now apply endswith_join|]. split; [exact Hsub|].
  exists root, dirs, files, file. repeat split; try assumption.
  now apply skipped_false.
Qed.

(** Below a top whose path has a given segment, every directory's path
    has it too. *)
Lemma walk_keeps_segments (d : dir) (top x : string)
      (visit : string * list string * list string) :
  well_named d -> x <> "" -> In x (segments top) ->
  In visit (walk top d) -> In x (segments (fst (fst visit))).
Proof.
  revert top visit. induction d as [fs ds IH] using dir_induction.
  intros top visit Hnamed Hx Htop Hin. cbn [walk] in Hin.
  destruct Hin as [<-|Hin]; [exact Htop|].
  apply in_flat_map in Hin as ([name sub] & Hentry & Hin). cbn [fst snd] in Hin.
  inversion Hnamed as [? ? Hsubs]; subst.
  destruct (Hsubs name sub Hentry) as [Hplain Hsub].
  apply (IH name sub Hentry (Py.join top name) visit Hsub Hx); [|exact Hin].
  apply segments_join; auto.
Qed.

(** A walk whose directories are all passed over opens no file and
    leaves the list as it is. *)
Lemma scan_walk_skipped (svg_filename : string)
      (visits : list (string * list string * list string))
      (acc : list string) :
  (forall visit, In visit visits ->
                 Py.mem "obsolete" (Py.split Py.sep (fst (fst visit))) = true) ->
  scan_walk E svg_filename false visits acc = Ok acc.
Proof.
  induction visits as [|[[root dirs] files] rest IH]; [reflexivity|].
  intros Hall. cbn [scan_walk].
  pose proof (Hall (root, dirs, files) (or_introl eq_refl)) as Hroot.
  cbn [fst] in Hroot. rewrite Hroot. cbn [negb andb].
  apply IH. intros visit Hin. apply Hall. now right.
Qed.

Lemma scan_walk_app (svg_filename : string) (is_obsolete : bool)
      (visits visits' : list (string * list string * list string))
      (acc : list string) :
  scan_walk E svg_filename is_obsolete (visits ++ visits') acc
  = match scan_walk E svg_filename is_obsolete visits acc with
    | Ok fzp_files => scan_walk E svg_filename is_obsolete visits' fzp_files
    | Raise e => Raise e
    end.
Proof.
  revert acc. induction visits as [|[[root dirs] files] rest IH]; intros acc;
    [reflexivity|].
  cbn [app scan_walk]. destruct (negb is_obsolete && _); [apply IH|].
  destruct (scan_files E svg_filename root files acc); [apply IH|reflexivity].
Qed.

Lemma nothing_opened_below_obsolete (d : dir) (top svg_filename : string)
      (acc : list string) :
  well_named d ->
  In "obsolete" (segments top) ->
  scan_walk E svg_filename false (walk top d) acc = Ok acc.
Proof.
  intros Hnamed Htop. apply scan_walk_skipped. intros visit Hvisit.
  apply mem_In.
  apply (walk_keeps_segments d top "obsolete" visit); auto. discriminate.
Qed.

Lemma scan_below_pruned (d : dir) (top svg_filename : string)
      (acc : list string) :
  well_named d ->
  scan_walk E svg_filename false (walk top d) acc
  = scan_walk E svg_filename false (walk top (prune d)) acc.
Proof.
  revert top acc. induction d as [fs ds IH] using dir_induction.
  intros top acc Hnamed. inversion Hnamed as [? ? Hsubs]; subst.
  assert (Hbelow : forall acc',
             scan_walk E svg_filename false
               (flat_map (fun entry => walk (Py.join top (fst entry))
                                            (snd entry)) ds) acc'
             = scan_walk E svg_filename false
                 (flat_map (fun entry => walk (Py.join top (fst entry))
                                              (snd entry))
                    (flat_map (fun entry =>
                                 if String.eqb (fst entry) "obsolete"
                                 then []
                                 else [(fst entry, prune (snd entry))])
                              ds)) acc').
  { clear Hnamed. induction ds as [|[name sub] rest IHrest]; intros acc';
      [reflexivity|].
    assert (Hrest := IHrest (fun n s Hin => IH n s (or_intror Hin))
                            (fun n s Hin => Hsubs n s (or_intror Hin))).
    destruct (Hsubs name sub (or_introl eq_refl)) as [Hplain Hsub].
    cbn [flat_map fst snd]. rewrite scan_walk_app.
    destruct (String.eqb name "obsolete") eqn:Hname.
    - apply String.eqb_eq in Hname. subst name. cbn [app].
      rewrite nothing_opened_below_obsolete; [apply Hrest|exact Hsub|].
      apply segments_join; [reflexivity|discriminate|now right].
    - cbn [app flat_map fst snd]. rewrite scan_walk_app.
      rewrite (IH name sub (or_introl eq_refl) _ _ Hsub).
      destruct (scan_walk E svg_filename false _ acc');
        [apply Hrest|reflexivity]. }
  cbn [walk prune scan_walk]. destruct (negb false && _); [apply Hbelow|].
  destruct (scan_files E svg_filename top fs acc); [apply Hbelow|reflexivity].
Qed.

(** X12. For an SVG outside any [obsolete] folder, batch discovery on a
    directory tree ends as it does on the tree with every subdirectory
    named [obsolete] cut off, with the same list in the same order:
    what lies below such a folder, at any depth, is never opened and
    never returned. *)
Theorem obsolete_folders_are_cut (svg_file fzp_dir : string) (tree : dir) :
  well_named tree ->
  ~ In "obsolete" (segments svg_file) ->
  _search_fzp_files_with_svg (on_tree E tree) svg_file fzp_dir
  = _search_fzp_files_with_svg (on_tree E (prune tree)) svg_file fzp_dir.
Proof.
  intros Hnamed Hsvg. unfold _search_fzp_files_with_svg.
  cbn [os_walk on_tree].
  replace (Py.mem "obsolete" (Py.split Py.sep svg_file)) with false
    by (symmetry; apply not_true_is_false; intros Hmem;
        now apply mem_In in Hmem).
  exact (scan_below_pruned tree fzp_dir (Py.basename svg_file) [] Hnamed).
Qed.

End Discovery.

(** * The properties at work on the sample part files *)

(** C1, as first stated, fails: the icon view of [core/bare.fzp] has no
    [layers] child, and a run with an SVG check requested prints the
    warning but ends with [total_errors] at 0, not 1. *)
Lemma missing_layers_not_counted :
  xpath_child "layers" (Element "iconView" [] None []) = []
  /\ check Sample.E [] ["font_size"] (start (__init__ "core/bare.fzp" false))
     = (Ok tt,
        World (Runner "core/bare.fzp" false 0)
              ["Warning: No 'layers' element found in view 'iconView' of file 'core/bare.fzp'"]
              [CallParse "core/bare.fzp"]
              None)
  /\ total_errors
       (self (snd (check Sample.E [] ["font_size"]
                         (start (__init__ "core/bare.fzp" false)))))
     <> 0 + 1.
Proof.
  split; [reflexivity|]. split; [reflexivity|]. vm_compute. discriminate.
Qed.

Lemma missing_layers_warns_and_skips_witness :
  tag (Element "iconView" [] None []) <> "defaultUnits"
  /\ xpath_child "layers" (Element "iconView" [] None []) = []
  /\ run_view Sample.E ["font_size"] (Element "iconView" [] None [])
              (start Sample.runner)
     = (Ok tt,
        World Sample.runner
              ["Warning: No 'layers' element found in view 'iconView' of file 'core/part.fzp'"]
              [] None).
Proof.
  assert (Htag : tag (Element "iconView" [] None []) <> "defaultUnits")
    by discriminate.
  assert (Hlayers : xpath_child "layers" (Element "iconView" [] None []) = [])
    by reflexivity.
  split; [exact Htag|]. split; [exact Hlayers|].
  exact (proj1 (missing_layers_warns_and_skips Sample.E ["font_size"]
                  (Element "iconView" [] None []) [] (start Sample.runner)
                  Htag Hlayers)).
Defined.

(** C2 fails on the sample part: its breadboard SVG exists and is not
    well-formed, and it is the first SVG the run loads.  The handler
    counts the error and prints its line, but the [finally] clause then
    reads [svg_doc], which was never bound: [check] ends with an
    [UnboundLocalError] and the PCB view that follows is never looked
    at. *)
Theorem malformed_first_svg_aborts_check :
  Sample.isfile_sample "svg/core/breadboard/part.svg" = true
  /\ Sample.parse_file "svg/core/breadboard/part.svg"
     = Raise (XMLSyntaxError "Premature end of data")
  /\ check Sample.E [] ["ids"] (start Sample.runner)
     = (Raise (UnboundLocalError "svg_doc"),
        World (Runner "core/part.fzp" false 1)
              ["Warning: No 'layers' element found in view 'iconView' of file 'core/part.fzp'";
               "Invalid XML in SVG: Premature end of data"]
              [CallParse "core/part.fzp";
               CallGetSvgPath "core/part.fzp" "breadboard/part.svg" "breadboardView";
               CallIsFile "svg/core/breadboard/part.svg";
               CallParse "svg/core/breadboard/part.svg"]
              None).
Proof. repeat split. Qed.

Lemma check_malformed_fzp_witness :
  etree_parse Sample.E "core/broken.fzp"
  = Raise (XMLSyntaxError "Opening and ending tag mismatch")
  /\ check Sample.E ["missing_tags"; "no_such_check"] ["ids"]
           (start (__init__ "core/broken.fzp" true))
     = (Ok tt,
        World (Runner "core/broken.fzp" true 1)
              ["Invalid XML: Opening and ending tag mismatch"]
              [CallParse "core/broken.fzp"]
              None).
Proof.
  split; [reflexivity|].
  exact (check_malformed_fzp Sample.E ["missing_tags"; "no_such_check"] ["ids"]
           (start (__init__ "core/broken.fzp" true))
           "Opening and ending tag mismatch" eq_refl).
Defined.

(** C4, as first stated, fails: with the unregistered name [bogus]
    requested, [check] returns normally on [core/bare.fzp], whose only
    view has no [layers] element, so that no SVG is loaded and the name
    is never looked up; and it returns normally, with a count of 1, on
    the malformed [core/broken.fzp], where no FZP rule is looked up. *)
Lemma unreached_name_raises_nothing :
  ~ In "bogus" (map (fzp_get_name Sample.E) AVAILABLE_CHECKERS)
  /\ ~ In "bogus" (map (svg_get_name Sample.E) SVG_AVAILABLE_CHECKERS)
  /\ check Sample.E [] ["bogus"] (start (__init__ "core/bare.fzp" false))
     = (Ok tt,
        World (Runner "core/bare.fzp" false 0)
              ["Warning: No 'layers' element found in view 'iconView' of file 'core/bare.fzp'"]
              [CallParse "core/bare.fzp"]
              None)
  /\ check Sample.E ["bogus"] [] (start (__init__ "core/broken.fzp" false))
     = (Ok tt,
        World (Runner "core/broken.fzp" false 1)
              ["Invalid XML: Opening and ending tag mismatch"]
              [CallParse "core/broken.fzp"]
              None).
Proof.
  split; [cbn; intros [H|[H|[H|[H|[]]]]]; discriminate H|].
  split; [cbn; intros [H|[H|[H|[]]]]; discriminate H|].
  split; reflexivity.
Qed.

Lemma unknown_check_name_raises_witness :
  ~ In "bogus" (map (fzp_get_name Bench.repaired) AVAILABLE_CHECKERS)
  /\ ~ In "bogus" (map (svg_get_name Bench.repaired) SVG_AVAILABLE_CHECKERS)
  /\ _get_checker Bench.repaired "bogus" (Document Sample.part_root)
                  (start Sample.runner)
     = (Raise (ValueError "Invalid check type: bogus"), start Sample.runner)
  /\ _get_svg_checker Bench.repaired "bogus" Sample.pcb_svg ["breadboard"]
                      (start Sample.runner)
     = (Raise (ValueError "Invalid SVG check type: bogus"), start Sample.runner)
  /\ check Bench.repaired
           ["missing_tags"; "connector_terminal"; "bogus"; "missing_tags"]
           ["ids"; "bogus"; "viewbox"] (start Sample.runner)
     = (Raise (ValueError "Invalid check type: bogus"),
        World (Runner "core/part.fzp" false 1)
              ["Invisible connector 'connector0pin'"]
              [CallParse "core/part.fzp"; CallCheck "missing_tags";
               CallCheck "connector_terminal"]
              None)
  /\ check_svg Bench.repaired "svg/core/breadboard/part.svg" "breadboardView"
               ["breadboard"] ["ids"; "bogus"; "viewbox"] (start Sample.runner)
     = (Raise (ValueError "Invalid SVG check type: bogus"),
        World (Runner "core/part.fzp" false 2)
              ["Duplicate id 'copper0'"]
              [CallParse "svg/core/breadboard/part.svg"; CallCheck "ids"]
              (Some (clear_root Sample.pcb_svg)))
  /\ run_view Bench.repaired ["ids"; "bogus"; "viewbox"] Bench.breadboard_view
              (start Sample.runner)
     = (Raise (ValueError "Invalid SVG check type: bogus"),
        World (Runner "core/part.fzp" false 2)
              ["Duplicate id 'copper0'"]
              [CallGetSvgPath "core/part.fzp" "breadboard/part.svg"
                              "breadboardView";
               CallIsFile "svg/core/breadboard/part.svg";
               CallParse "svg/core/breadboard/part.svg"; CallCheck "ids"]
              (Some (clear_root Sample.pcb_svg)))
  /\ check Bench.repaired ["missing_tags"] ["ids"; "bogus"; "viewbox"]
           (start Sample.runner)
     = (Raise (ValueError "Invalid SVG check type: bogus"),
        World (Runner "core/part.fzp" false 2)
              ["Warning: No 'layers' element found in view 'iconView' of file 'core/part.fzp'";
               "Duplicate id 'copper0'"]
              [CallParse "core/part.fzp"; CallCheck "missing_tags";
               CallGetSvgPath "core/part.fzp" "breadboard/part.svg"
                              "breadboardView";
               CallIsFile "svg/core/breadboard/part.svg";
               CallParse "svg/core/breadboard/part.svg"; CallCheck "ids"]
              (Some (clear_root Sample.pcb_svg)))
  /\ check Sample.E
           ["missing_tags"; "connector_terminal"; "bogus"; "missing_tags"]
           ["ids"; "bogus"; "viewbox"]
           (start (__init__ "core/broken.fzp" false))
     = (Ok tt,
        World (Runner "core/broken.fzp" false 1)
              ["Invalid XML: Opening and ending tag mismatch"]
              [CallParse "core/broken.fzp"]
              None)
  /\ check Sample.E ["missing_tags"] ["ids"; "bogus"; "viewbox"]
           (start (__init__ "core/bare.fzp" false))
     = check Sample.E ["missing_tags"] ["ids"]
             (start (__init__ "core/bare.fzp" false)).
Proof.
  assert (Hfzp : ~ In "bogus"
                     (map (fzp_get_name Bench.repaired) AVAILABLE_CHECKERS)).
  { cbn. intros [H|[H|[H|[H|[]]]]]; discriminate H. }
  assert (Hsvg : ~ In "bogus"
                     (map (svg_get_name Bench.repaired) SVG_AVAILABLE_CHECKERS)).
  { cbn. intros [H|[H|[H|[]]]]; discriminate H. }
  assert (Hbefore :
            Forall (fun name =>
                      passes (fzp_outcome Bench.repaired "core/part.fzp"
                                          (Document Sample.part_root) name))
                   ["missing_tags"; "connector_terminal"]).
  { repeat constructor.
    - exists 0, (Outcome [] (Ok 0)). now split.
    - exists 1, (Outcome ["Invisible connector 'connector0pin'"] (Ok 1)).
      now split. }
  assert (Hchecks :
            Forall (fun name =>
                      passes (fzp_outcome Bench.repaired "core/part.fzp"
                                          (Document Sample.part_root) name))
                   ["missing_tags"]).
  { repeat constructor. exists 0, (Outcome [] (Ok 0)). now split. }
  assert (Hsvg_before :
            Forall (fun name =>
                      passes (svg_outcome Bench.repaired Sample.pcb_svg
                                          ["breadboard"] name))
                   ["ids"]).
  { repeat constructor.
    exists 2, (Outcome ["Duplicate id 'copper0'"] (Ok 2)). now split. }
  assert (Hearlier :
            Forall (fun view =>
                      asset_of Bench.repaired "core/part.fzp" view = None)
                   [Element "defaultUnits" [] None [];
                    Element "iconView" [] None []]).
  { repeat constructor. }
  assert (Hbare :
            Forall (fun view =>
                      asset_of Sample.E "core/bare.fzp" view = None)
                   (declared_views (Document Sample.bare_root))).
  { repeat constructor. }
  assert (Hne : ["ids"] <> []) by discriminate.
  pose proof (unknown_check_name_raises Bench.repaired "bogus" "bogus"
                (Document Sample.part_root) Sample.pcb_svg
                ["missing_tags"; "connector_terminal"] ["missing_tags"]
                ["ids"] ["viewbox"] ["missing_tags"] ["breadboard"]
                "breadboard/part.svg" "svg/core/breadboard/part.svg"
                "breadboardView" "" Bench.breadboard_view
                [Element "defaultUnits" [] None [];
                 Element "iconView" [] None []]
                [Element "pcbView" [] None
                   [Element "layers" [("image", "pcb/part.svg")] None
                      [Sample.layer "copper0"; Sample.layer "copper1";
                       Element "layer" [] None []]]]
                (start Sample.runner) Hfzp Hsvg)
    as (Hget & Hget_svg & Hcheck & Hcheck_svg & Hview & Hrun & _ & _).
  pose proof (unknown_check_name_raises Sample.E "bogus" "bogus"
                (Document Sample.part_root) Sample.pcb_svg
                ["missing_tags"; "connector_terminal"] ["missing_tags"]
                ["ids"] ["viewbox"] ["missing_tags"] []
                "" "" "" "Opening and ending tag mismatch"
                Bench.breadboard_view [] []
                (start (__init__ "core/broken.fzp" false)) Hfzp Hsvg)
    as (_ & _ & _ & _ & _ & _ & Hbroken & _).
  pose proof (unknown_check_name_raises Sample.E "bogus" "bogus"
                (Document Sample.bare_root) Sample.pcb_svg
                [] [] ["ids"] ["viewbox"] ["missing_tags"] []
                "" "" "" "" Bench.breadboard_view [] []
                (start (__init__ "core/bare.fzp" false)) Hfzp Hsvg)
    as (_ & _ & _ & _ & _ & _ & _ & Hquiet).
  split; [exact Hfzp|]. split; [exact Hsvg|].
  split; [exact Hget|]. split; [exact Hget_svg|].
  split; [exact (Hcheck eq_refl Hbefore)|].
  split; [exact (Hcheck_svg eq_refl Hsvg_before)|].
  split; [exact (Hview eq_refl eq_refl Hsvg_before)|].
  split; [exact (proj2 (Hrun eq_refl Hchecks eq_refl Hearlier eq_refl eq_refl
                             Hsvg_before))|].
  split; [exact (Hbroken eq_refl)|].
  exact (Hquiet eq_refl Hbare ["ids"] Hne).
Defined.

(** C6, as first stated, fails: [parts/core/led.fzp] is a part file
    under the root whose content names the SVG, yet discovery returns
    no list at all, because [parts/core/motor.fzp], which it opens
    next, cannot be read as text. *)
Lemma unreadable_part_stops_search :
  os_walk Bench.latin1 "parts" = FileTree.walk "parts" Bench.parts_latin1
  /\ FileTree.batch_discovery_spec Bench.latin1 "svg/core/breadboard/led.svg"
       "parts" Bench.parts_latin1 "parts/core/led.fzp"
  /\ _search_fzp_files_with_svg Bench.latin1 "svg/core/breadboard/led.svg"
                                "parts"
     = Raise (ValueError "'utf-8' codec can't decode byte 0xe9 in position 118: invalid continuation byte")
  /\ ~ (exists fzp_files,
          _search_fzp_files_with_svg Bench.latin1
                                     "svg/core/breadboard/led.svg" "parts"
          = Ok fzp_files).
Proof.
  split; [reflexivity|]. split.
  { exists ["core"], "led.fzp".
    split.
    { eapply FileTree.holds_below; [now left|].
      apply FileTree.holds_here. now left. }
    split; [reflexivity|]. split; [reflexivity|]. split.
    - eexists. split; reflexivity.
    - vm_compute. intros [H|[H|[]]]; discriminate H. }
  split; [reflexivity|].
  intros (fzp_files & H). discriminate H.
Qed.

Lemma search_finds_exactly_witness :
  os_walk FileTree.parts_host "parts" = FileTree.walk "parts" FileTree.parts
  /\ (exists fzp_files,
        _search_fzp_files_with_svg FileTree.parts_host
                                   "svg/core/breadboard/led.svg" "parts"
        = Ok fzp_files
        /\ forall fzp_path,
             In fzp_path fzp_files
             <-> FileTree.batch_discovery_spec FileTree.parts_host
                   "svg/core/breadboard/led.svg" "parts" FileTree.parts
                   fzp_path)
  /\ os_walk Bench.latin1 "parts" = FileTree.walk "parts" Bench.parts_latin1
  /\ FileTree.opens "svg/core/breadboard/led.svg" "parts" Bench.parts_latin1
                    "parts/core/motor.fzp"
  /\ exists e,
       _search_fzp_files_with_svg Bench.latin1 "svg/core/breadboard/led.svg"
                                  "parts"
       = Raise e.
Proof.
  split; [reflexivity|]. split.
  { apply (search_finds_exactly FileTree.parts_host
             "svg/core/breadboard/led.svg" "parts" FileTree.parts eq_refl).
    intros fzp_path _. cbn [read_text FileTree.parts_host].
    destruct (Py.str_in "led" fzp_path); eexists; reflexivity. }
  split; [reflexivity|].
  assert (Hopens : FileTree.opens "svg/core/breadboard/led.svg" "parts"
                                  Bench.parts_latin1 "parts/core/motor.fzp").
  { exists ["core"], "motor.fzp". split.
    { eapply FileTree.holds_below; [now left|].
      apply FileTree.holds_here. right. now left. }
    split; [reflexivity|]. split; [reflexivity|].
    vm_compute. intros [H|[H|[]]]; discriminate H. }
  split; [exact Hopens|].
  exact (proj1 (proj2 (search_finds_exactly Bench.latin1
                         "svg/core/breadboard/led.svg" "parts"
                         Bench.parts_latin1 eq_refl))
               "parts/core/motor.fzp" _ Hopens eq_refl).
Defined.

Lemma check_clean_fzp_witness :
  etree_parse Sample.E "core/part.fzp" = Ok (Document Sample.part_root)
  /\ Forall (fun name =>
               returns (fzp_outcome Sample.E "core/part.fzp"
                                    (Document Sample.part_root) name) 0)
            ["missing_tags"]
  /\ check Sample.E ["missing_tags"] [] (start (__init__ "core/part.fzp" true))
     = (Ok tt,
        World (Runner "core/part.fzp" true 0)
              ["Scanning file: core/part.fzp"; "Running check: missing_tags";
               "Total errors in core/part.fzp: 0"]
              [CallParse "core/part.fzp"; CallCheck "missing_tags"]
              None).
Proof.
  assert (Hall : Forall (fun name =>
                           returns (fzp_outcome Sample.E "core/part.fzp"
                                                (Document Sample.part_root) name) 0)
                        ["missing_tags"]).
  { repeat constructor. exists (Outcome [] (Ok 0)). now split. }
  split; [reflexivity|]. split; [exact Hall|].
  exact (proj1 (check_clean_fzp Sample.E ["missing_tags"]
                  (Document Sample.part_root)
                  (start (__init__ "core/part.fzp" true)) eq_refl Hall)).
Defined.

Lemma check_without_views_witness :
  etree_parse Sample.E "core/flat.fzp" = Ok (Document Sample.flat_root)
  /\ xpath_anywhere "views" Sample.flat_root = []
  /\ ["ids"] <> []
  /\ check Sample.E ["missing_tags"; "connector_terminal"] ["ids"]
           (start (__init__ "core/flat.fzp" true))
     = (Raise (IndexError "list index out of range"),
        World (Runner "core/flat.fzp" true 1)
              ["Scanning file: core/flat.fzp"; "Running check: missing_tags";
               "Running check: connector_terminal";
               "Invisible connector 'connector0pin'"]
              [CallParse "core/flat.fzp"; CallCheck "missing_tags";
               CallCheck "connector_terminal"]
              None).
Proof.
  assert (Hsvg : ["ids"] <> @nil string) by discriminate.
  assert (Hpass :
            Forall (fun name =>
                      passes (fzp_outcome Sample.E "core/flat.fzp"
                                          (Document Sample.flat_root) name))
                   ["missing_tags"; "connector_terminal"]).
  { repeat constructor.
    - exists 0, (Outcome [] (Ok 0)). now split.
    - exists 1, (Outcome ["Invisible connector 'connector0pin'"] (Ok 1)).
      now split. }
  split; [reflexivity|]. split; [reflexivity|]. split; [exact Hsvg|].
  exact (check_without_views Sample.E ["missing_tags"; "connector_terminal"]
           ["ids"] (Document Sample.flat_root)
           (start (__init__ "core/flat.fzp" true)) eq_refl eq_refl Hsvg Hpass).
Defined.

(** * The further properties at work *)

Lemma missing_svg_counts_one_witness :
  tag Bench.pcb_view <> "defaultUnits"
  /\ xpath_child "layers" Bench.pcb_view = [Bench.pcb_layers]
  /\ get Bench.pcb_layers "image" = Some "pcb/part.svg"
  /\ "pcb/part.svg" <> ""
  /\ get_svg_path Bench.no_assets "core/part.fzp" "pcb/part.svg" "pcbView"
     = Some "svg/core/pcb/part.svg"
  /\ isfile Bench.no_assets "svg/core/pcb/part.svg" = false
  /\ run_view Bench.no_assets ["ids"] Bench.pcb_view (start Sample.runner)
     = (Ok tt,
        World (Runner "core/part.fzp" false 1)
              ["Warning: SVG 'svg/core/pcb/part.svg' for view 'pcbView' of file 'core/part.fzp' not found."]
              [CallGetSvgPath "core/part.fzp" "pcb/part.svg" "pcbView";
               CallIsFile "svg/core/pcb/part.svg"]
              None).
Proof.
  assert (Htag : tag Bench.pcb_view <> "defaultUnits") by discriminate.
  assert (Hne : "pcb/part.svg" <> "") by discriminate.
  repeat (split; [first [exact Htag | exact Hne | reflexivity]|]).
  exact (proj1 (missing_svg_counts_one Bench.no_assets ["ids"] Bench.pcb_view
                  Bench.pcb_layers [] [] "pcb/part.svg" "svg/core/pcb/part.svg"
                  (start Sample.runner) Htag eq_refl eq_refl Hne eq_refl eq_refl)).
Defined.

Lemma view_without_asset_is_silent_witness :
  tag Bench.pcb_view <> "defaultUnits"
  /\ xpath_child "layers" Bench.pcb_view = [Bench.pcb_layers]
  /\ get_svg_path Bench.templates "core/part.fzp" "pcb/part.svg" "pcbView" = None
  /\ run_view Bench.templates ["ids"] Bench.pcb_view (start Sample.runner)
     = (Ok tt,
        World Sample.runner []
              [CallGetSvgPath "core/part.fzp" "pcb/part.svg" "pcbView"] None).
Proof.
  assert (Htag : tag Bench.pcb_view <> "defaultUnits") by discriminate.
  assert (Hne : "pcb/part.svg" <> "") by discriminate.
  repeat (split; [first [exact Htag | reflexivity]|]).
  exact (proj2 (view_without_asset_is_silent Bench.templates ["ids"]
                  Bench.pcb_view Bench.pcb_layers [] (start Sample.runner)
                  Htag eq_refl)
               "pcb/part.svg" eq_refl Hne eq_refl).
Defined.

Lemma loaded_svg_rules_add_up_witness :
  tag Bench.pcb_view <> "defaultUnits"
  /\ xpath_child "layers" Bench.pcb_view = [Bench.pcb_layers]
  /\ isfile Sample.E "svg/core/pcb/part.svg" = true
  /\ etree_parse Sample.E "svg/core/pcb/part.svg" = Ok Sample.pcb_svg
  /\ collect_layer_ids (xpath_child "layer" Bench.pcb_layers)
     = ["copper0"; "copper1"]
  /\ run_view Sample.E ["font_size"; "ids"] Bench.pcb_view
              (start (__init__ "core/part.fzp" true))
     = (Ok tt,
        World (Runner "core/part.fzp" true 2)
              ["Running SVG check: font_size on svg/core/pcb/part.svg for pcbView";
               "Running SVG check: ids on svg/core/pcb/part.svg for pcbView";
               "Duplicate id 'copper0'"]
              [CallGetSvgPath "core/part.fzp" "pcb/part.svg" "pcbView";
               CallIsFile "svg/core/pcb/part.svg";
               CallParse "svg/core/pcb/part.svg";
               CallCheck "font_size"; CallCheck "ids"]
              (Some (clear_root Sample.pcb_svg))).
Proof.
  assert (Htag : tag Bench.pcb_view <> "defaultUnits") by discriminate.
  assert (Hne : "pcb/part.svg" <> "") by discriminate.
  assert (Hpass :
            Forall (fun name =>
                      passes (svg_outcome Sample.E Sample.pcb_svg
                                          ["copper0"; "copper1"] name))
                   ["font_size"; "ids"]).
  { repeat constructor.
    - exists 0, (Outcome [] (Ok 0)). now split.
    - exists 2, (Outcome ["Duplicate id 'copper0'"] (Ok 2)). now split. }
  repeat (split; [first [exact Htag | reflexivity]|]).
  exact (loaded_svg_rules_add_up Sample.E ["font_size"; "ids"] Bench.pcb_view
           Bench.pcb_layers [] "pcb/part.svg" "svg/core/pcb/part.svg"
           Sample.pcb_svg (start (__init__ "core/part.fzp" true))
           Htag eq_refl eq_refl Hne eq_refl eq_refl eq_refl Hpass).
Defined.

Lemma svg_rule_failure_witness :
  etree_parse Bench.failing "svg/core/pcb/part.svg" = Ok Sample.pcb_svg
  /\ svg_outcome Bench.failing Sample.pcb_svg ["copper0"] "viewbox"
     = Some (Outcome ["Checking viewBox"] (Raise (XMLSyntaxError "Bad viewBox")))
  /\ check_svg Bench.failing "svg/core/pcb/part.svg" "pcbView" ["copper0"]
               ["font_size"; "viewbox"; "font_size"] (start Sample.runner)
     = (Ok tt,
        World (Runner "core/part.fzp" false 2)
              ["Font size 12px"; "Checking viewBox";
               "Invalid XML in SVG: Bad viewBox"]
              [CallParse "svg/core/pcb/part.svg"; CallCheck "font_size";
               CallCheck "viewbox"]
              (Some (clear_root Sample.pcb_svg)))
  /\ check_svg Bench.failing "svg/core/pcb/part.svg" "pcbView" ["copper0"]
               ["font_size"; "ids"; "font_size"] (start Sample.runner)
     = (Raise (OtherError "KeyError: 'id'"),
        World (Runner "core/part.fzp" false 1)
              ["Font size 12px"]
              [CallParse "svg/core/pcb/part.svg"; CallCheck "font_size";
               CallCheck "ids"]
              (Some (clear_root Sample.pcb_svg))).
Proof.
  assert (Hpass :
            Forall (fun name =>
                      passes (svg_outcome Bench.failing Sample.pcb_svg
                                          ["copper0"] name))
                   ["font_size"]).
  { repeat constructor. exists 1, (Outcome ["Font size 12px"] (Ok 1)).
    now split. }
  split; [reflexivity|]. split; [reflexivity|]. split.
  - exact (svg_rule_failure Bench.failing "svg/core/pcb/part.svg" "pcbView"
             Sample.pcb_svg ["copper0"] ["font_size"] ["font_size"] "viewbox"
             (Outcome ["Checking viewBox"] (Raise (XMLSyntaxError "Bad viewBox")))
             (XMLSyntaxError "Bad viewBox") (start Sample.runner)
             eq_refl Hpass eq_refl eq_refl).
  - exact (svg_rule_failure Bench.failing "svg/core/pcb/part.svg" "pcbView"
             Sample.pcb_svg ["copper0"] ["font_size"] ["font_size"] "ids"
             (Outcome [] (Raise (OtherError "KeyError: 'id'")))
             (OtherError "KeyError: 'id'") (start Sample.runner)
             eq_refl Hpass eq_refl eq_refl).
Defined.

Lemma fzp_rule_failure_leaves_check_witness :
  etree_parse Bench.failing "core/part.fzp" = Ok (Document Sample.part_root)
  /\ fzp_outcome Bench.failing "core/part.fzp" (Document Sample.part_root)
                 "connector_terminal"
     = Some (Outcome [] (Raise (XMLSyntaxError "Premature end of data")))
  /\ check Bench.failing
           ["missing_tags"; "connector_terminal"; "connector_visibility"]
           ["font_size"] (start (__init__ "core/part.fzp" true))
     = (Raise (XMLSyntaxError "Premature end of data"),
        World (Runner "core/part.fzp" true 1)
              ["Scanning file: core/part.fzp"; "Running check: missing_tags";
               "Missing required tag 'title'";
               "Running check: connector_terminal"]
              [CallParse "core/part.fzp"; CallCheck "missing_tags";
               CallCheck "connector_terminal"]
              None).
Proof.
  assert (Hpass :
            Forall (fun name =>
                      passes (fzp_outcome Bench.failing "core/part.fzp"
                                          (Document Sample.part_root) name))
                   ["missing_tags"]).
  { repeat constructor.
    exists 1, (Outcome ["Missing required tag 'title'"] (Ok 1)). now split. }
  split; [reflexivity|]. split; [reflexivity|].
  exact (fzp_rule_failure_leaves_check Bench.failing ["missing_tags"]
           ["connector_visibility"] ["font_size"] "connector_terminal"
           (Document Sample.part_root)
           (Outcome [] (Raise (XMLSyntaxError "Premature end of data")))
           (XMLSyntaxError "Premature end of data")
           (start (__init__ "core/part.fzp" true))
           eq_refl Hpass eq_refl eq_refl).
Defined.

Lemma check_reports_final_total_witness :
  etree_parse Sample.E "core/part.fzp" = Ok (Document Sample.part_root)
  /\ fst (check Sample.E ["connector_terminal"] [] (start Sample.runner)) = Ok tt
  /\ last (stdout (snd (check Sample.E ["connector_terminal"] []
                              (start Sample.runner)))) ""
     = "Total errors in core/part.fzp: 1".
Proof.
  split; [reflexivity|]. split; [reflexivity|].
  exact (check_reports_final_total Sample.E ["connector_terminal"] []
           (Document Sample.part_root) (start Sample.runner)
           eq_refl eq_refl eq_refl).
Defined.

Lemma total_errors_never_negative_witness :
  counts_from_zero Sample.E
  /\ 0 <= total_errors
            (self (snd (check Sample.E ["connector_terminal"] ["ids"]
                              (start Sample.runner)))).
Proof.
  assert (Hpos : counts_from_zero Sample.E).
  { split.
    - intros c doc p n. destruct c; cbn; intros [= <-]; discriminate.
    - intros c svg ids n. destruct c; cbn; intros [= <-]; discriminate. }
  split; [exact Hpos|].
  exact (proj1 (total_errors_never_negative Sample.E ["connector_terminal"]
                  ["ids"] "" "" (start Sample.runner) Hpos)).
Defined.

Lemma registered_name_builds_its_class_witness :
  NoDup (map (fzp_get_name Sample.E) AVAILABLE_CHECKERS)
  /\ NoDup (map (svg_get_name Sample.E) SVG_AVAILABLE_CHECKERS)
  /\ _get_checker Sample.E "connector_visibility" (Document Sample.part_root)
                  (start Sample.runner)
     = (Ok (FzpInstance FZPConnectorVisibilityChecker (Document Sample.part_root)
                        (Some "core/part.fzp")),
        start Sample.runner)
  /\ _get_svg_checker Sample.E "viewbox" Sample.pcb_svg ["copper0"]
                      (start Sample.runner)
     = (Ok (SvgInstance SVGViewBoxChecker Sample.pcb_svg ["copper0"]),
        start Sample.runner).
Proof.
  assert (Hfzp : NoDup (map (fzp_get_name Sample.E) AVAILABLE_CHECKERS)).
  { cbn. repeat constructor; cbn; intuition discriminate. }
  assert (Hsvg : NoDup (map (svg_get_name Sample.E) SVG_AVAILABLE_CHECKERS)).
  { cbn. repeat constructor; cbn; intuition discriminate. }
  split; [exact Hfzp|]. split; [exact Hsvg|].
  exact (registered_name_builds_its_class Sample.E FZPConnectorVisibilityChecker
           SVGViewBoxChecker (Document Sample.part_root) Sample.pcb_svg
           ["copper0"] (start Sample.runner) Hfzp Hsvg).
Defined.

Lemma batch_leaves_runner_on_last_file_witness :
  _search_fzp_files_with_svg Bench.library "svg/obsolete/breadboard/led.svg"
                             "parts"
  = Ok ["parts/core/led.fzp"; "parts/obsolete/led_old.fzp";
        "parts/obsolete/archive/led_older.fzp"]
  /\ fst (search_and_check_fzp_files Bench.library
            "svg/obsolete/breadboard/led.svg" "parts"
            ["connector_terminal"] ["ids"] (start Sample.runner))
     = Ok 3
  /\ path (self (snd (search_and_check_fzp_files Bench.library
                        "svg/obsolete/breadboard/led.svg" "parts"
                        ["connector_terminal"] ["ids"] (start Sample.runner))))
     = "parts/obsolete/archive/led_older.fzp"
  /\ verbose (self (snd (search_and_check_fzp_files Bench.library
                           "svg/obsolete/breadboard/led.svg" "parts"
                           ["connector_terminal"] ["ids"] (start Sample.runner))))
     = false
  /\ total_errors (self (snd (search_and_check_fzp_files Bench.library
                                "svg/obsolete/breadboard/led.svg" "parts"
                                ["connector_terminal"] ["ids"]
                                (start Sample.runner))))
     = 1.
Proof.
  split; [reflexivity|]. split; [reflexivity|].
  assert (Hne : ["parts/core/led.fzp"; "parts/obsolete/led_old.fzp";
                 "parts/obsolete/archive/led_older.fzp"] <> [])
    by discriminate.
  exact (proj1 (proj2 (batch_leaves_runner_on_last_file Bench.library
                         "svg/obsolete/breadboard/led.svg" "parts"
                         ["connector_terminal"] ["ids"] 3
                         (start Sample.runner)))
               _ eq_refl Hne eq_refl).
Defined.

(** * Properties of the command line *)

Section ScriptFacts.

Import Cli.

Variables (S : shell) (E : host).

Ltac script_step :=
  cbv beta iota delta
      [bind ret raise when get_self add_errors set_total_errors set_path
       print log try_except lift new_runner];
  cbn [self stdout calls svg_doc path verbose total_errors fst snd].

Lemma registered_name_is_found (registry : list fzp_checker) (name : string) :
  In name (map (fzp_get_name E) registry) ->
  exists c, find_checker E registry name = Some c.
Proof.
  induction registry as [|c rest IH]; [contradiction|]. cbn [map In find_checker].
  destruct (String.eqb (fzp_get_name E c) name) eqn:Heq; [now exists c|].
  intros [Hhere|Hin]; [|exact (IH Hin)].
  apply String.eqb_neq in Heq. contradiction.
Qed.

Lemma registered_svg_name_is_found (registry : list svg_checker) (name : string) :
  In name (map (svg_get_name E) registry) ->
  exists c, find_svg_checker E registry name = Some c.
Proof.
  induction registry as [|c rest IH]; [contradiction|].
  cbn [map In find_svg_checker].
  destruct (String.eqb (svg_get_name E c) name) eqn:Heq; [now exists c|].
  intros [Hhere|Hin]; [|exact (IH Hin)].
  apply String.eqb_neq in Heq. contradiction.
Qed.

(** Whatever was asked for, the names kept are names of registered
    rules. *)
Lemma selected_are_registered (checks : list string) (name : string) :
  (In name (fst (select_checks E checks)) ->
   In name (map (fzp_get_name E) AVAILABLE_CHECKERS))
  /\ (In name (snd (select_checks E checks)) ->
      In name (map (svg_get_name E) SVG_AVAILABLE_CHECKERS)).
Proof.
  unfold select_checks. cbn [fst snd]. split; intros Hin;
    apply filter_In in Hin as [_ Hmem]; now apply mem_In.
Qed.

(** X13. The names the script hands to the runner always resolve:
    whatever [--checks] holds, looking up a selected FZP name or a
    selected SVG name builds a rule of that name and raises nothing, so
    a run started from the command line never ends on an invalid check
    type.  In particular [all] is never passed on as a name unless a
    rule is called so. *)
Theorem selected_names_resolve (checks : list string) (name : string)
        (doc svg : document) (layer_ids : list string) (w : world) :
  (In name (fst (select_checks E checks)) ->
   exists c,
     _get_checker E name doc w
     = (Ok (FzpInstance c doc (fzp_args (path (self w)) c)), w)
     /\ fzp_get_name E c = name)
  /\ (In name (snd (select_checks E checks)) ->
      exists c,
        _get_svg_checker E name svg layer_ids w
        = (Ok (SvgInstance c svg layer_ids), w)
        /\ svg_get_name E c = name).
Proof.
  split; intros Hin.
  - apply selected_are_registered, registered_name_is_found in Hin as [c Hc].
    exists c. split; [|exact (find_checker_name E _ _ _ Hc)].
    unfold _get_checker, bind, get_self, fzp_args. rewrite Hc.
    now destruct (path_aware c).
  - apply selected_are_registered, registered_svg_name_is_found in Hin as [c Hc].
    exists c. split; [|exact (find_svg_checker_name E _ _ _ Hc)].
    unfold _get_svg_checker. now rewrite Hc.
Qed.

Lemma filter_keeps_all {A} (f : A -> bool) (xs : list A) :
  (forall x, In x xs -> f x = true) -> filter f xs = xs.
Proof.
  induction xs as [|x rest IH]; [reflexivity|]. intros Hall. cbn.
  rewrite (Hall x) by now left. f_equal. apply IH. intros y Hy. apply Hall.
  now right.
Qed.

Lemma filter_drops_all {A} (f : A -> bool) (xs : list A) :
  (forall x, In x xs -> f x = false) -> filter f xs = [].
Proof.
  induction xs as [|x rest IH]; [reflexivity|]. intros Hall. cbn.
  rewrite (Hall x) by now left. apply IH. intros y Hy. apply Hall. now right.
Qed.

Lemma mem_false (x : string) (xs : list string) :
  ~ In x xs -> Py.mem x xs = false.
Proof.
  intros Hnot. apply not_true_is_false. intros Hmem. now apply mem_In in Hmem.
Qed.

(** X14. When no FZP rule shares its name with an SVG rule, the default
    [--checks all] selects every registered FZP rule and every
    registered SVG rule, each once and in registry order. *)
Theorem all_selects_every_rule :
  (forall name, In name (map (fzp_get_name E) AVAILABLE_CHECKERS) ->
                ~ In name (map (svg_get_name E) SVG_AVAILABLE_CHECKERS)) ->
  select_checks E ["all"]
  = (map (fzp_get_name E) AVAILABLE_CHECKERS,
     map (svg_get_name E) SVG_AVAILABLE_CHECKERS).
Proof.
  intros Hdisjoint. unfold select_checks.
  destruct (list_eq_dec string_dec ["all"] ["all"]) as [_|Hne];
    [|now destruct Hne].
  rewrite !filter_app. f_equal.
  - rewrite filter_keeps_all by (intros x Hx; now apply mem_In).
    rewrite filter_drops_all; [apply app_nil_r|].
    intros x Hx. apply mem_false. intros Hfzp. exact (Hdisjoint x Hfzp Hx).
  - rewrite filter_drops_all
      by (intros x Hx; apply mem_false; now apply Hdisjoint).
    rewrite filter_keeps_all by (intros x Hx; now apply mem_In).
    reflexivity.
Qed.

(** X15. When [--checks] is not exactly [all] and names no registered
    rule (an empty list, or [all] given twice), the script prints
    [No valid check types specified.] and the help text and exits with
    status -1; no runner is created and nothing is checked. *)
Theorem no_valid_checks_exits (a : args) (w : world) :
  arg_help a = false ->
  arg_checks a <> ["all"] ->
  Forall (fun name =>
            ~ In name (map (fzp_get_name E) AVAILABLE_CHECKERS)
            /\ ~ In name (map (svg_get_name E) SVG_AVAILABLE_CHECKERS))
         (arg_checks a) ->
  main S E a w
  = (Ok (Exited (Some (-1))),
     World (self w)
           (stdout w ++ ["No valid check types specified."; help_text S])
           (calls w) (svg_doc w)).
Proof.
  intros Hhelp Hall Hnone. unfold main. rewrite Hhelp.
  assert (Hsel : select_checks E (arg_checks a) = ([], [])).
  { unfold select_checks.
    destruct (list_eq_dec string_dec (arg_checks a) ["all"]); [contradiction|].
    rewrite Forall_forall in Hnone.
    f_equal; apply filter_drops_all; intros x Hx; apply mem_false;
      now apply Hnone. }
  rewrite Hsel. script_step. now rewrite <- app_assoc.
Qed.

(** ** Gathering the part files *)

(** Gathering reads the disk but leaves the state alone, and what it
    finds does not depend on the state. *)
Lemma gather_listed_fixed (a : args) (file_list fzp_files : list string)
      (w w' : world) :
  gather_listed E a file_list fzp_files w
  = (fst (gather_listed E a file_list fzp_files w'), w).
Proof.
  revert fzp_files. induction file_list as [|filepath rest IH];
    intros fzp_files; [reflexivity|].
  cbn [gather_listed]. destruct (Py.endswith filepath ".fzp"); [apply IH|].
  destruct (Py.endswith filepath ".svg"); [|apply IH].
  unfold bind, lift.
  destruct (_search_fzp_files_with_svg E filepath (arg_path a));
    [apply IH|reflexivity].
Qed.

Lemma gather_fixed (a : args) (w w' : world) :
  gather S E a w = (fst (gather S E a w'), w).
Proof.
  unfold gather, file_entries.
  destruct (given (arg_file a)) as [file|].
  - destruct (Py.endswith file ".json").
    + unfold bind, lift, ret.
      destruct (json_load S file); [apply gather_listed_fixed|reflexivity].
    + unfold bind, lift, ret.
      destruct (read_lines S file); [apply gather_listed_fixed|reflexivity].
  - destruct (given (arg_svg a)), (isdir S (arg_path a)),
      (isfile E (arg_path a)); try reflexivity;
      unfold bind, lift, ret;
      now destruct (_search_fzp_files_with_svg E _ (arg_path a)).
Qed.

Lemma set_add_In (x y : string) (s : list string) :
  In y (set_add x s) <-> y = x \/ In y s.
Proof.
  unfold set_add. destruct (Py.mem x s) eqn:Hmem.
  - apply mem_In in Hmem. split; [now right|]. now intros [->|H].
  - rewrite in_app_iff. cbn. intuition congruence.
Qed.

Lemma set_update_In (xs s : list string) (y : string) :
  In y (set_update xs s) <-> In y xs \/ In y s.
Proof.
  unfold set_update. revert s. induction xs as [|x rest IH]; intros s; cbn.
  - tauto.
  - rewrite IH, set_add_In. intuition congruence.
Qed.

(** ** How the script ends *)

(** The script once the selection is not empty and the files are
    gathered: the batch over the files decides the ending. *)
Lemma main_runs (a : args) (w : world) (sf ss files : list string) :
  arg_help a = false ->
  select_checks E (arg_checks a) = (sf, ss) ->
  sf <> [] \/ ss <> [] ->
  fst (gather S E a w) = Ok files ->
  main S E a w
  = match check_each E (set_order S files) sf ss 0
                     (World (__init__ "" (arg_verbose a))
                            (stdout w
                               ++ (if arg_verbose a
                                   then ["Checking "
                                           ^^ Py.str_of_int
                                                (Z.of_nat (List.length files))
                                           ^^ " FZP files"]
                                   else []))
                            (calls w) (svg_doc w)) with
    | (Ok total, w3) =>
        if arg_verbose a || (0 <? total)
        then (Ok (Exited (Some total)),
              World (self w3)
                    (stdout w3 ++ ["Total errors: " ^^ Py.str_of_int total])
                    (calls w3) (svg_doc w3))
        else (Ok Finished, w3)
    | (Raise (ValueError msg), w3) =>
        (Ok (Exited (Some (-1))),
         World (self w3) (stdout w3 ++ [msg; help_text S])
               (calls w3) (svg_doc w3))
    | (Raise e, w3) => (Raise e, w3)
    end.
Proof.
  intros Hhelp Hsel Hsome Hgather. unfold main. rewrite Hhelp, Hsel.
  assert (Hbody :
            match sf, ss with
            | [], [] => raise (ValueError "No valid check types specified.")
            | _, _ =>
                bind (new_runner (arg_verbose a))
                     (fun _ =>
                        bind (gather S E a)
                             (fun fzp_files =>
                                bind (when (arg_verbose a)
                                           (print ("Checking "
                                                     ^^ Py.str_of_int
                                                          (Z.of_nat
                                                             (List.length fzp_files))
                                                     ^^ " FZP files")))
                                     (fun _ =>
                                        bind (check_each E (set_order S fzp_files)
                                                         sf ss 0)
                                             (fun total_errors =>
                                                if arg_verbose a
                                                   || (0 <? total_errors)
                                                then bind (print ("Total errors: "
                                                                    ^^ Py.str_of_int
                                                                         total_errors))
                                                          (fun _ =>
                                                             ret (Exited
                                                                    (Some total_errors)))
                                                else ret Finished))))
            end
            = bind (new_runner (arg_verbose a))
                   (fun _ =>
                      bind (gather S E a)
                           (fun fzp_files =>
                              bind (when (arg_verbose a)
                                         (print ("Checking "
                                                   ^^ Py.str_of_int
                                                        (Z.of_nat
                                                           (List.length fzp_files))
                                                   ^^ " FZP files")))
                                   (fun _ =>
                                      bind (check_each E (set_order S fzp_files)
                                                       sf ss 0)
                                           (fun total_errors =>
                                              if arg_verbose a
                                                 || (0 <? total_errors)
                                              then bind (print ("Total errors: "
                                                                  ^^ Py.str_of_int
                                                                       total_errors))
                                                        (fun _ =>
                                                           ret (Exited
                                                                  (Some total_errors)))
                                              else ret Finished))))).
  { destruct sf, ss; try reflexivity. destruct Hsome as [H|H]; now destruct H. }
  rewrite Hbody. clear Hbody.
  unfold try_except, bind at 1, new_runner at 1. unfold bind at 1.
  rewrite (gather_fixed a _ w), Hgather.
  unfold bind at 1.
  assert (Hwhen : when (arg_verbose a)
                       (print ("Checking "
                                 ^^ Py.str_of_int (Z.of_nat (List.length files))
                                 ^^ " FZP files"))
                       (World (__init__ "" (arg_verbose a)) (stdout w) (calls w)
                              (svg_doc w))
                  = (Ok tt,
                     World (__init__ "" (arg_verbose a))
                           (stdout w
                              ++ (if arg_verbose a
                                  then ["Checking "
                                          ^^ Py.str_of_int
                                               (Z.of_nat (List.length files))
                                          ^^ " FZP files"]
                                  else []))
                           (calls w) (svg_doc w))).
  { destruct (arg_verbose a); cbn; [reflexivity|now rewrite app_nil_r]. }
  rewrite Hwhen. clear Hwhen. unfold bind at 1.
  destruct (check_each E (set_order S files) sf ss 0 _) as [[total|e] w3].
  - destruct (arg_verbose a || (0 <? total)); reflexivity.
  - destruct e; cbn; try reflexivity. now rewrite <- app_assoc.
Qed.

(** X17. When the selection is not empty and every gathered part file
    is checked without an exception, the status the script exits with
    is the sum of the counts each file gets on a runner of its own, and
    the last line printed shows that sum; when not verbose and the sum
    is not positive the script prints no total and ends without calling
    [exit]. *)
Theorem exit_status_is_error_sum (a : args) (w : world)
        (sf ss files : list string) (total : Z) :
  arg_help a = false ->
  select_checks E (arg_checks a) = (sf, ss) ->
  sf <> [] \/ ss <> [] ->
  fst (gather S E a w) = Ok files ->
  batch_fresh E (arg_verbose a) sf ss (set_order S files) 0 = Ok total ->
  fst (main S E a w)
  = Ok (if arg_verbose a || (0 <? total) then Exited (Some total) else Finished)
  /\ (arg_verbose a || (0 <? total) = true ->
      last (stdout (snd (main S E a w))) ""
      = "Total errors: " ^^ Py.str_of_int total).
Proof.
  intros Hhelp Hsel Hsome Hgather Hbatch.
  rewrite (main_runs a w sf ss files Hhelp Hsel Hsome Hgather).
  match goal with
  | |- context [check_each E ?fs sf ss 0 ?W] =>
      pose proof (check_each_fresh E sf ss fs 0 W) as Hfresh
  end.
  cbn [self verbose __init__] in Hfresh. rewrite Hbatch in Hfresh.
  destruct (check_each E _ sf ss 0 _) as [[total'|e] w3];
    cbn [fst] in Hfresh; [|discriminate].
  injection Hfresh as ->.
  destruct (arg_verbose a || (0 <? total)); cbn [fst snd stdout].
  - split; [reflexivity|]. intros _. apply last_last.
  - split; [reflexivity|discriminate].
Qed.

(** X18. A [ValueError] raised while a part file is being checked (by a
    rule, for one) is shown as a command-line mistake: its message and
    the help text are the last lines printed and the script exits with
    status -1, the files after it unchecked.  Any other exception
    escapes the script. *)
Theorem value_error_ends_as_usage_error (a : args) (w : world)
        (sf ss files : list string) (e : exn) :
  arg_help a = false ->
  select_checks E (arg_checks a) = (sf, ss) ->
  sf <> [] \/ ss <> [] ->
  fst (gather S E a w) = Ok files ->
  batch_fresh E (arg_verbose a) sf ss (set_order S files) 0 = Raise e ->
  fst (main S E a w)
  = match e with
    | ValueError _ => Ok (Exited (Some (-1)))
    | _ => Raise e
    end
  /\ forall msg, e = ValueError msg ->
       exists earlier,
         stdout (snd (main S E a w)) = earlier ++ [msg; help_text S].
Proof.
  intros Hhelp Hsel Hsome Hgather Hbatch.
  rewrite (main_runs a w sf ss files Hhelp Hsel Hsome Hgather).
  match goal with
  | |- context [check_each E ?fs sf ss 0 ?W] =>
      pose proof (check_each_fresh E sf ss fs 0 W) as Hfresh
  end.
  cbn [self verbose __init__] in Hfresh. rewrite Hbatch in Hfresh.
  destruct (check_each E _ sf ss 0 _) as [[total'|e'] w3];
    cbn [fst] in Hfresh; [discriminate|].
  injection Hfresh as ->.
  split; [now destruct e|].
  intros msg ->. cbn [snd stdout]. now exists (stdout w3).
Qed.

(** X19. A path that is neither a file nor a directory, given without
    a list file, is not an error for the script: no part file is
    gathered, nothing is checked, and it ends as a clean run does,
    silently when not verbose and with status 0 when verbose. *)
Theorem unknown_path_ends_clean (a : args) (w : world) (sf ss : list string) :
  arg_help a = false ->
  select_checks E (arg_checks a) = (sf, ss) ->
  sf <> [] \/ ss <> [] ->
  given (arg_file a) = None ->
  isfile E (arg_path a) = false ->
  isdir S (arg_path a) = false ->
  set_order S [] = [] ->
  main S E a w
  = if arg_verbose a
    then (Ok (Exited (Some 0)),
          World (__init__ "" true)
                (stdout w ++ ["Checking 0 FZP files"; "Total errors: 0"])
                (calls w) (svg_doc w))
    else (Ok Finished,
          World (__init__ "" false) (stdout w) (calls w) (svg_doc w)).
Proof.
  intros Hhelp Hsel Hsome Hfile Hisfile Hisdir Horder.
  assert (Hgather : fst (gather S E a w) = Ok []).
  { unfold gather. rewrite Hfile, Hisfile, Hisdir.
    now destruct (given (arg_svg a)). }
  rewrite (main_runs a w sf ss [] Hhelp Hsel Hsome Hgather), Horder.
  cbn [check_each ret List.length Z.of_nat].
  destruct (arg_verbose a); cbn.
  - now rewrite <- app_assoc.
  - now rewrite app_nil_r.
Qed.

(** ** What is gathered *)


(** How the loop over the entries of a list file ends: with the set
    it was given and what the entries add to it, discovery having
    returned for every SVG entry, or with the exception of the first
    discovery that raised. *)
Lemma gather_listed_In (a : args) (file_list acc : list string) (w : world) :
  match fst (gather_listed E a file_list acc w) with
  | Ok fzp_files =>
      (forall entry,
         In entry file_list ->
         Py.endswith entry ".fzp" = false -> Py.endswith entry ".svg" = true ->
         exists found,
           _search_fzp_files_with_svg E entry (arg_path a) = Ok found)
      /\ forall p,
           In p fzp_files
           <-> In p acc
               \/ exists entry,
                    In entry file_list
                    /\ ((Py.endswith entry ".fzp" = true
                         /\ p = Py.join (arg_path a) entry)
                        \/ (Py.endswith entry ".fzp" = false
                            /\ Py.endswith entry ".svg" = true
                            /\ exists found,
                                 _search_fzp_files_with_svg E entry (arg_path a)
                                 = Ok found
                                 /\ In p found))
  | Raise e =>
      exists entry,
        In entry file_list
        /\ Py.endswith entry ".fzp" = false /\ Py.endswith entry ".svg" = true
        /\ _search_fzp_files_with_svg E entry (arg_path a) = Raise e
  end.
Proof.
  revert acc. induction file_list as [|filepath rest IH]; intros acc.
  - cbn. split; [intros entry []|]. intros p. split; [now left|].
    now intros [H|(entry & [] & _)].
  - cbn [gather_listed]. destruct (Py.endswith filepath ".fzp") eqn:Hfzp.
    + specialize (IH (set_add (Py.join (arg_path a) filepath) acc)).
      destruct (fst (gather_listed E a rest _ w)) as [fzp_files|e].
      * destruct IH as [Hall Hiff]. split.
        -- intros entry [<-|Hin] Hf Hs; [congruence|now apply Hall].
        -- intros p. rewrite Hiff, set_add_In. split.
           ++ intros [[->|Hacc]|(entry & Hin & Hadds)].
              ** right. exists filepath. split; [now left|]. left. now split.
              ** now left.
              ** right. exists entry. split; [now right|exact Hadds].
           ++ intros [Hacc|(entry & [<-|Hin] & Hadds)].
              ** left. now right.
              ** destruct Hadds as [[_ ->]|(Hf & _)]; [left; now left|].
                 congruence.
              ** right. now exists entry.
      * destruct IH as (entry & Hin & Hrest). exists entry.
        split; [now right|exact Hrest].
    + destruct (Py.endswith filepath ".svg") eqn:Hsvg.
      * unfold bind at 1, lift.
        destruct (_search_fzp_files_with_svg E filepath (arg_path a))
          as [found|e] eqn:Hsearch.
        -- specialize (IH (set_update found acc)).
           destruct (fst (gather_listed E a rest _ w)) as [fzp_files|e].
           ++ destruct IH as [Hall Hiff]. split.
              ** intros entry [<-|Hin] Hf Hs; [now exists found|now apply Hall].
              ** intros p. rewrite Hiff, set_update_In. split.
                 --- intros [[Hfound|Hacc]|(entry & Hin & Hadds)].
                     +++ right. exists filepath. split; [now left|]. right.
                         split; [exact Hfzp|]. split; [exact Hsvg|].
                         now exists found.
                     +++ now left.
                     +++ right. exists entry. split; [now right|exact Hadds].
                 --- intros [Hacc|(entry & [<-|Hin] & Hadds)].
                     +++ left. now right.
                     +++ destruct Hadds
                           as [[Hf _]|(_ & _ & found' & Hfound' & Hp)];
                           [congruence|].
                         rewrite Hsearch in Hfound'. injection Hfound' as <-.
                         left. now left.
                     +++ right. now exists entry.
           ++ destruct IH as (entry & Hin & Hrest). exists entry.
              split; [now right|exact Hrest].
        -- cbn [fst]. exists filepath. split; [now left|]. now repeat split.
      * specialize (IH acc).
        destruct (fst (gather_listed E a rest acc w)) as [fzp_files|e].
        -- destruct IH as [Hall Hiff]. split.
           ++ intros entry [<-|Hin] Hf Hs; [congruence|now apply Hall].
           ++ intros p. rewrite Hiff. split.
              ** intros [Hacc|(entry & Hin & Hadds)]; [now left|].
                 right. exists entry. split; [now right|exact Hadds].
              ** intros [Hacc|(entry & [<-|Hin] & Hadds)]; [now left| |].
                 --- destruct Hadds as [[Hf _]|(_ & Hs & _)]; congruence.
                 --- right. now exists entry.
        -- destruct IH as (entry & Hin & Hrest). exists entry.
           split; [now right|exact Hrest].
Qed.

(** X20. With a list file whose entries were read, gathering returns
    exactly when discovery returns for every entry ending in [.svg]
    (and not in [.fzp]); the part files it then returns are exactly:
    each entry ending in [.fzp], joined to [path] as it stands (whether
    or not such a file exists), and, for each of those SVG entries, the
    part files discovery finds for it under [path].  Other entries are
    ignored, and so are [--svg] and the listing of [path]. *)
Theorem list_file_gathers (a : args) (w : world) (file : string)
        (file_list : list string) :
  given (arg_file a) = Some file ->
  fst (file_entries S file w) = Ok file_list ->
  ((exists fzp_files, fst (gather S E a w) = Ok fzp_files)
   <-> forall entry,
         In entry file_list ->
         Py.endswith entry ".fzp" = false -> Py.endswith entry ".svg" = true ->
         exists found,
           _search_fzp_files_with_svg E entry (arg_path a) = Ok found)
  /\ forall fzp_files,
       fst (gather S E a w) = Ok fzp_files ->
       forall p,
         In p fzp_files
         <-> exists entry,
               In entry file_list
               /\ ((Py.endswith entry ".fzp" = true
                    /\ p = Py.join (arg_path a) entry)
                   \/ (Py.endswith entry ".fzp" = false
                       /\ Py.endswith entry ".svg" = true
                       /\ exists found,
                            _search_fzp_files_with_svg E entry (arg_path a)
                            = Ok found
                            /\ In p found)).
Proof.
  intros Hfile Hentries.
  assert (Hgather : fst (gather S E a w)
                    = fst (gather_listed E a file_list [] w)).
  { unfold gather. rewrite Hfile. unfold bind.
    destruct (file_entries S file w) as [[l|e] w'] eqn:Hrun;
      cbn [fst] in Hentries; [|discriminate].
    injection Hentries as ->.
    now rewrite (gather_listed_fixed a file_list [] w' w). }
  rewrite Hgather.
  pose proof (gather_listed_In a file_list [] w) as Hloop.
  destruct (fst (gather_listed E a file_list [] w)) as [gathered|e].
  - destruct Hloop as [Hall Hiff]. split.
    + split; [intros _; exact Hall|intros _; now exists gathered].
    + intros fzp_files [= <-] p. rewrite Hiff.
      split; [now intros [[]|H]|now right].
  - destruct Hloop as (entry & Hin & Hf & Hs & Hraise). split.
    + split; [intros (fzp_files & Hok); discriminate Hok|].
      intros Hall. destruct (Hall entry Hin Hf Hs) as (found & Hfound).
      congruence.
    + intros fzp_files Hok. discriminate Hok.
Qed.


End ScriptFacts.

(** * Properties of the unit tests *)

Section TestFacts.

Import Tests.

Variable E : host.

(** X22. [test_valid_xml] passes exactly when its fixture
    [test_data/core/valid_xml.fzp.test] parses; on a fixture that is
    not well-formed it fails on the count. *)
Theorem test_valid_xml_passes_iff :
  test_valid_xml E = Passed
  <-> exists doc, etree_parse E "test_data/core/valid_xml.fzp.test" = Ok doc.
Proof.
  unfold test_valid_xml. cbv zeta.
  change (Py.join test_data_dir "valid_xml.fzp.test")
    with "test_data/core/valid_xml.fzp.test".
  unfold start, __init__, verbose_setting. run_step.
  destruct (etree_parse E "test_data/core/valid_xml.fzp.test") as [doc|e].
  - split; [intros _; now exists doc|intros _]. reflexivity.
  - split; [|intros [doc Hdoc]; discriminate]. now destruct e.
Qed.

(** X23. [test_invalid_xml] passes exactly when parsing its fixture
    [test_data/core/invalid_xml.fzp.test] fails with an XML syntax
    error, whatever the message. *)
Theorem test_invalid_xml_passes_iff :
  test_invalid_xml E = Passed
  <-> exists msg,
        etree_parse E "test_data/core/invalid_xml.fzp.test"
        = Raise (XMLSyntaxError msg).
Proof.
  unfold test_invalid_xml. cbv zeta.
  change (Py.join test_data_dir "invalid_xml.fzp.test")
    with "test_data/core/invalid_xml.fzp.test".
  unfold start, __init__, verbose_setting. run_step.
  destruct (etree_parse E "test_data/core/invalid_xml.fzp.test") as [doc|e].
  - split; [|intros [msg Hmsg]; discriminate]. cbn. discriminate.
  - destruct e as [msg|msg|msg|name|msg];
      [|split; [discriminate|intros [msg' Hmsg]; discriminate]..].
    split; [intros _; now exists msg|intros _]. cbn. reflexivity.
Qed.

End TestFacts.

(** * The further properties of discovery, the script and the tests at work *)

Lemma found_paths_are_sound_witness :
  _search_fzp_files_with_svg FileTree.parts_host
                             "svg/core/breadboard/led.svg" "parts"
  = Ok ["parts/core/led.fzp"]
  /\ In "parts/core/led.fzp" ["parts/core/led.fzp"]
  /\ Py.endswith "parts/core/led.fzp" ".fzp" = true
  /\ exists fzp_content,
       read_text FileTree.parts_host "parts/core/led.fzp" = Ok fzp_content
       /\ Py.str_in (Py.basename "svg/core/breadboard/led.svg") fzp_content
          = true.
Proof.
  assert (Hin : In "parts/core/led.fzp" ["parts/core/led.fzp"]) by (now left).
  split; [reflexivity|]. split; [exact Hin|].
  destruct (found_paths_are_sound FileTree.parts_host
              "svg/core/breadboard/led.svg" "parts" "parts/core/led.fzp"
              ["parts/core/led.fzp"] eq_refl Hin)
    as (Hext & Hsub & _).
  split; [exact Hext|exact Hsub].
Defined.

Lemma obsolete_folders_are_cut_witness :
  Pruning.well_named FileTree.parts
  /\ ~ In "obsolete" (FileTree.segments "svg/core/breadboard/led.svg")
  /\ Pruning.prune FileTree.parts
     = FileTree.Dir ["README.md"]
         [("core", FileTree.Dir ["led.fzp"; "resistor.fzp"; "notes.txt"] [])]
  /\ _search_fzp_files_with_svg
       (Pruning.on_tree FileTree.parts_host FileTree.parts)
       "svg/core/breadboard/led.svg" "parts"
     = _search_fzp_files_with_svg
         (Pruning.on_tree FileTree.parts_host (Pruning.prune FileTree.parts))
         "svg/core/breadboard/led.svg" "parts".
Proof.
  assert (Hnamed : Pruning.well_named FileTree.parts).
  { constructor. intros name sub [[= <- <-]|[[= <- <-]|[]]].
    - split; [reflexivity|]. constructor. intros ? ? [].
    - split; [reflexivity|]. constructor. intros name sub [[= <- <-]|[]].
      split; [reflexivity|]. constructor. intros ? ? []. }
  assert (Hsvg : ~ In "obsolete"
                     (FileTree.segments "svg/core/breadboard/led.svg")).
  { cbn. intros [H|[H|[H|[H|[]]]]]; discriminate H. }
  split; [exact Hnamed|]. split; [exact Hsvg|]. split; [reflexivity|].
  exact (obsolete_folders_are_cut FileTree.parts_host
           "svg/core/breadboard/led.svg" "parts" FileTree.parts Hnamed Hsvg).
Defined.

Lemma selected_names_resolve_witness :
  Cli.select_checks Cli.disk ["all"; "ids"; "connector_terminal"; "nonsense"]
  = (["connector_terminal"], ["ids"])
  /\ (exists c,
        _get_checker Cli.disk "connector_terminal" (Document Sample.part_root)
                     (start Sample.runner)
        = (Ok (FzpInstance c (Document Sample.part_root)
                           (fzp_args "core/part.fzp" c)),
           start Sample.runner)
        /\ fzp_get_name Cli.disk c = "connector_terminal")
  /\ (exists c,
        _get_svg_checker Cli.disk "ids" Sample.pcb_svg ["copper0"]
                         (start Sample.runner)
        = (Ok (SvgInstance c Sample.pcb_svg ["copper0"]), start Sample.runner)
        /\ svg_get_name Cli.disk c = "ids").
Proof.
  split; [reflexivity|].
  pose proof (selected_names_resolve Cli.disk
                ["all"; "ids"; "connector_terminal"; "nonsense"]
                "connector_terminal" (Document Sample.part_root) Sample.pcb_svg
                ["copper0"] (start Sample.runner)) as [Hfzp _].
  pose proof (selected_names_resolve Cli.disk
                ["all"; "ids"; "connector_terminal"; "nonsense"]
                "ids" (Document Sample.part_root) Sample.pcb_svg
                ["copper0"] (start Sample.runner)) as [_ Hsvg].
  split; [apply Hfzp; now left|apply Hsvg; now left].
Defined.

Lemma all_selects_every_rule_witness :
  (forall name, In name (map (fzp_get_name Cli.disk) AVAILABLE_CHECKERS) ->
                ~ In name (map (svg_get_name Cli.disk) SVG_AVAILABLE_CHECKERS))
  /\ Cli.select_checks Cli.disk ["all"]
     = (["missing_tags"; "connector_terminal"; "connector_visibility";
         "pcb_connector_stroke"],
        ["font_size"; "viewbox"; "ids"]).
Proof.
  assert (Hdisjoint :
            forall name,
              In name (map (fzp_get_name Cli.disk) AVAILABLE_CHECKERS) ->
              ~ In name (map (svg_get_name Cli.disk) SVG_AVAILABLE_CHECKERS)).
  { cbn. intros name [<-|[<-|[<-|[<-|[]]]]] [H|[H|[H|[]]]]; discriminate H. }
  split; [exact Hdisjoint|].
  exact (all_selects_every_rule Cli.disk Hdisjoint).
Defined.

Lemma no_valid_checks_exits_witness :
  Cli.arg_help (Cli.quiet "core" ["all"; "all"]) = false
  /\ Cli.arg_checks (Cli.quiet "core" ["all"; "all"]) <> ["all"]
  /\ Cli.main Cli.desk Cli.disk (Cli.quiet "core" ["all"; "all"])
              (start Sample.runner)
     = (Ok (Cli.Exited (Some (-1))),
        World Sample.runner
              ["No valid check types specified."; Cli.help_text Cli.desk]
              [] None).
Proof.
  assert (Hne : Cli.arg_checks (Cli.quiet "core" ["all"; "all"]) <> ["all"])
    by discriminate.
  assert (Hnone :
            Forall (fun name =>
                      ~ In name (map (fzp_get_name Cli.disk) AVAILABLE_CHECKERS)
                      /\ ~ In name (map (svg_get_name Cli.disk)
                                        SVG_AVAILABLE_CHECKERS))
                   (Cli.arg_checks (Cli.quiet "core" ["all"; "all"]))).
  { repeat constructor; cbn; intros H;
      repeat (destruct H as [H|H]; [discriminate H|]); exact H. }
  split; [reflexivity|]. split; [exact Hne|].
  exact (no_valid_checks_exits Cli.desk Cli.disk
           (Cli.quiet "core" ["all"; "all"]) (start Sample.runner)
           eq_refl Hne Hnone).
Defined.

Lemma exit_status_is_error_sum_witness :
  Cli.select_checks Cli.disk ["missing_tags"; "connector_terminal"]
  = (["missing_tags"; "connector_terminal"], [])
  /\ fst (Cli.gather Cli.desk Cli.disk
            (Cli.quiet "core" ["missing_tags"; "connector_terminal"])
            (start Sample.runner))
     = Ok ["core/part.fzp"; "core/bare.fzp"]
  /\ batch_fresh Cli.disk false ["missing_tags"; "connector_terminal"] []
                 ["core/part.fzp"; "core/bare.fzp"] 0
     = Ok 2
  /\ fst (Cli.main Cli.desk Cli.disk
            (Cli.quiet "core" ["missing_tags"; "connector_terminal"])
            (start Sample.runner))
     = Ok (Cli.Exited (Some 2))
  /\ last (stdout (snd (Cli.main Cli.desk Cli.disk
                          (Cli.quiet "core" ["missing_tags"; "connector_terminal"])
                          (start Sample.runner)))) ""
     = "Total errors: 2".
Proof.
  assert (Hsome : ["missing_tags"; "connector_terminal"] <> []
                  \/ @nil string <> []) by (left; discriminate).
  pose proof (exit_status_is_error_sum Cli.desk Cli.disk
                (Cli.quiet "core" ["missing_tags"; "connector_terminal"])
                (start Sample.runner)
                ["missing_tags"; "connector_terminal"] []
                ["core/part.fzp"; "core/bare.fzp"] 2
                eq_refl eq_refl Hsome eq_refl eq_refl) as [Hfst Hlast].
  do 3 (split; [reflexivity|]). split; [exact Hfst|exact (Hlast eq_refl)].
Defined.

Lemma value_error_ends_as_usage_error_witness :
  Cli.select_checks Cli.disk_bad_number ["connector_visibility"]
  = (["connector_visibility"], [])
  /\ fst (Cli.gather Cli.desk Cli.disk_bad_number
            (Cli.quiet "core/bare.fzp" ["connector_visibility"])
            (start Sample.runner))
     = Ok ["core/bare.fzp"]
  /\ batch_fresh Cli.disk_bad_number false ["connector_visibility"] []
                 ["core/bare.fzp"] 0
     = Raise (ValueError "could not convert string to float: 'a'")
  /\ fst (Cli.main Cli.desk Cli.disk_bad_number
            (Cli.quiet "core/bare.fzp" ["connector_visibility"])
            (start Sample.runner))
     = Ok (Cli.Exited (Some (-1))).
Proof.
  assert (Hsome : ["connector_visibility"] <> [] \/ @nil string <> [])
    by (left; discriminate).
  do 3 (split; [reflexivity|]).
  exact (proj1 (value_error_ends_as_usage_error Cli.desk Cli.disk_bad_number
                  (Cli.quiet "core/bare.fzp" ["connector_visibility"])
                  (start Sample.runner) ["connector_visibility"] []
                  ["core/bare.fzp"]
                  (ValueError "could not convert string to float: 'a'")
                  eq_refl eq_refl Hsome eq_refl eq_refl)).
Defined.

Lemma unknown_path_ends_clean_witness :
  Cli.select_checks Cli.disk ["missing_tags"] = (["missing_tags"], [])
  /\ isfile Cli.disk "core/prat.fzp" = false
  /\ Cli.isdir Cli.desk "core/prat.fzp" = false
  /\ Cli.set_order Cli.desk [] = []
  /\ Cli.main Cli.desk Cli.disk (Cli.quiet "core/prat.fzp" ["missing_tags"])
              (start Sample.runner)
     = (Ok Cli.Finished, World (__init__ "" false) [] [] None).
Proof.
  assert (Hsome : ["missing_tags"] <> [] \/ @nil string <> [])
    by (left; discriminate).
  do 4 (split; [reflexivity|]).
  exact (unknown_path_ends_clean Cli.desk Cli.disk
           (Cli.quiet "core/prat.fzp" ["missing_tags"]) (start Sample.runner)
           ["missing_tags"] [] eq_refl eq_refl Hsome eq_refl eq_refl eq_refl
           eq_refl).
Defined.

Lemma list_file_gathers_witness :
  Cli.given (Some "changed.txt") = Some "changed.txt"
  /\ fst (Cli.file_entries Cli.desk_with_list "changed.txt" (start Sample.runner))
     = Ok ["part.fzp"; ""; "pcb/part.svg"; "README.md"; "part.fzp"]
  /\ fst (Cli.gather Cli.desk_with_list Cli.disk
            {| Cli.arg_path := "core"; Cli.arg_checks := ["all"];
               Cli.arg_svg := Some "led.svg";
               Cli.arg_file := Some "changed.txt";
               Cli.arg_verbose := false; Cli.arg_help := false |}
            (start Sample.runner))
     = Ok ["core/part.fzp"]
  /\ forall p,
       In p ["core/part.fzp"]
       <-> exists entry,
             In entry ["part.fzp"; ""; "pcb/part.svg"; "README.md";
                       "part.fzp"]
             /\ ((Py.endswith entry ".fzp" = true
                  /\ p = Py.join "core" entry)
                 \/ (Py.endswith entry ".fzp" = false
                     /\ Py.endswith entry ".svg" = true
                     /\ exists found,
                          _search_fzp_files_with_svg Cli.disk entry "core"
                          = Ok found
                          /\ In p found)).
Proof.
  split; [reflexivity|]. split; [reflexivity|]. split; [reflexivity|].
  exact (proj2 (list_file_gathers Cli.desk_with_list Cli.disk
                  {| Cli.arg_path := "core"; Cli.arg_checks := ["all"];
                     Cli.arg_svg := Some "led.svg";
                     Cli.arg_file := Some "changed.txt";
                     Cli.arg_verbose := false; Cli.arg_help := false |}
                  (start Sample.runner) "changed.txt"
                  ["part.fzp"; ""; "pcb/part.svg"; "README.md"; "part.fzp"]
                  eq_refl eq_refl)
               ["core/part.fzp"] eq_refl).
Defined.

